(** * seqio: evaluation loggers and metric values

    A shallow embedding of [seqio/loggers.py] and of the [MetricValue]
    dataclasses of [seqio/metrics.py], with the properties of the loggers
    and of the JSON encoder stated and proved over it.

    Conventions of the embedding:
    - a Python [str] is the list of its code points, [bytes] a list of
      [Byte.byte], an [int] is a [Z];
    - exceptions are values of [exn], a computation that can raise returns
      a [result];
    - the file system, the log and the summary writers are explicit state,
      threaded through the state-and-exception monad [M];
    - the recursion of [json.dumps] through [default] is bounded by a
      recursion limit, past which Python raises [RecursionError];
    - reads of the clock are not modelled. *)

From stdpp Require Import gmap strings list.
From Stdlib Require Import ZArith NArith Strings.Byte Ascii DecimalN DecimalPos.

Local Open Scope Z_scope.
Local Open Scope list_scope.

(** ** Python strings, bytes and numbers *)

Abbreviation pystr := (list N).
Abbreviation pybytes := (list byte).

(** A literal of the source, as code points. *)
Fixpoint lit (s : string) : pystr :=
  match s with
  | EmptyString => []
  | String a r => N_of_ascii a :: lit r
  end.

Arguments lit : simpl never.

(** [sep.join(parts)] *)
Fixpoint str_join (sep : pystr) (parts : list pystr) : pystr :=
  match parts with
  | [] => []
  | [p] => p
  | p :: rest => p ++ sep ++ str_join sep rest
  end.

(** [s[1:-1]] *)
Definition slice_1_m1 (s : pystr) : pystr :=
  take (length s - 1 - 1)%nat (drop 1 s).

(** [s.startswith(p)] and [s.endswith(p)] *)
Fixpoint startswith (s p : pystr) {struct p} : bool :=
  match p with
  | [] => true
  | c :: p' =>
    match s with
    | d :: s' => (c =? d)%N && startswith s' p'
    | [] => false
    end
  end.

Definition endswith (s p : pystr) : bool := startswith (rev s) (rev p).

(** The decimal digits of a natural number, most significant first. *)
Fixpoint uint_codes (u : Decimal.uint) : pystr :=
  match u with
  | Decimal.Nil => []
  | Decimal.D0 r => 48%N :: uint_codes r
  | Decimal.D1 r => 49%N :: uint_codes r
  | Decimal.D2 r => 50%N :: uint_codes r
  | Decimal.D3 r => 51%N :: uint_codes r
  | Decimal.D4 r => 52%N :: uint_codes r
  | Decimal.D5 r => 53%N :: uint_codes r
  | Decimal.D6 r => 54%N :: uint_codes r
  | Decimal.D7 r => 55%N :: uint_codes r
  | Decimal.D8 r => 56%N :: uint_codes r
  | Decimal.D9 r => 57%N :: uint_codes r
  end.

Definition digits_of (n : N) : pystr := uint_codes (N.to_uint n).

(** [int.__repr__] *)
Definition int_repr (z : Z) : pystr :=
  (if z <? 0 then lit "-" else []) ++ digits_of (Z.abs_N z).

(** [format(z, "06")]: sign first, then zeros up to a width of six. *)
Definition format_06 (z : Z) : pystr :=
  let sign := if z <? 0 then lit "-" else [] in
  let digits := digits_of (Z.abs_N z) in
  sign ++ replicate (6 - length sign - length digits)%nat 48%N ++ digits.

(** [os.path.join(a, b)] of posixpath. *)
Definition path_join (a b : pystr) : pystr :=
  if startswith b (lit "/") then b
  else if (bool_decide (a = []) || endswith a (lit "/"))%bool then a ++ b
  else a ++ lit "/" ++ b.

(** A Python [float]: an IEEE-754 value, finite ones as sign, mantissa and
    binary exponent. The narrower formats (float16, bfloat16, float32) hold
    a subset of these values, so widening one of them keeps the value. *)
Inductive pyfloat :=
  | FNan
  | FInf (negative : bool)
  | FFinite (negative : bool) (mantissa : N) (exponent : Z).

(** ** Exceptions and results *)

Inductive exn :=
  | TypeError
  | ValueError
  | AttributeError
  | RecursionError
  | NotFoundError.

Inductive result (A : Type) :=
  | Ok (a : A)
  | Raise (e : exn).
Arguments Ok {A} a.
Arguments Raise {A} e.

#[export] Instance result_ret : MRet result := @Ok.
#[export] Instance result_bind : MBind result := fun A B f r =>
  match r with
  | Ok a => f a
  | Raise e => Raise e
  end.

#[export] Instance exn_eq_dec : EqDecision exn.
Proof. solve_decision. Defined.

(** [try: ... except TypeError: handler] *)
Definition except_TypeError {A} (body : result A) (handler : result A) : result A :=
  match body with
  | Raise TypeError => handler
  | r => r
  end.

Definition is_ok {A} (r : result A) : bool :=
  match r with Ok _ => true | Raise _ => false end.

(** ** numpy arrays and scalars, TensorFlow tensors *)

(** The floating-point types of 16, 32 and 64 bits, the integer types of
    8 to 64 bits and the complex types of 64 and 128 bits, which numpy and
    TensorFlow share. [np.longdouble] and [np.clongdouble], whose [item()]
    stays a numpy scalar, are not among the types of the model. *)
Inductive fkind := F16 | BF16 | F32 | F64.
Inductive iwidth := W8 | W16 | W32 | W64.
Inductive cwidth := C64 | C128.

(** The dtypes of the arrays and tensors of the model. *)
Inductive dtype :=
  | DBool
  | DInt (signed : bool) (w : iwidth)
  | DFloat (k : fkind)
  | DComplex (w : cwidth)
  | DObject.

#[export] Instance fkind_eq_dec : EqDecision fkind.
Proof. solve_decision. Defined.
#[export] Instance iwidth_eq_dec : EqDecision iwidth.
Proof. solve_decision. Defined.
#[export] Instance cwidth_eq_dec : EqDecision cwidth.
Proof. solve_decision. Defined.
#[export] Instance dtype_eq_dec : EqDecision dtype.
Proof. solve_decision. Defined.

(** An instance of a numpy scalar type (a subclass of [np.generic]). *)
Inductive npscalar :=
  | SBool (b : bool)
  | SInt (signed : bool) (w : iwidth) (z : Z)
  | SFloat (k : fkind) (f : pyfloat)
  | SComplex (w : cwidth) (re im : pyfloat).

(** The flat contents of an array, typed by its dtype; an array of dtype
    object holds arbitrary Python objects. *)
Inductive nddata (O : Type) :=
  | NBool (xs : list bool)
  | NInt (signed : bool) (w : iwidth) (xs : list Z)
  | NFloat (k : fkind) (xs : list pyfloat)
  | NComplex (w : cwidth) (xs : list (pyfloat * pyfloat))
  | NObject (xs : list O).
Arguments NBool {O} xs.
Arguments NInt {O} signed w xs.
Arguments NFloat {O} k xs.
Arguments NComplex {O} w xs.
Arguments NObject {O} xs.

(** An instance of [np.ndarray] or of a subclass of it, [nd_class] being
    [type(obj).__name__]. *)
Record ndarray (O : Type) := mk_ndarray {
  nd_class : pystr;
  nd_shape : list nat;
  nd_data : nddata O
}.
Arguments mk_ndarray {O} nd_class nd_shape nd_data.
Arguments nd_class {O} _.
Arguments nd_shape {O} _.
Arguments nd_data {O} _.

(** The contents of an eager [tf.Tensor], typed by its dtype; a string
    tensor holds [bytes]. *)
Inductive tfdata :=
  | TBool (xs : list bool)
  | TInt (signed : bool) (w : iwidth) (xs : list Z)
  | TFloat (k : fkind) (xs : list pyfloat)
  | TComplex (w : cwidth) (xs : list (pyfloat * pyfloat))
  | TString (xs : list pybytes).

Record tensor := mk_tensor {
  t_shape : list nat;
  t_data : tfdata
}.

(** ** Python objects *)

#[warnings="-register-all"]
Inductive pyobj :=
  | PNone
  | PBool (b : bool)
  | PInt (z : Z)
  | PFloat (f : pyfloat)
  | PComplex (re im : pyfloat)
  | PStr (s : pystr)
  | PBytes (b : pybytes)
  | PList (xs : list pyobj)
  | PTuple (xs : list pyobj)
  | PDict (kvs : list (pystr * pyobj))
  | PNpScalar (s : npscalar)
  | PNdarray (a : ndarray pyobj)
  | PTensor (t : tensor)
  (** a [tf.RaggedTensor], given by the array its [numpy()] returns *)
  | PRaggedTensor (a : ndarray pyobj)
  (** an instance of any other class, without a [dtype] attribute *)
  | PObject (cls : pystr).

Definition nd_dtype {O} (d : nddata O) : dtype :=
  match d with
  | NBool _ => DBool
  | NInt s w _ => DInt s w
  | NFloat k _ => DFloat k
  | NComplex w _ => DComplex w
  | NObject _ => DObject
  end.

(** [str(dtype)] *)
Definition iwidth_str (w : iwidth) : pystr :=
  match w with W8 => lit "8" | W16 => lit "16" | W32 => lit "32" | W64 => lit "64" end.

Definition dtype_str (d : dtype) : pystr :=
  match d with
  | DBool => lit "bool"
  | DInt true w => lit "int" ++ iwidth_str w
  | DInt false w => lit "uint" ++ iwidth_str w
  | DFloat F16 => lit "float16"
  | DFloat BF16 => lit "bfloat16"
  | DFloat F32 => lit "float32"
  | DFloat F64 => lit "float64"
  | DComplex C64 => lit "complex64"
  | DComplex C128 => lit "complex128"
  | DObject => lit "object"
  end.

(** [obj.size]: the product of the dimensions. *)
Definition shape_size (shape : list nat) : nat := foldr Nat.mul 1%nat shape.

Definition nd_size {O} (a : ndarray O) : nat := shape_size (nd_shape a).

(** [scalar.item()]: the Python object of a numpy scalar. bfloat16 is an
    extension type, whose elements are handed out as they are. *)
Definition scalar_item (s : npscalar) : pyobj :=
  match s with
  | SBool b => PBool b
  | SInt _ _ z => PInt z
  | SFloat BF16 f => PNpScalar (SFloat BF16 f)
  | SFloat _ f => PFloat f
  | SComplex _ re im => PComplex re im
  end.

(** The elements of an array as numpy scalars, objects as themselves. *)
Definition nd_elements (d : nddata pyobj) : list pyobj :=
  match d with
  | NBool xs => (fun b => PNpScalar (SBool b)) <$> xs
  | NInt s w xs => (fun z => PNpScalar (SInt s w z)) <$> xs
  | NFloat k xs => (fun f => PNpScalar (SFloat k f)) <$> xs
  | NComplex w xs => (fun c => PNpScalar (SComplex w c.1 c.2)) <$> xs
  | NObject xs => xs
  end.

Definition element_item (o : pyobj) : pyobj :=
  match o with
  | PNpScalar s => scalar_item s
  | _ => o
  end.

(** [a.reshape([-1]).tolist()]: the elements in order, as Python objects. *)
Definition flat_tolist (d : nddata pyobj) : list pyobj :=
  element_item <$> nd_elements d.

(** [n] consecutive chunks of [k] elements. *)
Fixpoint chunks {A} (n k : nat) (xs : list A) : list (list A) :=
  match n with
  | O => []
  | S n' => take k xs :: chunks n' k (drop k xs)
  end.

(** The nested list of a shape over flat contents; a zero-dimensional
    array gives its single element. *)
Fixpoint nest (shape : list nat) (xs : list pyobj) : pyobj :=
  match shape with
  | [] => match xs with x :: _ => x | [] => PNone end
  | n :: rest => PList (nest rest <$> chunks n (shape_size rest) xs)
  end.

(** [a.tolist()] *)
Definition tolist (a : ndarray pyobj) : pyobj :=
  nest (nd_shape a) (flat_tolist (nd_data a)).

(** [a.astype(np.float32)] and [tf.cast(t, tf.float32)] on bfloat16
    contents: every bfloat16 value is a float32 value, the contents are
    kept. The source requests the conversion of bfloat16 only. *)
Definition data_to_float32 {O} (d : nddata O) : nddata O :=
  match d with
  | NFloat BF16 xs => NFloat F32 xs
  | d => d
  end.

Definition astype_float32 (a : ndarray pyobj) : ndarray pyobj :=
  mk_ndarray (nd_class a) (nd_shape a) (data_to_float32 (nd_data a)).

(** [t.dtype == tf.bfloat16] *)
Definition is_tf_bfloat16 (t : tensor) : bool :=
  match t_data t with
  | TFloat BF16 _ => true
  | _ => false
  end.

Definition tf_cast_float32 (t : tensor) : tensor :=
  mk_tensor (t_shape t)
    match t_data t with
    | TFloat BF16 xs => TFloat F32 xs
    | d => d
    end.

(** The contents of a tensor as those of a numpy array: numpy has no
    dtype for strings of any length and holds them as objects. *)
Definition tf_to_nd (d : tfdata) : nddata pyobj :=
  match d with
  | TBool xs => NBool xs
  | TInt s w xs => NInt s w xs
  | TFloat k xs => NFloat k xs
  | TComplex w xs => NComplex w xs
  | TString xs => NObject (PBytes <$> xs)
  end.

(** [t.numpy()] of an eager tensor: an [ndarray], or for a tensor of rank
    zero a numpy scalar (a [bytes] object for a string tensor). *)
Definition tensor_numpy (t : tensor) : pyobj :=
  match t_shape t with
  | [] => match nd_elements (tf_to_nd (t_data t)) with x :: _ => x | [] => PNone end
  | shape => PNdarray (mk_ndarray (lit "ndarray") shape (tf_to_nd (t_data t)))
  end.

(** A tensor holds as many elements as its shape says. *)
Definition tensor_length (t : tensor) : nat :=
  match t_data t with
  | TBool xs => length xs
  | TInt _ _ xs => length xs
  | TFloat _ xs => length xs
  | TComplex _ xs => length xs
  | TString xs => length xs
  end.

Definition tensor_wf (t : tensor) : bool :=
  bool_decide (tensor_length t = shape_size (t_shape t)).

(** [str(shape)]: the repr of a tuple of ints. *)
Definition shape_str (shape : list nat) : pystr :=
  match shape with
  | [n] => lit "(" ++ int_repr (Z.of_nat n) ++ lit ",)"
  | _ => lit "(" ++ str_join (lit ", ") ((fun n => int_repr (Z.of_nat n)) <$> shape) ++ lit ")"
  end.

(** ** [seqio/metrics.py]: the [MetricValue] dataclasses *)

Module metrics.

(** [Union[int, float]] *)
Inductive number :=
  | Int (z : Z)
  | Float (f : pyfloat).

(** [Union[str, bytes]] *)
Inductive text :=
  | Str (s : pystr)
  | Bytes (b : pybytes).

(** [tf.compat.v1.SummaryMetadata], by its serialized form. *)
Inductive SummaryMetadata :=
  | summary_metadata (serialized : pybytes).

(** An instance of [MetricValue]: of one of its dataclasses, or of the
    base class alone, which has no field. *)
Inductive MetricValue :=
  | MetricValue_
  | Scalar (value : number)
  | Text (textdata : text)
  | Image (image : ndarray pyobj) (max_outputs : Z)
  | Audio (audiodata : ndarray pyobj) (sample_rate : Z) (max_outputs : Z)
  | Histogram (values : ndarray pyobj) (bins : option Z)
  | Generic (tensor : ndarray pyobj) (metadata : SummaryMetadata).

(** The [__init__] that [dataclasses.dataclass] generates: a field with a
    default is an optional argument. *)
Definition Scalar_init (value : number) : MetricValue := Scalar value.

Definition Text_init (textdata : text) : MetricValue := Text textdata.

Definition Image_init (image : ndarray pyobj) (max_outputs : option Z) : MetricValue :=
  Image image (default 3 max_outputs).

Definition Audio_init (audiodata : ndarray pyobj) (sample_rate max_outputs : option Z)
    : MetricValue :=
  Audio audiodata (default 44100 sample_rate) (default 3 max_outputs).

Definition Histogram_init (values : ndarray pyobj) (bins : option (option Z))
    : MetricValue :=
  Histogram values (default None bins).

Definition Generic_init (tensor : ndarray pyobj) (metadata : SummaryMetadata)
    : MetricValue :=
  Generic tensor metadata.

(** The classes that the module declares, with their bases, their
    decorators and their annotated fields. *)
Inductive pyclass :=
  | CMetricValue | CScalar | CText | CImage | CAudio | CHistogram | CGeneric
  | CFeature | CModelOutputType | CSquad | CLegacyMetricClu.

#[global] Instance pyclass_eq_dec : EqDecision pyclass.
Proof. solve_decision. Defined.

Definition all_classes : list pyclass :=
  [CMetricValue; CScalar; CText; CImage; CAudio; CHistogram; CGeneric;
   CFeature; CModelOutputType; CSquad; CLegacyMetricClu].

Inductive base :=
  | Declared (c : pyclass)
  | Imported (name : string).

#[global] Instance base_eq_dec : EqDecision base.
Proof. solve_decision. Defined.

Definition bases (c : pyclass) : list base :=
  match c with
  | CMetricValue => []
  | CScalar | CText | CImage | CAudio | CHistogram | CGeneric => [Declared CMetricValue]
  | CFeature => []
  | CModelOutputType => [Imported "enum.Enum"]
  | CSquad | CLegacyMetricClu => [Imported "clu.metrics.Metric"]
  end.

Inductive decorator :=
  | dataclasses_dataclass (frozen : bool)
  | flax_struct_dataclass.

Definition decorators (c : pyclass) : list decorator :=
  match c with
  | CMetricValue | CScalar | CText | CImage | CAudio | CHistogram | CGeneric =>
    [dataclasses_dataclass false]
  | CFeature => [dataclasses_dataclass true]
  | CModelOutputType => []
  | CSquad | CLegacyMetricClu => [flax_struct_dataclass]
  end.

(** The default of a field, as the source writes it. *)
Inductive default_value :=
  | DefaultInt (z : Z)
  | DefaultBool (b : bool)
  | DefaultNone
  | DefaultExpr (e : string).

Record field := mk_field {
  field_name : string;
  field_type : string;
  field_default : option default_value
}.

Definition fields (c : pyclass) : list field :=
  match c with
  | CMetricValue => []
  | CScalar => [mk_field "value" "Union[int, float]" None]
  | CText => [mk_field "textdata" "Union[str, bytes]" None]
  | CImage =>
    [mk_field "image" "np.ndarray" None;
     mk_field "max_outputs" "int" (Some (DefaultInt 3))]
  | CAudio =>
    [mk_field "audiodata" "np.ndarray" None;
     mk_field "sample_rate" "int" (Some (DefaultInt 44100));
     mk_field "max_outputs" "int" (Some (DefaultInt 3))]
  | CHistogram =>
    [mk_field "values" "np.ndarray" None;
     mk_field "bins" "Optional[int]" (Some DefaultNone)]
  | CGeneric =>
    [mk_field "tensor" "np.ndarray" None;
     mk_field "metadata" "tf.compat.v1.SummaryMetadata" None]
  | CFeature =>
    [mk_field "vocabulary" "Vocabulary" None;
     mk_field "add_eos" "bool" (Some (DefaultBool true));
     mk_field "required" "bool" (Some (DefaultBool true));
     mk_field "dtype" "tf.DType" (Some (DefaultExpr "tf.int32"));
     mk_field "rank" "int" (Some (DefaultInt 1))]
  | CModelOutputType => []
  | CSquad =>
    [mk_field "metric_fn_kwargs" "Dict[str, Any]" None;
     mk_field "model_output_type" "ModelOutputType"
       (Some (DefaultExpr "ModelOutputType.PREDICTION"))]
  | CLegacyMetricClu =>
    [mk_field "_metric_fn" "MetricFnCallable" None;
     mk_field "_postprocess_fn" "Callable[..., Any]" None;
     mk_field "model_output_type" "ModelOutputType" None;
     mk_field "metric_fn_kwargs" "Dict[str, Any]" None]
  end.

(** [issubclass(c, d)]: no declared class has a declared class above its
    direct base. *)
Definition issubclass (c d : pyclass) : bool :=
  bool_decide (c = d) || bool_decide (Declared d ∈ bases c).

(** [type(v)] *)
Definition class_of (v : MetricValue) : pyclass :=
  match v with
  | MetricValue_ => CMetricValue
  | Scalar _ => CScalar
  | Text _ => CText
  | Image _ _ => CImage
  | Audio _ _ _ => CAudio
  | Histogram _ _ => CHistogram
  | Generic _ _ => CGeneric
  end.

Definition isinstance (v : MetricValue) (c : pyclass) : bool :=
  issubclass (class_of v) c.

(** [cls.__name__] *)
Definition class_name (c : pyclass) : pystr :=
  match c with
  | CMetricValue => lit "MetricValue"
  | CScalar => lit "Scalar"
  | CText => lit "Text"
  | CImage => lit "Image"
  | CAudio => lit "Audio"
  | CHistogram => lit "Histogram"
  | CGeneric => lit "Generic"
  | CFeature => lit "Feature"
  | CModelOutputType => lit "ModelOutputType"
  | CSquad => lit "Squad"
  | CLegacyMetricClu => lit "LegacyMetricClu"
  end.

(** The Python object of a field. *)
Definition number_obj (n : number) : pyobj :=
  match n with
  | Int z => PInt z
  | Float f => PFloat f
  end.

Definition text_obj (t : text) : pyobj :=
  match t with
  | Str s => PStr s
  | Bytes b => PBytes b
  end.

End metrics.

(** ** [bytes.decode("utf-8")] and [base64.b64encode] *)

Definition is_cont (b : N) : bool := ((128 <=? b) && (b <=? 191))%N.

Definition cont_bits (b : N) : N := (b - 128)%N.

(** The strict decoder of Python: no overlong forms, no surrogates, nothing
    above U+10FFFF. [None] stands for [UnicodeDecodeError]. *)
Fixpoint utf8_decode_N (bs : list N) : option pystr :=
  match bs with
  | [] => Some []
  | b0 :: r0 =>
    if (b0 <? 128)%N then cons b0 <$> utf8_decode_N r0
    else if ((194 <=? b0) && (b0 <=? 223))%N then
      match r0 with
      | b1 :: r1 =>
        if is_cont b1
        then cons ((b0 - 192) * 64 + cont_bits b1)%N <$> utf8_decode_N r1
        else None
      | _ => None
      end
    else if ((224 <=? b0) && (b0 <=? 239))%N then
      match r0 with
      | b1 :: b2 :: r2 =>
        if (is_cont b1 && is_cont b2
            && negb ((b0 =? 224) && (b1 <? 160))
            && negb ((b0 =? 237) && (160 <=? b1)))%N
        then cons ((b0 - 224) * 4096 + cont_bits b1 * 64 + cont_bits b2)%N
               <$> utf8_decode_N r2
        else None
      | _ => None
      end
    else if ((240 <=? b0) && (b0 <=? 244))%N then
      match r0 with
      | b1 :: b2 :: b3 :: r3 =>
        if (is_cont b1 && is_cont b2 && is_cont b3
            && negb ((b0 =? 240) && (b1 <? 144))
            && negb ((b0 =? 244) && (144 <=? b1)))%N
        then cons ((b0 - 240) * 262144 + cont_bits b1 * 4096
                   + cont_bits b2 * 64 + cont_bits b3)%N
               <$> utf8_decode_N r3
        else None
      | _ => None
      end
    else None
  end.

Definition utf8_decode (b : pybytes) : option pystr :=
  utf8_decode_N (Byte.to_N <$> b).

Definition byte_of_N (n : N) : byte := default "000"%byte (Byte.of_N n).

(** The alphabet of RFC 4648 section 4. *)
Definition b64_char (i : N) : byte :=
  byte_of_N (if (i <? 26)%N then 65 + i
             else if (i <? 52)%N then 97 + (i - 26)
             else if (i <? 62)%N then 48 + (i - 52)
             else if (i =? 62)%N then 43
             else 47)%N.

Definition b64_pad : byte := "="%byte.

Fixpoint b64encode (bs : pybytes) : pybytes :=
  match bs with
  | [] => []
  | [x] =>
    let n := Byte.to_N x in
    [b64_char (n / 4); b64_char (n mod 4 * 16); b64_pad; b64_pad]%N
  | [x; y] =>
    let n := (Byte.to_N x * 256 + Byte.to_N y)%N in
    [b64_char (n / 1024); b64_char (n / 16 mod 64);
     b64_char (n mod 16 * 4); b64_pad]%N
  | x :: y :: z :: rest =>
    let n := (Byte.to_N x * 65536 + Byte.to_N y * 256 + Byte.to_N z)%N in
    b64_char (n / 262144)%N :: b64_char (n / 4096 mod 64)%N
      :: b64_char (n / 64 mod 64)%N :: b64_char (n mod 64)%N
      :: b64encode rest
  end.

(** ** [json.dumps] *)

Definition hex_digit (n : N) : N :=
  (if n <? 10 then 48 + n else 87 + n)%N.

(** [\uXXXX] *)
Definition u_escape (n : N) : pystr :=
  [92; 117; hex_digit (n / 4096 mod 16); hex_digit (n / 256 mod 16);
   hex_digit (n / 16 mod 16); hex_digit (n mod 16)]%N.

(** The replacement of one character by [py_encode_basestring_ascii]. *)
Definition escape_char (c : N) : pystr :=
  (if c =? 34 then [92; 34]
   else if c =? 92 then [92; 92]
   else if c =? 10 then [92; 110]
   else if c =? 13 then [92; 114]
   else if c =? 9 then [92; 116]
   else if c =? 12 then [92; 102]
   else if c =? 8 then [92; 98]
   else if (32 <=? c) && (c <=? 126) then [c]
   else if c <? 65536 then u_escape c
   else u_escape (55296 + (c - 65536) / 1024 mod 1024)
          ++ u_escape (56320 + (c - 65536) mod 1024))%N.

Definition encode_basestring_ascii (s : pystr) : pystr :=
  [34%N] ++ mjoin (escape_char <$> s) ++ [34%N].

(** ** Python dicts, [zip_longest] *)

(** A dict keeps the order of insertion; setting a key that is present
    replaces its value in place. *)
Fixpoint dict_set {V} (d : list (pystr * V)) (k : pystr) (v : V) : list (pystr * V) :=
  match d with
  | [] => [(k, v)]
  | (k', v') :: r => if bool_decide (k' = k) then (k, v) :: r else (k', v') :: dict_set r k v
  end.

Fixpoint dict_get {V} (d : list (pystr * V)) (k : pystr) : option V :=
  match d with
  | [] => None
  | (k', v) :: r => if bool_decide (k' = k) then Some v else dict_get r k
  end.

(** [{**d, **e}]: the items of [e] set one after the other. *)
Definition dict_update {V} (d e : list (pystr * V)) : list (pystr * V) :=
  foldl (fun acc kv => dict_set acc kv.1 kv.2) d e.

(** [itertools.zip_longest] of four sequences: as many entries as the
    longest has, a missing element being [None]. *)
Definition zip_longest {A B C D} (xs : list A) (ys : list B) (zs : list C) (ws : list D)
    : list (option A * option B * option C * option D) :=
  (fun i => (xs !! i, ys !! i, zs !! i, ws !! i))
    <$> seq 0 (Nat.max (Nat.max (length xs) (length ys))
               (Nat.max (length zs) (length ws))).

Definition or_None (o : option pyobj) : pyobj := default PNone o.

(** ** The file system, the log, the summary writers *)

(** What [tf.io.gfile] does to the files: a file is made, or emptied, and
    then extended by what is written to it; [rename(src, dst,
    overwrite=True)] moves the contents of [src] to [dst]. *)
Inductive fsop :=
  | FOpenW (p : pystr)
  | FWrite (p : pystr) (s : pystr)
  | FRename (src dst : pystr).

Definition fs_apply (fs : gmap pystr pystr) (op : fsop) : gmap pystr pystr :=
  match op with
  | FOpenW p => <[p := []]> fs
  | FWrite p s => <[p := default [] (fs !! p) ++ s]> fs
  | FRename src dst =>
    match fs !! src with
    | Some c => <[dst := c]> (delete src fs)
    | None => fs
    end
  end.

Inductive which_field := prediction_field | target_field.

(** The records of [absl.logging], by call site. *)
Inductive logrec :=
  | Warning_no_step
  | Warning_skipping_metric (metric_name : pystr) (type : metrics.pyclass)
  | Warning_not_serializable (which : which_field)
  | Info_appending_metrics (metrics_fname : pystr)
  | Info_writing_inferences (inferences_fname : pystr)
  | Info_writing_completed
  | Info_tag_at_step (tag : pystr) (step : Z) (value : metrics.number).

(** The state outside the loggers: files, the operations on them in the
    order they were made, and the log. *)
Record world := mk_world {
  w_fs : gmap pystr pystr;
  w_ops : list fsop;
  w_log : list logrec
}.

(** Computations over a state [S] that can raise; what was done before an
    exception stays done. *)
Definition M (S A : Type) : Type := S -> result A * S.

#[export] Instance M_ret {S} : MRet (M S) := fun A a s => (Ok a, s).
#[export] Instance M_bind {S} : MBind (M S) := fun A B f m s =>
  match m s with
  | (Ok a, s') => f a s'
  | (Raise e, s') => (Raise e, s')
  end.

Definition raise {S A} (e : exn) : M S A := fun s => (Raise e, s).

Definition lift {S A} (r : result A) : M S A := fun s => (r, s).

(** [for x in xs: body(x)] *)
Fixpoint for_each {S A} (xs : list A) (body : A -> M S unit) : M S unit :=
  match xs with
  | [] => mret tt
  | x :: r => _ ← body x; for_each r body
  end.

(** The same, with an object [h] that the body changes. *)
Fixpoint for_each_with {S A H} (xs : list A) (h : H) (body : H -> A -> M S H) : M S H :=
  match xs with
  | [] => mret h
  | x :: r => h' ← body h x; for_each_with r h' body
  end.

Definition logging (r : logrec) : M world unit := fun w =>
  (Ok tt, mk_world (w_fs w) (w_ops w) (w_log w ++ [r])).

Definition fs_do (op : fsop) : M world unit := fun w =>
  (Ok tt, mk_world (fs_apply (w_fs w) op) (w_ops w ++ [op]) (w_log w)).

(** [tf.io.gfile.exists(p)] *)
Definition gfile_exists (p : pystr) : M world bool := fun w =>
  (Ok (bool_decide (is_Some (w_fs w !! p))), w).

(** [GFile(p, "r").read()] *)
Definition gfile_read (p : pystr) : M world pystr := fun w =>
  match w_fs w !! p with
  | Some c => (Ok c, w)
  | None => (Raise NotFoundError, w)
  end.

(** A [GFile] made with mode ["w"]. The constructor leaves the file
    alone: it is the first [write] that makes it, empty, through
    [FileIO._prewrite_check]; closing a [GFile] to which nothing was
    written does nothing. *)
Record GFile := mk_GFile {
  gf_name : pystr;
  gf_writable : bool
}.

Definition GFile_w (name : pystr) : GFile := mk_GFile name false.

(** [f.write(s)] *)
Definition gfile_write (f : GFile) (s : pystr) : M world GFile :=
  _ ← (if gf_writable f then mret tt else fs_do (FOpenW (gf_name f)));
  _ ← fs_do (FWrite (gf_name f) s);
  mret (mk_GFile (gf_name f) true).

(** A [tf.compat.v1.Summary] with one value, added at a step. *)
Record event := mk_event {
  ev_tag : pystr;
  ev_simple_value : metrics.number;
  ev_step : Z
}.

(** A [tf.compat.v1.summary.FileWriter]: the events added since the last
    flush, and the events flushed to its directory. *)
Record FileWriter := mk_FileWriter {
  fw_logdir : pystr;
  fw_pending : list event;
  fw_flushed : list event
}.

Definition FileWriter_init (logdir : pystr) : FileWriter :=
  mk_FileWriter logdir [] [].

Definition add_summary (e : event) (fw : FileWriter) : FileWriter :=
  mk_FileWriter (fw_logdir fw) (fw_pending fw ++ [e]) (fw_flushed fw).

Definition flush (fw : FileWriter) : FileWriter :=
  mk_FileWriter (fw_logdir fw) [] (fw_flushed fw ++ fw_pending fw).

(** [class Logger(abc.ABC)]: a logger has an output directory and is
    called with the results of a task; the call may change the logger. *)
Class Logger (L : Type) := {
  output_dir : L -> pystr;
  __call__ : L -> pystr -> option Z -> list (pystr * metrics.MetricValue)
             -> list (list (pystr * pyobj)) -> list (pystr * list pyobj)
             -> list pyobj -> world -> result unit * (L * world)
}.

(** A [repr] to run the examples with: exact on [None], the booleans and
    the ints, a placeholder elsewhere. *)
Definition example_repr (o : pyobj) : pystr :=
  match o with
  | PNone => lit "None"
  | PBool true => lit "True"
  | PBool false => lit "False"
  | PInt z => int_repr z
  | _ => lit "<object>"
  end.


(** Arrays and a world to run the examples with. *)
Definition example_small : ndarray pyobj :=
  mk_ndarray (lit "ndarray") [2; 3]%nat (NInt true W64 [1; 2; 3; 4; 5; 6]).

Definition example_large : ndarray pyobj :=
  mk_ndarray (lit "ndarray") [40]%nat (NInt true W64 (Z.of_nat <$> seq 0 40)).

Definition empty_world : world := mk_world ∅ [] [].

(** ** [str.encode("utf-8")] *)

(** A code point that UTF-8 has a form for: up to U+10FFFF and not a
    surrogate. *)
Definition is_scalar_value (c : N) : bool :=
  ((c <? 55296) || ((57344 <=? c) && (c <? 1114112)))%N.

(** The bytes of a code point: one to four, the shortest form. *)
Definition utf8_encode_char (c : N) : list N :=
  (if c <? 128 then [c]
   else if c <? 2048 then [192 + c / 64; 128 + c mod 64]
   else if c <? 65536 then [224 + c / 4096; 128 + c / 64 mod 64; 128 + c mod 64]
   else [240 + c / 262144; 128 + c / 4096 mod 64; 128 + c / 64 mod 64;
         128 + c mod 64])%N.

(** [None] stands for [UnicodeEncodeError], which a surrogate raises. *)
Definition utf8_encode (s : pystr) : option pybytes :=
  if forallb is_scalar_value s
  then Some (byte_of_N <$> mjoin (utf8_encode_char <$> s))
  else None.

(** The place of a character in the alphabet of base64. *)
Definition b64_index (c : byte) : N :=
  let v := Byte.to_N c in
  (if (65 <=? v) && (v <=? 90) then v - 65
   else if (97 <=? v) && (v <=? 122) then v - 71
   else if (48 <=? v) && (v <=? 57) then v + 4
   else if v =? 43 then 62
   else 63)%N.

(** ** [seqio/metrics.py]: [ModelOutputType] and [LegacyMetricClu] *)

Module clu_metrics.

(** [class ModelOutputType(enum.Enum)] *)
Inductive ModelOutputType :=
  | PREDICTION
  | SCORE
  | PREDICTION_WITH_AUX
  | SCORE_WITH_INTERMEDIATES.

#[global] Instance ModelOutputType_eq_dec : EqDecision ModelOutputType.
Proof. solve_decision. Defined.

(** The members in the order of their definition, [list(ModelOutputType)]. *)
Definition members : list ModelOutputType :=
  [PREDICTION; SCORE; PREDICTION_WITH_AUX; SCORE_WITH_INTERMEDIATES].

(** [enm.name] and [enm.value] *)
Definition name (enm : ModelOutputType) : pystr :=
  match enm with
  | PREDICTION => lit "PREDICTION"
  | SCORE => lit "SCORE"
  | PREDICTION_WITH_AUX => lit "PREDICTION_WITH_AUX"
  | SCORE_WITH_INTERMEDIATES => lit "SCORE_WITH_INTERMEDIATES"
  end.

Definition value (enm : ModelOutputType) : Z :=
  match enm with
  | PREDICTION => 1
  | SCORE => 2
  | PREDICTION_WITH_AUX => 3
  | SCORE_WITH_INTERMEDIATES => 4
  end.

(** [d[k]] on a dict whose keys are members; [None] stands for
    [KeyError]. *)
Fixpoint getitem {V} (d : list (ModelOutputType * V)) (k : ModelOutputType) : option V :=
  match d with
  | [] => None
  | (k', v) :: r => if bool_decide (k' = k) then Some v else getitem r k
  end.

(** [ModelOutputType.to_str(enm)] *)
Definition to_str (enm : ModelOutputType) : option pystr :=
  getitem [(PREDICTION, lit "prediction");
           (SCORE, lit "score");
           (PREDICTION_WITH_AUX, lit "prediction_with_aux");
           (SCORE_WITH_INTERMEDIATES, lit "score_with_intermediates")] enm.

(** An [inspect.Parameter] of [inspect.signature(f).parameters]: its name, its
    kind and its default; [None] stands for [inspect.Parameter.empty]. The
    default is compared to it with [==]: a default whose [==] is not the
    one of plain objects, an array or a tensor, is outside the model. *)
Inductive kind :=
  | POSITIONAL_ONLY
  | POSITIONAL_OR_KEYWORD
  | VAR_POSITIONAL
  | KEYWORD_ONLY
  | VAR_KEYWORD.

Record param := mk_param {
  param_name : pystr;
  param_kind : kind;
  param_default : option pyobj
}.

(** A Python function, by its qualified name and its signature. *)
Record function := mk_function {
  qualname : pystr;
  parameters : list param
}.

(** [class LegacyMetricClu(clu.metrics.Metric)]; the postprocessing
    function may be [None]. *)
Record LegacyMetricClu := mk_LegacyMetricClu {
  _metric_fn : function;
  _postprocess_fn : option function;
  model_output_type : ModelOutputType;
  metric_fn_kwargs : list (pystr * pyobj)
}.

(** The names of the parameters that have no default, lines 164 to 167. *)
Definition pos_args (metric_fn : function) : list pystr :=
  param_name <$> filter (fun param => param_default param = None) (parameters metric_fn).

(** [LegacyMetricClu.empty(metric_fn, postprocess_fn)] *)
Definition empty (metric_fn : function) (postprocess_fn : option function)
    : result LegacyMetricClu :=
  let pos_args := pos_args metric_fn in
  model_output_type ←
    (if bool_decide (pos_args = [lit "targets"; lit "scores"]) then Ok SCORE
     else if bool_decide (pos_args = [lit "targets"; lit "predictions"]) then Ok PREDICTION
     else if bool_decide (pos_args = [lit "targets"; lit "predictions"; lit "aux_values"])
          then Ok PREDICTION_WITH_AUX
     else Raise ValueError);
  Ok (mk_LegacyMetricClu metric_fn postprocess_fn model_output_type []).

(** *** [from_model_output]

    The vocabularies, the postprocessing functions and the model outputs
    come from outside of the module. A computation returns or raises: what
    it can raise here is [KeyError] from a mapping, [UnboundLocalError],
    [UnicodeDecodeError] from [bytes.decode], and whatever the calls to the
    outside raise, [IndexError] from a sequence for one. *)
Inductive error :=
  | KeyError (key : pystr)
  | IndexError
  | UnboundLocalError (name : pystr)
  | UnicodeDecodeError
  | Exn (e : exn).

Inductive outcome (A : Type) :=
  | Returns (a : A)
  | Raises (e : error).
Arguments Returns {A} a.
Arguments Raises {A} e.

#[global] Instance outcome_ret : MRet outcome := @Returns.
#[global] Instance outcome_bind : MBind outcome := fun A B f r =>
  match r with
  | Returns a => f a
  | Raises e => Raises e
  end.
#[global] Instance outcome_fmap : FMap outcome := fun A B f r =>
  match r with
  | Returns a => Returns (f a)
  | Raises e => Raises e
  end.

(** [d[k]] on a mapping with [str] keys. *)
Definition item {V} (d : list (pystr * V)) (k : pystr) : outcome V :=
  match dict_get d k with
  | Some v => Returns v
  | None => Raises (KeyError k)
  end.

(** [seqio.vocabularies.Vocabulary], of which [decode] is used. *)
Class Vocabulary (V : Type) := {
  decode : V -> pyobj -> outcome pyobj
}.

(** [class Feature]; [tf.int32] is the default of [dtype]. *)
Record Feature (V : Type) := mk_Feature {
  vocabulary : V;
  add_eos : bool;
  required : bool;
  Feature_dtype : dtype;
  rank : Z
}.
Arguments mk_Feature {V} vocabulary add_eos required Feature_dtype rank.
Arguments vocabulary {V} _.

Definition Feature_init {V} (vocabulary : V) (add_eos required : option bool)
    (dtype : option dtype) (rank : option Z) : Feature V :=
  mk_Feature vocabulary (default true add_eos) (default true required)
    (default (DInt true W32) dtype) (default 1 rank).

(** What is left to the interpreter: the elements that an iteration over an
    object gives, [int(x)], [obj[i]], and the call [f(x, **kwargs)] of a
    function. *)
Class Interpreter := {
  py_iter : pyobj -> outcome (list pyobj);
  py_int : pyobj -> outcome Z;
  py_getitem : pyobj -> Z -> outcome pyobj;
  py_call : function -> pyobj -> list (pystr * pyobj) -> outcome pyobj
}.

Section from_model_output.

Context {V : Type} {Voc : Vocabulary V} {Py : Interpreter}.

(** [LegacyMetricClu.postprocess_fn]; a function object is true, [None]
    is not. *)
Definition postprocess_fn (self : LegacyMetricClu) (targets_or_predictions : pyobj)
    (postprocess_kwargs : list (pystr * pyobj)) : outcome pyobj :=
  match _postprocess_fn self with
  | Some f => py_call f targets_or_predictions postprocess_kwargs
  | None => Returns targets_or_predictions
  end.

(** [bytes.decode("utf-8")] on what is [bytes], lines 207 and 208. *)
Definition decode_if_bytes (target : pyobj) : outcome pyobj :=
  match target with
  | PBytes b =>
    match utf8_decode b with
    | Some s => Returns (PStr s)
    | None => Raises UnicodeDecodeError
    end
  | _ => Returns target
  end.

(** Lines 201 to 211: the target of an example. *)
Definition target_of_example (self : LegacyMetricClu) (features : list (pystr * Feature V))
    (target_field_name : pystr) (ex : list (pystr * pyobj)) : outcome pyobj :=
  let pretokenized_target_field_name := target_field_name ++ lit "_pretokenized" in
  target ←
    (if bool_decide (is_Some (dict_get ex pretokenized_target_field_name))
     then item ex pretokenized_target_field_name
     else
       feature ← item features target_field_name;
       field ← item ex target_field_name;
       xs ← py_iter field;
       ints ← mapM py_int xs;
       decode (vocabulary feature) (PList (PInt <$> ints)));
  target ← decode_if_bytes target;
  postprocess_fn self target [(lit "example", PDict ex); (lit "is_target", PBool true)].

(** [self.metric_fn_kwargs[k] = v]: the dict of the metric is changed in
    place. *)
Definition set_kwarg (self : LegacyMetricClu) (k : pystr) (v : pyobj) : LegacyMetricClu :=
  mk_LegacyMetricClu (_metric_fn self) (_postprocess_fn self) (model_output_type self)
    (dict_set (metric_fn_kwargs self) k v).

(** [LegacyMetricClu.from_model_output]: what the call returns or raises,
    and the metric after it; the metric that is returned is this one. *)
Definition from_model_output (self : LegacyMetricClu) (inputs : list (list (pystr * pyobj)))
    (model_output : pyobj) (features : list (pystr * Feature V))
    (target_field_name : option pystr) : outcome unit * LegacyMetricClu :=
  let target_field_name := default (lit "targets") target_field_name in
  match mapM (target_of_example self features target_field_name) inputs with
  | Raises e => (Raises e, self)
  | Returns postprocessed_targets =>
    let self := set_kwarg self (lit "targets") (PList postprocessed_targets) in
    match model_output_type self with
    | SCORE => (Returns tt, set_kwarg self (lit "scores") model_output)
    | type =>
      match item features (lit "targets") with
      | Raises e => (Raises e, self)
      | Returns feature =>
        let vocab := vocabulary feature in
        let '(predictions, self) :=
          match type with
          | PREDICTION_WITH_AUX =>
            match py_getitem model_output 1 with
            | Raises e => (Raises e, self)
            | Returns aux_values =>
              (rows ← py_getitem model_output 0 ≫= py_iter; mapM (decode vocab) rows,
               set_kwarg self (lit "aux_values") aux_values)
            end
          | PREDICTION => (rows ← py_iter model_output; mapM (decode vocab) rows, self)
          | _ => (Raises (UnboundLocalError (lit "predictions")), self)
          end in
        match
          predictions ← predictions;
          mapM (fun ex_p : list (pystr * pyobj) * pyobj =>
                  postprocess_fn self ex_p.2
                    [(lit "example", PDict ex_p.1); (lit "is_target", PBool false)])
            (zip inputs predictions)
        with
        | Raises e => (Raises e, self)
        | Returns postprocessed_predictions =>
          (Returns tt, set_kwarg self (lit "predictions") (PList postprocessed_predictions))
        end
      end
    end
  end.

(** [class Squad(clu.metrics.Metric)] *)
Record Squad := mk_Squad {
  Squad_metric_fn_kwargs : list (pystr * pyobj);
  Squad_model_output_type : ModelOutputType
}.

(** The [__init__] of the dataclass: [model_output_type] has a default. *)
Definition Squad_init (metric_fn_kwargs : list (pystr * pyobj))
    (model_output_type : option ModelOutputType) : Squad :=
  mk_Squad metric_fn_kwargs (default PREDICTION model_output_type).

(** [tf.compat.as_text] *)
Definition as_text (a : pyobj) : outcome pyobj :=
  match a with
  | PStr s => Returns (PStr s)
  | PBytes b =>
    match utf8_decode b with
    | Some s => Returns (PStr s)
    | None => Raises UnicodeDecodeError
    end
  | _ => Raises (Exn TypeError)
  end.

(** [Squad.from_model_output] *)
Definition Squad_from_model_output (inputs : list (list (pystr * pyobj)))
    (model_output : pyobj) (features : list (pystr * Feature V))
    (target_field_name : option pystr) : outcome Squad :=
  postprocessed_targets ←
    mapM (fun ex => answers ← item ex (lit "answers");
                    answers ← py_iter answers;
                    PList <$> mapM as_text answers) inputs;
  let kwargs := [(lit "targets", PList postprocessed_targets)] in
  feature ← item features (lit "targets");
  let vocab := vocabulary feature in
  tokens ← py_iter model_output;
  predictions ← mapM (decode vocab) tokens;
  let kwargs := dict_set kwargs (lit "predictions") (PList predictions) in
  Returns (Squad_init kwargs None).

End from_model_output.

End clu_metrics.

(** [str.lower] on ASCII. *)
Definition ascii_lower (s : pystr) : pystr :=
  (fun c => if (65 <=? c) && (c <=? 90) then c + 32 else c)%N <$> s.

(** A vocabulary, an interpreter and a function for the examples: the
    vocabulary takes an id for the code point of a character; lists and
    tuples are iterated and indexed, [int] is taken of an [int] or a [bool];
    the function named [lower] is [lambda s, **kwargs: s.lower()], any other
    returns its first argument. *)
Inductive CodePoints := code_points.

Definition code_point_of (o : pyobj) : option N :=
  match o with
  | PInt z => if bool_decide (0 <= z) then Some (Z.to_N z) else None
  | _ => None
  end.

Definition CodePoints_vocabulary : clu_metrics.Vocabulary CodePoints := {|
  clu_metrics.decode _ ids :=
    match ids with
    | PList xs | PTuple xs =>
      match mapM code_point_of xs with
      | Some s => clu_metrics.Returns (PStr s)
      | None => clu_metrics.Raises (clu_metrics.Exn ValueError)
      end
    | _ => clu_metrics.Raises (clu_metrics.Exn TypeError)
    end
|}.

Definition example_getitem (xs : list pyobj) (i : Z) : clu_metrics.outcome pyobj :=
  let i := if i <? 0 then i + Z.of_nat (length xs) else i in
  if i <? 0 then clu_metrics.Raises clu_metrics.IndexError
  else match xs !! Z.to_nat i with
       | Some x => clu_metrics.Returns x
       | None => clu_metrics.Raises clu_metrics.IndexError
       end.

Definition example_interpreter : clu_metrics.Interpreter := {|
  clu_metrics.py_iter o :=
    match o with
    | PList xs | PTuple xs => clu_metrics.Returns xs
    | _ => clu_metrics.Raises (clu_metrics.Exn TypeError)
    end;
  clu_metrics.py_int o :=
    match o with
    | PInt z => clu_metrics.Returns z
    | PBool b => clu_metrics.Returns (if b then 1 else 0)
    | _ => clu_metrics.Raises (clu_metrics.Exn TypeError)
    end;
  clu_metrics.py_getitem o i :=
    match o with
    | PList xs | PTuple xs => example_getitem xs i
    | _ => clu_metrics.Raises (clu_metrics.Exn TypeError)
    end;
  clu_metrics.py_call f x kwargs :=
    if bool_decide (clu_metrics.qualname f = lit "lower")
    then match x with
         | PStr s => clu_metrics.Returns (PStr (ascii_lower s))
         | _ => clu_metrics.Raises (clu_metrics.Exn AttributeError)
         end
    else clu_metrics.Returns x
|}.

(** ** The encoder and the loggers

    Two things are left to the interpreter: the builtin [repr], which the
    encoder uses for the elements it shows of a large array and [json] for
    finite floats, and the depth at which Python gives up a recursion. *)

Section Loggers.

Variable py_repr : pyobj -> pystr.
Variable recursion_limit : nat.

(** [str(xs)] of a list *)
Definition list_str (xs : list pyobj) : pystr :=
  lit "[" ++ str_join (lit ", ") (py_repr <$> xs) ++ lit "]".

(** [float.__repr__] through [json.encoder.floatstr], with [allow_nan]. *)
Definition floatstr (f : pyfloat) : pystr :=
  match f with
  | FNan => lit "NaN"
  | FInf false => lit "Infinity"
  | FInf true => lit "-Infinity"
  | FFinite _ _ _ => py_repr (PFloat f)
  end.

(** The chunks of the elements of a list and of the items of a dict, in
    order; the first exception ends the encoding. *)
Definition encode_items (enc : pyobj -> result pystr)
    : list pyobj -> result (list pystr) :=
  fix items (xs : list pyobj) : result (list pystr) :=
    match xs with
    | [] => Ok []
    | x :: r => s ← enc x; ss ← items r; mret (s :: ss)
    end.

Definition encode_pairs (enc : pyobj -> result pystr)
    : list (pystr * pyobj) -> result (list pystr) :=
  fix items (kvs : list (pystr * pyobj)) : result (list pystr) :=
    match kvs with
    | [] => Ok []
    | (k, v) :: r =>
      s ← enc v; ss ← items r;
      mret ((encode_basestring_ascii k ++ lit ": " ++ s) :: ss)
    end.

(** [JSONEncoder.iterencode], chunks joined. What is neither a [str], a
    number, [None], a list, a tuple or a dict goes through [default], and
    the object it returns is encoded in turn; [depth] bounds these
    re-entries. [np.float64] is a subclass of [float]. *)
Fixpoint iterencode (default : pyobj -> result pyobj) (depth : nat)
    {struct depth} : pyobj -> result pystr :=
  fix enc (o : pyobj) : result pystr :=
    match o with
    | PNone => Ok (lit "null")
    | PBool true => Ok (lit "true")
    | PBool false => Ok (lit "false")
    | PInt z => Ok (int_repr z)
    | PFloat f => Ok (floatstr f)
    | PNpScalar (SFloat F64 f) => Ok (floatstr f)
    | PStr s => Ok (encode_basestring_ascii s)
    | PList xs | PTuple xs =>
      parts ← encode_items enc xs;
      mret (lit "[" ++ str_join (lit ", ") parts ++ lit "]")
    | PDict kvs =>
      parts ← encode_pairs enc kvs;
      mret (lit "{" ++ str_join (lit ", ") parts ++ lit "}")
    | _ =>
      o' ← default o;
      match depth with
      | O => Raise RecursionError
      | S d => iterencode default d o'
      end
    end.

(** [json.JSONEncoder.default] *)
Definition JSONEncoder_default (o : pyobj) : result pyobj := Raise TypeError.

(** ** [TensorAndNumpyEncoder] *)

Record TensorAndNumpyEncoder := {
  max_ndarray_size : Z
}.

(** [TensorAndNumpyEncoder()]: [max_ndarray_size=32] *)
Definition TensorAndNumpyEncoder_init (max_ndarray_size : option Z) : TensorAndNumpyEncoder :=
  {| max_ndarray_size := default 32 max_ndarray_size |}.

(** Where [np.dtype(type(obj)).type] (or [type(obj)] itself, for a numpy
    scalar) stands in the hierarchy of numpy scalar types. *)
Inductive np_class :=
  | NpBool
  | NpInteger
  | NpFloating
  | NpComplexFloating
  | NpBfloat16
  | NpStr
  | NpBytes
  | NpObject.

Definition np_class_of (obj : pyobj) : np_class :=
  match obj with
  | PBool _ | PNpScalar (SBool _) => NpBool
  | PInt _ | PNpScalar (SInt _ _ _) => NpInteger
  | PNpScalar (SFloat BF16 _) => NpBfloat16
  | PFloat _ | PNpScalar (SFloat _ _) => NpFloating
  | PComplex _ _ | PNpScalar (SComplex _ _ _) => NpComplexFloating
  | PStr _ => NpStr
  | PBytes _ => NpBytes
  | _ => NpObject
  end.

(** [np.issubdtype(type(obj), np.number)] *)
Definition issubdtype_number (obj : pyobj) : bool :=
  match np_class_of obj with
  | NpInteger | NpFloating | NpComplexFloating => true
  | _ => false
  end.

(** [np.issubdtype(type(obj), np.bool_)] *)
Definition issubdtype_bool (obj : pyobj) : bool :=
  match np_class_of obj with
  | NpBool => true
  | _ => false
  end.

(** [obj.item()]: a method of numpy scalars, missing from the builtin
    numbers. *)
Definition py_item (obj : pyobj) : result pyobj :=
  match obj with
  | PNpScalar s => Ok (scalar_item s)
  | _ => Raise AttributeError
  end.

(** [hasattr(obj, "dtype") and obj.dtype == tf.bfloat16.as_numpy_dtype] *)
Definition has_bfloat16_dtype (obj : pyobj) : bool :=
  match obj with
  | PNpScalar (SFloat BF16 _) => true
  | PNdarray a | PRaggedTensor a => bool_decide (nd_dtype (nd_data a) = DFloat BF16)
  | PTensor t => is_tf_bfloat16 t
  | _ => false
  end.

(** [float(obj)] *)
Definition py_float (obj : pyobj) : result pyobj :=
  match obj with
  | PNpScalar (SFloat _ f) | PFloat f => Ok (PFloat f)
  | _ => Raise TypeError
  end.

(** [a[:n]] on flat contents. *)
Definition data_take {O} (n : nat) (d : nddata O) : nddata O :=
  match d with
  | NBool xs => NBool (take n xs)
  | NInt s w xs => NInt s w (take n xs)
  | NFloat k xs => NFloat k (take n xs)
  | NComplex w xs => NComplex w (take n xs)
  | NObject xs => NObject (take n xs)
  end.

Definition TensorAndNumpyEncoder_default (self : TensorAndNumpyEncoder)
    (obj : pyobj) : result pyobj :=
  let obj :=
    match obj with
    | PTensor t =>
      let t := if is_tf_bfloat16 t then tf_cast_float32 t else t in
      tensor_numpy t
    | _ => obj
    end in
  match obj with
  | PNdarray a =>
    let obj_dtype := nd_dtype (nd_data a) in
    let a := if bool_decide (dtype_str (nd_dtype (nd_data a)) = lit "bfloat16")
             then astype_float32 a else a in
    if Z.of_nat (nd_size a) <=? max_ndarray_size self
    then Ok (tolist a)
    else
      let first_five_str :=
        slice_1_m1 (list_str (flat_tolist (data_take 5 (nd_data a)))) in
      Ok (PStr (nd_class a ++ lit "(shape=" ++ shape_str (nd_shape a)
                ++ lit ", dtype=" ++ dtype_str obj_dtype ++ lit "); "
                ++ lit "first: " ++ first_five_str ++ lit " ..."))
  | _ =>
    if (issubdtype_number obj || issubdtype_bool obj)%bool then py_item obj
    else if has_bfloat16_dtype obj then py_float obj
    else
      match obj with
      | PBytes b =>
        match utf8_decode b with
        | Some s => Ok (PStr s)
        | None => Ok (PBytes (b64encode b))
        end
      | _ => JSONEncoder_default obj
      end
  end.

(** [json.dumps(o, cls=...)], the encoder class given by the [default]
    method of its instances. *)
Definition json_dumps (default : pyobj -> result pyobj) (o : pyobj) : result pystr :=
  iterencode default recursion_limit o.

(** ** [TensorBoardLogger] *)

Record TensorBoardLogger := mk_TensorBoardLogger {
  tb_output_dir : pystr;
  _summary_writers : gmap pystr FileWriter
}.

Definition TensorBoardLogger_init (output_dir : pystr) : TensorBoardLogger :=
  mk_TensorBoardLogger output_dir ∅.

Definition tb_logging (r : logrec) : M (TensorBoardLogger * world) unit := fun s =>
  (Ok tt, (s.1, mk_world (w_fs s.2) (w_ops s.2) (w_log s.2 ++ [r]))).

(** The writer of a task is shared through the dict of the logger: it is
    named by its key. *)
Definition _get_summary_writer (task_name : pystr) : M (TensorBoardLogger * world) pystr :=
  fun s =>
    let self := s.1 in
    match _summary_writers self !! task_name with
    | Some _ => (Ok task_name, s)
    | None =>
      (Ok task_name,
       (mk_TensorBoardLogger (tb_output_dir self)
          (<[task_name := FileWriter_init (path_join (tb_output_dir self) task_name)]>
             (_summary_writers self)),
        s.2))
    end.

Definition on_writer (summary_writer : pystr) (f : FileWriter -> FileWriter)
    : M (TensorBoardLogger * world) unit := fun s =>
  (Ok tt,
   (mk_TensorBoardLogger (tb_output_dir s.1) (alter f summary_writer (_summary_writers s.1)),
    s.2)).

(** Lines 117 to 127: one metric of the loop. *)
Definition TensorBoardLogger_log_metric (summary_writer : pystr) (step : Z)
    (item : pystr * metrics.MetricValue) : M (TensorBoardLogger * world) unit :=
  let metric_name := item.1 in
  match item.2 with
  | metrics.Scalar value =>
    let tag := lit "eval/" ++ metric_name in
    _ ← tb_logging (Info_tag_at_step tag step value);
    on_writer summary_writer (add_summary (mk_event tag value step))
  | _ => raise ValueError
  end.

Definition TensorBoardLogger_call (task_name : pystr) (step : option Z)
    (metrics : list (pystr * metrics.MetricValue))
    : M (TensorBoardLogger * world) unit :=
  step ← match step with
         | None => _ ← tb_logging Warning_no_step; mret (-1)
         | Some step => mret step
         end;
  summary_writer ← _get_summary_writer task_name;
  _ ← for_each metrics (TensorBoardLogger_log_metric summary_writer step);
  on_writer summary_writer flush.

(** ** [JSONLogger] *)

Record JSONLogger := mk_JSONLogger {
  json_output_dir : pystr;
  _write_n_results : option Z;
  _json_encoder_cls : pyobj -> result pyobj
}.

Definition JSONLogger_init (output_dir : pystr) (write_n_results : option (option Z))
    (json_encoder_cls : option (pyobj -> result pyobj)) : JSONLogger :=
  mk_JSONLogger output_dir (default None write_n_results)
    (default (TensorAndNumpyEncoder_default (TensorAndNumpyEncoder_init None))
       json_encoder_cls).

(** Lines 211 to 220: the metrics that can be written. *)
Fixpoint collect_metrics (metrics : list (pystr * metrics.MetricValue))
    (serializable_metrics : list (pystr * pyobj)) : M world (list (pystr * pyobj)) :=
  match metrics with
  | [] => mret serializable_metrics
  | (metric_name, metric_value) :: rest =>
    match metric_value with
    | metrics.Scalar value =>
      collect_metrics rest
        (dict_set serializable_metrics metric_name (metrics.number_obj value))
    | metrics.Text textdata =>
      collect_metrics rest
        (dict_set serializable_metrics metric_name (metrics.text_obj textdata))
    | _ =>
      _ ← logging (Warning_skipping_metric metric_name (metrics.class_of metric_value));
      collect_metrics rest serializable_metrics
    end
  end.

(** Lines 209 to 233: the line appended to the metrics file. *)
Definition JSONLogger_log_metrics (self : JSONLogger) (task_name : pystr) (step : Z)
    (metrics : list (pystr * metrics.MetricValue)) : M world unit :=
  let metrics_fname :=
    path_join (json_output_dir self) (task_name ++ lit "-metrics.jsonl") in
  serializable_metrics ← collect_metrics metrics [];
  if bool_decide (metrics = []) then mret tt
  else
    _ ← logging (Info_appending_metrics metrics_fname);
    exists_ ← gfile_exists metrics_fname;
    file_contents ← (if exists_ : bool then gfile_read metrics_fname else mret []);
    let f := GFile_w (metrics_fname ++ lit ".tmp") in
    f ← gfile_write f file_contents;
    line ← lift (json_dumps JSONEncoder_default
                   (PDict (dict_update [(lit "step", PInt step)] serializable_metrics)));
    _ ← gfile_write f (line ++ [10%N]);
    fs_do (FRename (metrics_fname ++ lit ".tmp") metrics_fname).

(** Lines 253 to 255: [tfds.as_numpy] leaves ragged tensors as they are. *)
Definition ragged_to_numpy (inp : list (pystr * pyobj)) : list (pystr * pyobj) :=
  foldl (fun inp k =>
           match dict_get inp k with
           | Some (PRaggedTensor a) => dict_set inp k (PNdarray a)
           | _ => inp
           end) inp (fst <$> inp).

Definition is_None (o : pyobj) : bool :=
  match o with PNone => true | _ => false end.

(** Lines 259 to 273: the field is kept when it can be serialized. *)
Definition set_if_serializable (self : JSONLogger) (which : which_field)
    (json_dict : list (pystr * pyobj)) (key : pystr) (value : pyobj)
    : M world (list (pystr * pyobj)) :=
  match json_dumps (_json_encoder_cls self) value with
  | Ok _ => mret (dict_set json_dict key value)
  | Raise TypeError => _ ← logging (Warning_not_serializable which); mret json_dict
  | Raise e => raise e
  end.

(** Lines 250 to 279: one example of the loop. *)
Definition JSONLogger_write_example (self : JSONLogger) (f : GFile)
    (example : option (list (pystr * pyobj)) * option pyobj * option pyobj * option pyobj)
    : M world GFile :=
  let '(inp, prediction, target, score) := example in
  let prediction := or_None prediction in
  let target := or_None target in
  let score := or_None score in
  inp ← match inp with
        | None => raise TypeError
        | Some inp => mret (ragged_to_numpy inp)
        end;
  let json_dict := [(lit "input", PDict inp)] in
  json_dict ← (if is_None prediction then mret json_dict
               else set_if_serializable self prediction_field json_dict
                      (lit "prediction") prediction);
  json_dict ← set_if_serializable self target_field json_dict (lit "target") target;
  let json_dict := if is_None score then json_dict
                   else dict_set json_dict (lit "score") score in
  json_str ← lift (json_dumps (_json_encoder_cls self) (PDict json_dict));
  gfile_write f (json_str ++ [10%N]).

(** Lines 235 to 283: the file of the inferences. The clock is not
    modelled: the time elapsed between lines 238 and 280 is taken to be
    positive, so that the division of line 283 is defined. *)
Definition JSONLogger_write_inferences (self : JSONLogger) (task_name : pystr) (step : Z)
    (dataset : list (list (pystr * pyobj))) (inferences : list (pystr * list pyobj))
    (targets : list pyobj) : M world unit :=
  if bool_decide (_write_n_results self = Some 0) then mret tt
  else
    let inferences_fname :=
      path_join (json_output_dir self)
        (task_name ++ lit "-" ++ format_06 step ++ lit ".jsonl") in
    _ ← logging (Info_writing_inferences inferences_fname);
    let f := GFile_w inferences_fname in
    let examples_with_scores :=
      zip_longest dataset (default [] (dict_get inferences (lit "predictions")))
        targets (default [] (dict_get inferences (lit "scores"))) in
    examples_with_scores ←
      match _write_n_results self with
      | Some n =>
        if n <? 0 then raise ValueError
        else mret (take (Z.to_nat n) examples_with_scores)
      | None => mret examples_with_scores
      end;
    _ ← for_each_with examples_with_scores f (JSONLogger_write_example self);
    logging Info_writing_completed.

Definition JSONLogger_call (self : JSONLogger) (task_name : pystr) (step : option Z)
    (metrics : list (pystr * metrics.MetricValue))
    (dataset : list (list (pystr * pyobj))) (inferences : list (pystr * list pyobj))
    (targets : list pyobj) : M world unit :=
  step ← match step with
         | None => _ ← logging Warning_no_step; mret (-1)
         | Some step => mret step
         end;
  _ ← JSONLogger_log_metrics self task_name step metrics;
  JSONLogger_write_inferences self task_name step dataset inferences targets.

#[local] Instance TensorBoardLogger_Logger : Logger TensorBoardLogger := {
  output_dir := tb_output_dir;
  __call__ self task_name step metrics dataset inferences targets := fun w =>
    TensorBoardLogger_call task_name step metrics (self, w)
}.

#[local] Instance JSONLogger_Logger : Logger JSONLogger := {
  output_dir := json_output_dir;
  __call__ self task_name step metrics dataset inferences targets := fun w =>
    let r := JSONLogger_call self task_name step metrics dataset inferences targets w in
    (r.1, (self, r.2))
}.
(** ** Vocabulary of the statements *)

Definition scalar_dtype (s : npscalar) : dtype :=
  match s with
  | SBool _ => DBool
  | SInt signed w _ => DInt signed w
  | SFloat k _ => DFloat k
  | SComplex w _ _ => DComplex w
  end.

(** The dtype of a tensor, strings counted as objects. *)
Definition tf_dtype (t : tensor) : dtype := nd_dtype (tf_to_nd (t_data t)).

(** Booleans, integers of 8 to 64 bits and the floating-point numbers of
    [fkind], which are float16, bfloat16, float32 and float64: the numeric
    dtypes of the model but the complex ones. *)
Definition real_or_bool (d : dtype) : bool :=
  match d with
  | DBool | DInt _ _ | DFloat _ => true
  | DComplex _ | DObject => false
  end.

(** A tensor, an array or a numpy scalar of such a dtype. *)
Definition real_numeric (obj : pyobj) : bool :=
  match obj with
  | PTensor t => tensor_wf t && real_or_bool (tf_dtype t)
  | PNdarray a => real_or_bool (nd_dtype (nd_data a))
  | PNpScalar s => real_or_bool (scalar_dtype s)
  | _ => false
  end.

(** complex64 and complex128. *)
Definition is_complex (d : dtype) : bool :=
  match d with
  | DComplex _ => true
  | _ => false
  end.

(** An array holds as many elements as its shape says. *)
Definition ndarray_wf (a : ndarray pyobj) : bool :=
  bool_decide (length (nd_elements (nd_data a)) = nd_size a).

(** A tensor, an array or a numpy scalar of a complex dtype. *)
Definition complex_numeric (obj : pyobj) : bool :=
  match obj with
  | PTensor t => tensor_wf t && is_complex (tf_dtype t)
  | PNdarray a => ndarray_wf a && is_complex (nd_dtype (nd_data a))
  | PNpScalar s => is_complex (scalar_dtype s)
  | _ => false
  end.

(** Whether what [default] returns for a tensor, an array or a numpy scalar
    holds an element of it: a scalar is its element, and so is a tensor of
    rank zero, of which [numpy()] makes a scalar; an array, and a tensor
    of another rank, is returned as the list of its elements when it has
    [max_ndarray_size] elements or fewer, and has an element to hold when
    its size is not zero. *)
Definition within_limit (self : TensorAndNumpyEncoder) (size : nat) : bool :=
  (0 <? size)%nat && (Z.of_nat size <=? max_ndarray_size self).

Definition returns_elements (self : TensorAndNumpyEncoder) (obj : pyobj) : bool :=
  match obj with
  | PNpScalar _ => true
  | PNdarray a => within_limit self (nd_size a)
  | PTensor t =>
    match t_shape t with
    | [] => true
    | shape => within_limit self (shape_size shape)
    end
  | _ => false
  end.

(** The types that [default] has a branch for: tensors, arrays, numpy
    numbers and booleans, bfloat16 scalars, [bytes]. *)
Definition handled_type (obj : pyobj) : bool :=
  match obj with
  | PTensor _ | PNdarray _ | PNpScalar _ | PBytes _ => true
  | _ => false
  end.

(** [bool], [int], [float] and [complex] of Python itself. *)
Definition builtin_number (obj : pyobj) : bool :=
  match obj with
  | PBool _ | PInt _ | PFloat _ | PComplex _ _ => true
  | _ => false
  end.

Definition well_formed (obj : pyobj) : bool :=
  match obj with
  | PTensor t => tensor_wf t
  | _ => true
  end.

(** What [json] writes without a call to [default], lists apart. *)
Definition json_leaf (obj : pyobj) : bool :=
  match obj with
  | PNone | PBool _ | PInt _ | PFloat _ | PStr _ => true
  | _ => false
  end.

(** The names of the two files of a task. *)
Definition metrics_fname_of (self : JSONLogger) (task_name : pystr) : pystr :=
  path_join (json_output_dir self) (task_name ++ lit "-metrics.jsonl").

Definition inferences_fname_of (self : JSONLogger) (task_name : pystr) (step : Z) : pystr :=
  path_join (json_output_dir self) (task_name ++ lit "-" ++ format_06 step ++ lit ".jsonl").

(** The value under which a metric is written, if it is written. *)
Definition metric_payload (v : metrics.MetricValue) : option pyobj :=
  match v with
  | metrics.Scalar value => Some (metrics.number_obj value)
  | metrics.Text textdata => Some (metrics.text_obj textdata)
  | _ => None
  end.

(** The metrics that are written, in the order of the mapping. *)
Definition written_metrics (metrics : list (pystr * metrics.MetricValue))
    : list (pystr * pyobj) :=
  omap (fun item => pair item.1 <$> metric_payload item.2) metrics.

(** The warnings for the metrics that are not. *)
Definition skipped_metrics (metrics : list (pystr * metrics.MetricValue)) : list logrec :=
  omap (fun item =>
          match metric_payload item.2 with
          | Some _ => None
          | None => Some (Warning_skipping_metric item.1 (metrics.class_of item.2))
          end) metrics.

(** A metric of type [Text] holds a [str], not [bytes]. *)
Definition text_is_str (v : metrics.MetricValue) : bool :=
  match v with
  | metrics.Text (metrics.Bytes _) => false
  | _ => true
  end.

(** [step] with the dummy value for [None]. *)
Definition step_or_dummy (step : option Z) : Z := default (-1) step.

(** The world with a file set, an operation recorded, records logged. *)
Definition with_log (w : world) (rs : list logrec) : world :=
  mk_world (w_fs w) (w_ops w) (w_log w ++ rs).

Definition after_ops (w : world) (ops : list fsop) : world :=
  mk_world (foldl fs_apply (w_fs w) ops) (w_ops w ++ ops) (w_log w).

(** The line of the metrics file: the dict of line 232, serialized by the
    encoder of [json] itself. *)
Definition metrics_line (step : Z) (metrics : list (pystr * metrics.MetricValue))
    : result pystr :=
  json_dumps JSONEncoder_default
    (PDict (dict_update [(lit "step", PInt step)]
              (dict_update [] (written_metrics metrics)))).

Definition is_Scalar (v : metrics.MetricValue) : bool :=
  match v with
  | metrics.Scalar _ => true
  | _ => false
  end.

(** The summaries of the scalar metrics at a step, one per metric, and the
    records that announce them. *)
Definition scalar_events (step : Z) (metrics : list (pystr * metrics.MetricValue))
    : list event :=
  omap (fun item =>
          match item.2 with
          | metrics.Scalar value => Some (mk_event (lit "eval/" ++ item.1) value step)
          | _ => None
          end) metrics.

Definition event_info (e : event) : logrec :=
  Info_tag_at_step (ev_tag e) (ev_step e) (ev_simple_value e).

(** The world after records were logged and operations made on files. *)
Definition advance (w : world) (rs : list logrec) (ops : list fsop) : world :=
  mk_world (foldl fs_apply (w_fs w) ops) (w_ops w ++ ops) (w_log w ++ rs).

(** An entry of [zip_longest]: the input, the prediction, the target and
    the score of an example, [None] where a sequence has run out. *)
Definition entry : Type :=
  option (list (pystr * pyobj)) * option pyobj * option pyobj * option pyobj.

(** The entries that a call goes through: all of them, or the first
    [write_n_results]. *)
Definition entries_of (self : JSONLogger) (dataset : list (list (pystr * pyobj)))
    (inferences : list (pystr * list pyobj)) (targets : list pyobj) : list entry :=
  let all := zip_longest dataset (default [] (dict_get inferences (lit "predictions")))
               targets (default [] (dict_get inferences (lit "scores"))) in
  match _write_n_results self with
  | Some n => take (Z.to_nat n) all
  | None => all
  end.

(** [json.dumps(o, cls=self._json_encoder_cls)] returns. *)
Definition serializable (self : JSONLogger) (o : pyobj) : bool :=
  is_ok (json_dumps (_json_encoder_cls self) o).

(** It raises [TypeError]. *)
Definition refused (self : JSONLogger) (o : pyobj) : bool :=
  match json_dumps (_json_encoder_cls self) o with
  | Raise TypeError => true
  | _ => false
  end.

(** The object of the line of an entry: [input], then [prediction] when
    there is one and it can be serialized, [target] when it can be
    serialized, [score] when there is one. *)
Definition example_object (self : JSONLogger) (inp : list (pystr * pyobj))
    (prediction target score : pyobj) : list (pystr * pyobj) :=
  [(lit "input", PDict (ragged_to_numpy inp))]
  ++ (if negb (is_None prediction) && serializable self prediction
      then [(lit "prediction", prediction)] else [])
  ++ (if serializable self target then [(lit "target", target)] else [])
  ++ (if negb (is_None score) then [(lit "score", score)] else []).

(** The warnings of an entry. *)
Definition example_warnings (self : JSONLogger) (prediction target : pyobj)
    : list logrec :=
  (if negb (is_None prediction) && negb (serializable self prediction)
   then [Warning_not_serializable prediction_field] else [])
  ++ (if serializable self target then [] else [Warning_not_serializable target_field]).

(** An entry that the loop gets through: it has an input, which can be
    serialized, as its score can if it has one; its prediction and its
    target are serialized or refused with [TypeError]. *)
Definition entry_ok (self : JSONLogger) (e : entry) : bool :=
  match e with
  | (Some inp, prediction, target, score) =>
    serializable self (PDict (ragged_to_numpy inp))
    && (is_None (or_None prediction) || serializable self (or_None prediction)
        || refused self (or_None prediction))
    && (serializable self (or_None target) || refused self (or_None target))
    && (is_None (or_None score) || serializable self (or_None score))
  | (None, _, _, _) => false
  end.

(** The line of an entry. *)
Definition example_line (self : JSONLogger) (e : entry) : result pystr :=
  match e with
  | (Some inp, prediction, target, score) =>
    json_dumps (_json_encoder_cls self)
      (PDict (example_object self inp (or_None prediction) (or_None target)
                (or_None score)))
  | (None, _, _, _) => Raise TypeError
  end.

Definition entry_warnings (self : JSONLogger) (e : entry) : list logrec :=
  example_warnings self (or_None e.1.1.2) (or_None e.1.2).

(** What the first [write] to a [GFile] does before it writes. *)
Definition opening (f : GFile) : list fsop :=
  if gf_writable f then [] else [FOpenW (gf_name f)].

(** An operation that opens or extends the file of a name. *)
Definition op_on (fname : pystr) (op : fsop) : bool :=
  match op with
  | FOpenW p | FWrite p _ => bool_decide (p = fname)
  | FRename _ _ => false
  end.

(** A computation that logs, and opens or extends one file, whatever it
    returns or raises. *)
Definition only_on (fname : pystr) {A} (m : M world A) : Prop :=
  forall w, exists rs ops,
    (m w).2 = advance w rs ops /\ Forall (fun op => op_on fname op = true) ops.

(** The world in which a call goes on once the step is known. *)
Definition entry_world (step : option Z) (w : world) : world :=
  match step with
  | None => with_log w [Warning_no_step]
  | Some _ => w
  end.

Definition is_bytes (o : pyobj) : bool :=
  match o with
  | PBytes _ => true
  | _ => false
  end.


(** ** Vocabulary of the further properties *)

(** A printable character of ASCII, the space among them. *)
Definition printable (c : N) : bool := ((32 <=? c) && (c <=? 126))%N.

(** The text of a JSON object, from its keys and the texts of its values,
    as [json.dumps] lays it out. *)
Definition json_object (fields : list (pystr * pystr)) : pystr :=
  lit "{"
  ++ str_join (lit ", ")
       ((fun kv => encode_basestring_ascii kv.1 ++ lit ": " ++ kv.2) <$> fields)
  ++ lit "}".

(** The digits that a string writes, and their number. *)
Fixpoint uint_of_codes (s : pystr) : Decimal.uint :=
  match s with
  | [] => Decimal.Nil
  | c :: r =>
    let u := uint_of_codes r in
    (if c =? 48 then Decimal.D0 u else if c =? 49 then Decimal.D1 u
     else if c =? 50 then Decimal.D2 u else if c =? 51 then Decimal.D3 u
     else if c =? 52 then Decimal.D4 u else if c =? 53 then Decimal.D5 u
     else if c =? 54 then Decimal.D6 u else if c =? 55 then Decimal.D7 u
     else if c =? 56 then Decimal.D8 u else Decimal.D9 u)%N
  end.

(** [v.numpy()] where [v] is a ragged tensor, [v] itself otherwise. *)
Definition numpy_of_ragged (v : pyobj) : pyobj :=
  match v with
  | PRaggedTensor a => PNdarray a
  | _ => v
  end.

(** The positional arguments that [LegacyMetricClu.empty] knows, with the
    output type each one stands for. *)
Definition known_pos_args : list (list pystr * clu_metrics.ModelOutputType) :=
  [([lit "targets"; lit "scores"], clu_metrics.SCORE);
   ([lit "targets"; lit "predictions"], clu_metrics.PREDICTION);
   ([lit "targets"; lit "predictions"; lit "aux_values"],
    clu_metrics.PREDICTION_WITH_AUX)].

(** Arithmetic with divisions by constants, and the comparisons of a
    hypothesis or of the goal as propositions. *)
Ltac div_lia := zify; Z.to_euclidean_division_equations; lia.

Ltac N_bool :=
  repeat match goal with
         | H : _ && _ = true |- _ => apply andb_true_iff in H as [? ?]
         | H : _ || _ = true |- _ => apply orb_true_iff in H as [?|?]
         | H : negb _ = true |- _ => apply negb_true_iff in H
         | H : _ && _ = false |- _ => apply andb_false_iff in H as [?|?]
         | H : _ || _ = false |- _ => apply orb_false_iff in H as [? ?]
         | H : (_ <? _)%N = true |- _ => apply N.ltb_lt in H
         | H : (_ <? _)%N = false |- _ => apply N.ltb_ge in H
         | H : (_ <=? _)%N = true |- _ => apply N.leb_le in H
         | H : (_ <=? _)%N = false |- _ => apply N.leb_gt in H
         | H : (_ =? _)%N = true |- _ => apply N.eqb_eq in H
         | H : (_ =? _)%N = false |- _ => apply N.eqb_neq in H
         | H : is_cont _ = true |- _ => unfold is_cont in H
         | H : is_scalar_value _ = true |- _ => unfold is_scalar_value in H
         end.

Ltac N_case :=
  match goal with
  | |- context [(?a <? ?b)%N] => destruct (N.ltb_spec a b)
  | |- context [(?a <=? ?b)%N] => destruct (N.leb_spec a b)
  | |- context [(?a =? ?b)%N] => destruct (N.eqb_spec a b)
  end; try lia; cbn [andb orb negb].

(** The code points of the literals in the goal. *)
Ltac lit_eval :=
  repeat match goal with
         | |- context [lit ?s] =>
           let v := eval vm_compute in (lit s) in change (lit s) with v
         end.

(** * Properties *)

(** ** Strings *)

Lemma lit_app (s t : string) : lit (s +:+ t) = lit s ++ lit t.
Proof.
  induction s as [|c s IH]; [reflexivity|].
  change (N_of_ascii c :: lit (s +:+ t) = (N_of_ascii c :: lit s) ++ lit t).
  by rewrite IH.
Qed.

Lemma slice_1_m1_brackets (body : pystr) :
  slice_1_m1 (lit "[" ++ body ++ lit "]") = body.
Proof.
  unfold slice_1_m1. simpl. rewrite length_app. simpl.
  replace (length body + 1 - 0 - 1)%nat with (length body) by lia.
  rewrite drop_0. by rewrite take_app_length.
Qed.

Lemma dtype_str_bfloat16 (d : dtype) :
  bool_decide (dtype_str d = lit "bfloat16") = bool_decide (d = DFloat BF16).
Proof.
  destruct d as [|[] []|[]|[]|]; reflexivity.
Qed.

Lemma flat_tolist_take (n : nat) (d : nddata pyobj) :
  flat_tolist (data_take n d) = take n (flat_tolist d).
Proof.
  unfold flat_tolist. destruct d; simpl; by rewrite !fmap_take.
Qed.

Lemma astype_float32_size (a : ndarray pyobj) : nd_size (astype_float32 a) = nd_size a.
Proof. reflexivity. Qed.

(** ** The encoder on arrays *)

(** The two branches of lines 151 to 159. *)
Lemma default_ndarray_branches (self : TensorAndNumpyEncoder) (a : ndarray pyobj) :
  let a32 := if bool_decide (nd_dtype (nd_data a) = DFloat BF16)
             then astype_float32 a else a in
  TensorAndNumpyEncoder_default self (PNdarray a)
  = if Z.of_nat (nd_size a) <=? max_ndarray_size self
    then Ok (tolist a32)
    else Ok (PStr (nd_class a ++ lit "(shape=" ++ shape_str (nd_shape a)
                   ++ lit ", dtype=" ++ dtype_str (nd_dtype (nd_data a))
                   ++ lit "); first: "
                   ++ str_join (lit ", ") (py_repr <$> take 5 (flat_tolist (nd_data a32)))
                   ++ lit " ...")).
Proof.
  intros a32.
  assert (Hsize : nd_size a32 = nd_size a).
  { unfold a32. by case_bool_decide. }
  assert (Hcls : nd_class a32 = nd_class a /\ nd_shape a32 = nd_shape a).
  { unfold a32. by case_bool_decide. }
  destruct Hcls as [Hcls Hshape].
  unfold TensorAndNumpyEncoder_default; cbn zeta iota beta.
  rewrite dtype_str_bfloat16. fold a32. rewrite Hsize.
  destruct (Z.of_nat (nd_size a) <=? max_ndarray_size self); [done|].
  unfold list_str. rewrite slice_1_m1_brackets, flat_tolist_take.
  rewrite Hcls, Hshape. reflexivity.
Qed.

(** C1, amended. An array of at most [max_ndarray_size] elements is
    returned as [tolist()] gives it, a bfloat16 array after its conversion
    to float32; a larger one as a string made of the name of its type, its
    shape, the dtype it came with and the first five elements in flat
    order. The string shows at most five elements: fewer than the array has
    when it has more than five, as it always has when [max_ndarray_size] is
    five or more (the default is 32); all of them when it has five or
    fewer, which a smaller [max_ndarray_size] allows. *)
Theorem ndarray_default (self : TensorAndNumpyEncoder) (a : ndarray pyobj) :
  let a32 := if bool_decide (nd_dtype (nd_data a) = DFloat BF16)
             then astype_float32 a else a in
  let shown := take 5 (flat_tolist (nd_data a32)) in
  (Z.of_nat (nd_size a) <= max_ndarray_size self ->
     TensorAndNumpyEncoder_default self (PNdarray a) = Ok (tolist a32))
  /\ (max_ndarray_size self < Z.of_nat (nd_size a) ->
      TensorAndNumpyEncoder_default self (PNdarray a)
      = Ok (PStr (nd_class a ++ lit "(shape=" ++ shape_str (nd_shape a)
                  ++ lit ", dtype=" ++ dtype_str (nd_dtype (nd_data a))
                  ++ lit "); first: " ++ str_join (lit ", ") (py_repr <$> shown)
                  ++ lit " ..."))
      /\ (length shown <= 5)%nat
      /\ (5 <= max_ndarray_size self -> (length shown < nd_size a)%nat)
      /\ ((5 < nd_size a)%nat -> (length shown < nd_size a)%nat)
      /\ ((length (flat_tolist (nd_data a)) <= 5)%nat ->
          shown = flat_tolist (nd_data a32))).
Proof.
  intros a32 shown.
  assert (Hshown : (length shown <= 5)%nat).
  { unfold shown. rewrite length_take. lia. }
  assert (Hlen : length (flat_tolist (nd_data a32)) = length (flat_tolist (nd_data a))).
  { unfold a32. case_bool_decide; [|done].
    unfold astype_float32, flat_tolist. cbn [nd_data].
    destruct (nd_data a) as [| |[]| |]; cbn [data_to_float32 nd_elements];
      by rewrite ?length_fmap. }
  pose proof (default_ndarray_branches self a) as Hbr. cbv zeta in Hbr.
  fold a32 in Hbr. fold shown in Hbr. rewrite Hbr.
  split.
  - intros Hle. apply Z.leb_le in Hle. by rewrite Hle.
  - intros Hlt. apply Z.leb_gt in Hlt as Hgt. rewrite Hgt.
    split; [done|]. split; [done|]. split; [lia|]. split; [lia|].
    intros Hfew. unfold shown. apply take_ge. lia.
Qed.

(** ** Bytes: UTF-8 and base64 *)

Lemma to_N_byte_of_N (n : N) : (n < 256)%N -> Byte.to_N (byte_of_N n) = n.
Proof.
  intros Hn. unfold byte_of_N.
  destruct (Byte.of_N n) as [b|] eqn:E; simpl.
  - by apply Byte.to_of_N.
  - apply Byte.of_N_None_iff in E. lia.
Qed.

Lemma b64_char_ascii (i : N) : (Byte.to_N (b64_char i) < 128)%N.
Proof.
  unfold b64_char.
  repeat case_match; rewrite to_N_byte_of_N;
    repeat match goal with
           | H : (_ <? _)%N = true |- _ => apply N.ltb_lt in H
           | H : (_ <? _)%N = false |- _ => apply N.ltb_ge in H
           end; lia.
Qed.

Lemma b64encode_ascii (bs : pybytes) :
  Forall (fun b => (Byte.to_N b < 128)%N) (b64encode bs).
Proof.
  remember (length bs) as n eqn:Hn.
  revert bs Hn. induction (lt_wf n) as [n _ IH]. intros bs Hn.
  destruct bs as [|x [|y [|z rest]]]; simpl.
  - constructor.
  - repeat constructor; try apply b64_char_ascii; by vm_compute.
  - repeat constructor; try apply b64_char_ascii; by vm_compute.
  - repeat (constructor; [apply b64_char_ascii|]).
    apply (IH (length rest)); [subst n; simpl; lia | reflexivity].
Qed.

Lemma utf8_decode_N_ascii (ns : list N) :
  Forall (fun c => (c < 128)%N) ns -> utf8_decode_N ns = Some ns.
Proof.
  induction 1 as [|c ns Hc _ IH]; simpl; [reflexivity|].
  apply N.ltb_lt in Hc. by rewrite Hc, IH.
Qed.

Lemma utf8_decode_b64encode (bs : pybytes) :
  utf8_decode (b64encode bs) = Some (Byte.to_N <$> b64encode bs).
Proof.
  unfold utf8_decode. apply utf8_decode_N_ascii.
  apply Forall_fmap. apply b64encode_ascii.
Qed.

Lemma iterencode_str (default : pyobj -> result pyobj) (depth : nat) (s : pystr) :
  iterencode default depth (PStr s) = Ok (encode_basestring_ascii s).
Proof. by destruct depth. Qed.

Lemma default_bytes (self : TensorAndNumpyEncoder) (b : pybytes) :
  TensorAndNumpyEncoder_default self (PBytes b)
  = match utf8_decode b with
    | Some s => Ok (PStr s)
    | None => Ok (PBytes (b64encode b))
    end.
Proof. reflexivity. Qed.

(** C10. Encoding [bytes] never raises. Bytes that are UTF-8 give the
    decoded string; others give their base64 form, which is [bytes] again:
    these are ASCII, so that on the next entry they decode, and with room
    for two entries [json.dumps] writes them as a string. *)
Theorem bytes_default (self : TensorAndNumpyEncoder) (b : pybytes) :
  let default := TensorAndNumpyEncoder_default self in
  let b64 := b64encode b in
  is_ok (default (PBytes b)) = true
  /\ (forall s, utf8_decode b = Some s -> default (PBytes b) = Ok (PStr s))
  /\ (utf8_decode b = None ->
      default (PBytes b) = Ok (PBytes b64)
      /\ default (PBytes b64) = Ok (PStr (Byte.to_N <$> b64))
      /\ Forall (fun c => (c < 128)%N) (Byte.to_N <$> b64)
      /\ ((2 <= recursion_limit)%nat ->
          json_dumps default (PBytes b)
          = Ok (encode_basestring_ascii (Byte.to_N <$> b64)))).
Proof.
  intros default b64. unfold default. rewrite !default_bytes.
  split; [by destruct (utf8_decode b)|].
  split; [by intros s ->|].
  intros Hnone. rewrite Hnone. unfold b64. rewrite utf8_decode_b64encode.
  split; [done|]. split; [done|].
  split; [apply Forall_fmap, b64encode_ascii|].
  intros Hlimit. unfold json_dumps.
  destruct recursion_limit as [|[|d]]; [lia | lia |].
  simpl. rewrite !default_bytes, Hnone. simpl.
  rewrite default_bytes, utf8_decode_b64encode. apply iterencode_str.
Qed.

(** ** The encoder on numeric values *)

Lemma iterencode_leaf (default : pyobj -> result pyobj) (depth : nat) (o : pyobj) :
  json_leaf o = true -> is_ok (iterencode default depth o) = true.
Proof. destruct depth, o as [| [] | | | | | | | | | | | | |]; done. Qed.

Lemma iterencode_list (default : pyobj -> result pyobj) (depth : nat) (xs : list pyobj) :
  iterencode default depth (PList xs)
  = (parts ← encode_items (iterencode default depth) xs;
     mret (lit "[" ++ str_join (lit ", ") parts ++ lit "]")).
Proof. by destruct depth. Qed.

Lemma encode_items_ok (enc : pyobj -> result pystr) (xs : list pyobj) :
  Forall (fun x => is_ok (enc x) = true) xs -> is_ok (encode_items enc xs) = true.
Proof.
  induction 1 as [|x xs Hx _ IH]; simpl; [done|].
  destruct (enc x); [|done]. simpl.
  by destruct (encode_items enc xs).
Qed.

Lemma chunks_Forall {A} (P : A -> Prop) (n k : nat) (xs : list A) :
  Forall P xs -> Forall (Forall P) (chunks n k xs).
Proof.
  revert xs. induction n as [|n IH]; intros xs Hxs; simpl; constructor.
  - by apply Forall_take.
  - apply IH. by apply Forall_drop.
Qed.

Lemma iterencode_nest (default : pyobj -> result pyobj) (depth : nat)
    (shape : list nat) (xs : list pyobj) :
  Forall (fun x => json_leaf x = true) xs ->
  is_ok (iterencode default depth (nest shape xs)) = true.
Proof.
  revert xs. induction shape as [|n rest IH]; intros xs Hxs; simpl.
  - apply iterencode_leaf. destruct Hxs; done.
  - rewrite iterencode_list.
    pose proof (chunks_Forall _ n (shape_size rest) xs Hxs) as Hch.
    assert (Hok : is_ok (encode_items (iterencode default depth)
                           (nest rest <$> chunks n (shape_size rest) xs)) = true).
    { apply encode_items_ok. apply Forall_fmap.
      eapply Forall_impl; [exact Hch|]. intros c Hc. by apply IH. }
    by destruct (encode_items _ _).
Qed.

Lemma flat_tolist_leaves (d : nddata pyobj) :
  real_or_bool (nd_dtype d) = true -> nd_dtype d <> DFloat BF16 ->
  Forall (fun x => json_leaf x = true) (flat_tolist d).
Proof.
  unfold flat_tolist. destruct d as [xs|s w xs|k xs|w xs|xs]; simpl; try done.
  - intros _ _. rewrite <- list_fmap_compose. by apply Forall_fmap, Forall_true.
  - intros _ _. rewrite <- list_fmap_compose. by apply Forall_fmap, Forall_true.
  - intros _ Hk. rewrite <- list_fmap_compose. apply Forall_fmap, Forall_true.
    intros f. by destruct k.
Qed.

Lemma default_ndarray_real (self : TensorAndNumpyEncoder) (depth : nat) (a : ndarray pyobj) :
  real_or_bool (nd_dtype (nd_data a)) = true ->
  exists v, TensorAndNumpyEncoder_default self (PNdarray a) = Ok v
            /\ is_ok (iterencode (TensorAndNumpyEncoder_default self) depth v) = true.
Proof.
  intros Hreal.
  pose proof (default_ndarray_branches self a) as Hbr. cbv zeta in Hbr.
  assert (Hsmall : Z.of_nat (nd_size a) <= max_ndarray_size self ->
                   TensorAndNumpyEncoder_default self (PNdarray a) = Ok (tolist
                     (if bool_decide (nd_dtype (nd_data a) = DFloat BF16)
                      then astype_float32 a else a)))
    by (intros Hle; apply Z.leb_le in Hle; by rewrite Hbr, Hle).
  assert (Hlarge : max_ndarray_size self < Z.of_nat (nd_size a) ->
                   exists str, TensorAndNumpyEncoder_default self (PNdarray a)
                               = Ok (PStr str))
    by (intros Hlt; apply Z.leb_gt in Hlt; rewrite Hbr, Hlt; by eexists).
  destruct (Z.le_gt_cases (Z.of_nat (nd_size a)) (max_ndarray_size self)) as [Hle|Hgt].
  - eexists. split; [by apply Hsmall|].
    unfold tolist. apply iterencode_nest. apply flat_tolist_leaves.
    + case_bool_decide as Hbf; [|done]. destruct a as [c sh d]. simpl in *.
      by destruct d as [| | [] | |].
    + case_bool_decide as Hbf; [|done]. destruct a as [c sh d]. simpl in *.
      by destruct d as [| | [] | |].
  - destruct (Hlarge Hgt) as [str ->]. eexists. split; [done|].
    by rewrite iterencode_str.
Qed.

Lemma default_scalar_real (self : TensorAndNumpyEncoder) (s : npscalar) :
  real_or_bool (scalar_dtype s) = true ->
  exists v, TensorAndNumpyEncoder_default self (PNpScalar s) = Ok v
            /\ json_leaf v = true.
Proof.
  destruct s as [b|sg w z|k f|w re im]; try done; intros _.
  - by eexists.
  - by eexists.
  - destruct k; by eexists.
Qed.

Lemma tensor_numpy_not_tensor (t u : tensor) : tensor_numpy t <> PTensor u.
Proof.
  unfold tensor_numpy. destruct (t_shape t); [|done].
  destruct (t_data t) as [[|]|? ? [|]|? [|]|? [|]|[|]]; done.
Qed.

Lemma default_tensor (self : TensorAndNumpyEncoder) (t : tensor) :
  TensorAndNumpyEncoder_default self (PTensor t)
  = TensorAndNumpyEncoder_default self
      (tensor_numpy (if is_tf_bfloat16 t then tf_cast_float32 t else t)).
Proof.
  pose proof (tensor_numpy_not_tensor (if is_tf_bfloat16 t then tf_cast_float32 t else t))
    as Hnt.
  unfold TensorAndNumpyEncoder_default at 1. cbn zeta iota beta.
  set (o := tensor_numpy _) in *. clearbody o.
  destruct o; try reflexivity. by destruct (Hnt t0).
Qed.

Lemma default_ndarray_ok (self : TensorAndNumpyEncoder) (a : ndarray pyobj) :
  is_ok (TensorAndNumpyEncoder_default self (PNdarray a)) = true.
Proof.
  rewrite default_ndarray_branches.
  by destruct (Z.of_nat (nd_size a) <=? max_ndarray_size self).
Qed.

Lemma default_scalar_ok (self : TensorAndNumpyEncoder) (s : npscalar) :
  is_ok (TensorAndNumpyEncoder_default self (PNpScalar s)) = true.
Proof. by destruct s as [b|sg w z|[] f|w re im]. Qed.

Lemma default_bytes_ok (self : TensorAndNumpyEncoder) (b : pybytes) :
  is_ok (TensorAndNumpyEncoder_default self (PBytes b)) = true.
Proof. rewrite default_bytes. by destruct (utf8_decode b). Qed.

(** What [numpy()] gives for a well-formed tensor. *)
Lemma tensor_numpy_cases (t : tensor) :
  tensor_wf t = true ->
  (exists s, tensor_numpy t = PNpScalar s /\ scalar_dtype s = tf_dtype t)
  \/ (exists b, tensor_numpy t = PBytes b /\ tf_dtype t = DObject)
  \/ (exists a, tensor_numpy t = PNdarray a /\ nd_dtype (nd_data a) = tf_dtype t).
Proof.
  unfold tensor_wf, tensor_numpy, tensor_length, tf_dtype.
  destruct t as [shape data]. simpl. intros Hwf. apply bool_decide_eq_true in Hwf.
  destruct shape as [|n rest].
  - destruct data as [[|x xs]|sg w [|x xs]|k [|x xs]|w [|x xs]|[|x xs]];
      simpl in *; try discriminate; eauto.
  - right. right. by eexists.
Qed.

Lemma cast_wf (t : tensor) :
  let t32 := if is_tf_bfloat16 t then tf_cast_float32 t else t in
  tensor_wf t32 = tensor_wf t
  /\ real_or_bool (tf_dtype t32) = real_or_bool (tf_dtype t).
Proof.
  destruct t as [shape data].
  destruct data as [xs|sg w xs|[] xs|w xs|xs]; done.
Qed.

Lemma default_tensor_ok (self : TensorAndNumpyEncoder) (t : tensor) :
  tensor_wf t = true -> is_ok (TensorAndNumpyEncoder_default self (PTensor t)) = true.
Proof.
  intros Hwf. rewrite default_tensor.
  destruct (cast_wf t) as [Hwf32 _]. cbn zeta in Hwf32. rewrite <- Hwf32 in Hwf.
  destruct (tensor_numpy_cases _ Hwf) as [(s & -> & _)|[(b & -> & _)|(a & -> & _)]].
  - apply default_scalar_ok.
  - apply default_bytes_ok.
  - apply default_ndarray_ok.
Qed.

Lemma default_tensor_real (self : TensorAndNumpyEncoder) (depth : nat) (t : tensor) :
  tensor_wf t = true -> real_or_bool (tf_dtype t) = true ->
  exists v, TensorAndNumpyEncoder_default self (PTensor t) = Ok v
            /\ is_ok (iterencode (TensorAndNumpyEncoder_default self) depth v) = true.
Proof.
  intros Hwf Hreal. rewrite default_tensor.
  destruct (cast_wf t) as [Hwf32 Hreal32]. cbn zeta in Hwf32, Hreal32.
  rewrite <- Hwf32 in Hwf. rewrite <- Hreal32 in Hreal.
  destruct (tensor_numpy_cases _ Hwf) as [(s & -> & Hs)|[(b & -> & Hb)|(a & -> & Ha)]].
  - rewrite <- Hs in Hreal.
    destruct (default_scalar_real self s Hreal) as (v & Hv & Hleaf).
    exists v. split; [done|]. by apply iterencode_leaf.
  - by rewrite Hb in Hreal.
  - rewrite <- Ha in Hreal. by apply default_ndarray_real.
Qed.

Lemma flat_tolist_complex (d : nddata pyobj) :
  is_complex (nd_dtype d) = true ->
  Forall (fun x => exists re im, x = PComplex re im) (flat_tolist d).
Proof.
  unfold flat_tolist. destruct d as [xs|s w xs|k xs|w xs|xs]; try done. intros _.
  cbn [nd_elements]. rewrite <- list_fmap_compose. apply Forall_fmap, Forall_true.
  intros c. cbn. by eexists _, _.
Qed.

Lemma iterencode_complex (self : TensorAndNumpyEncoder) (depth : nat) (re im : pyfloat) :
  iterencode (TensorAndNumpyEncoder_default self) depth (PComplex re im)
  = Raise AttributeError.
Proof. by destruct depth. Qed.

Lemma encode_items_first {enc : pyobj -> result pystr} (x : pyobj) (xs : list pyobj)
    (e : exn) :
  enc x = Raise e -> encode_items enc (x :: xs) = Raise e.
Proof. intros H. cbn [encode_items]. by rewrite H. Qed.

(** The list of an array that holds complex numbers, and at least one: the
    encoding stops at the first of them. *)
Lemma iterencode_nest_complex (self : TensorAndNumpyEncoder) (depth : nat)
    (shape : list nat) (xs : list pyobj) :
  Forall (fun x => exists re im, x = PComplex re im) xs ->
  (0 < shape_size shape <= length xs)%nat ->
  iterencode (TensorAndNumpyEncoder_default self) depth (nest shape xs)
  = Raise AttributeError.
Proof.
  revert xs. induction shape as [|n rest IH]; intros xs Hxs Hsize.
  - cbn [shape_size foldr] in Hsize. destruct Hxs as [|x xs (re & im & ->) _].
    + cbn [length] in Hsize. lia.
    + cbn [nest]. apply iterencode_complex.
  - cbn [nest]. rewrite iterencode_list.
    change (shape_size (n :: rest)) with (n * shape_size rest)%nat in Hsize.
    destruct n as [|n]; [lia|]. cbn [chunks fmap list_fmap].
    rewrite (encode_items_first _ _ AttributeError); [done|].
    apply IH; [by apply Forall_take|].
    rewrite length_take. nia.
Qed.

(** The list of an array without elements. *)
Lemma iterencode_nest_nil (default : pyobj -> result pyobj) (depth : nat)
    (shape : list nat) :
  is_ok (iterencode default depth (nest shape [])) = true.
Proof. by apply iterencode_nest. Qed.

Lemma default_ndarray_complex (self : TensorAndNumpyEncoder) (depth : nat)
    (a : ndarray pyobj) :
  ndarray_wf a = true -> is_complex (nd_dtype (nd_data a)) = true ->
  exists v, TensorAndNumpyEncoder_default self (PNdarray a) = Ok v
            /\ is_ok (iterencode (TensorAndNumpyEncoder_default self) depth v)
               = negb (within_limit self (nd_size a)).
Proof.
  intros Hwf Hc. apply bool_decide_eq_true in Hwf.
  rewrite default_ndarray_branches.
  assert (Hbf : nd_dtype (nd_data a) <> DFloat BF16)
    by (intros E; by rewrite E in Hc).
  rewrite (bool_decide_eq_false_2 _ Hbf). unfold within_limit.
  destruct (Z.of_nat (nd_size a) <=? max_ndarray_size self) eqn:Hle.
  - eexists. split; [done|]. unfold tolist. rewrite andb_true_r.
    destruct (nd_size a) as [|n] eqn:Hn.
    + cbn [Nat.ltb Nat.leb negb].
      assert (Hnil : flat_tolist (nd_data a) = []).
      { unfold flat_tolist. apply length_zero_iff_nil. rewrite length_fmap. by rewrite Hwf. }
      rewrite Hnil. apply iterencode_nest_nil.
    + change (0 <? S n)%nat with true. cbn [negb].
      rewrite (iterencode_nest_complex self depth); [done| |].
      * by apply flat_tolist_complex.
      * unfold flat_tolist. rewrite length_fmap, Hwf. unfold nd_size in Hn. lia.
  - rewrite andb_false_r. cbn [negb]. eexists. split; [done|].
    by rewrite iterencode_str.
Qed.

Lemma default_scalar_complex (self : TensorAndNumpyEncoder) (depth : nat) (s : npscalar) :
  is_complex (scalar_dtype s) = true ->
  exists v, TensorAndNumpyEncoder_default self (PNpScalar s) = Ok v
            /\ is_ok (iterencode (TensorAndNumpyEncoder_default self) depth v) = false.
Proof.
  destruct s as [b|sg w z|k f|w re im]; try done. intros _.
  exists (PComplex re im). split; [done|]. by rewrite iterencode_complex.
Qed.

Lemma default_tensor_complex (self : TensorAndNumpyEncoder) (depth : nat) (t : tensor) :
  tensor_wf t = true -> is_complex (tf_dtype t) = true ->
  exists v, TensorAndNumpyEncoder_default self (PTensor t) = Ok v
            /\ is_ok (iterencode (TensorAndNumpyEncoder_default self) depth v)
               = negb (returns_elements self (PTensor t)).
Proof.
  intros Hwf Hc. rewrite default_tensor.
  assert (Hnb : is_tf_bfloat16 t = false).
  { unfold is_tf_bfloat16, tf_dtype in *. by destruct (t_data t) as [| |[]| |]. }
  rewrite Hnb. unfold tensor_numpy, returns_elements.
  destruct t as [shape data]. cbn [t_shape t_data] in *.
  unfold tensor_wf, tensor_length, tf_dtype in *. cbn [t_shape t_data] in *.
  apply bool_decide_eq_true in Hwf.
  destruct data as [xs|sg w xs|k xs|w xs|xs]; try done.
  destruct shape as [|n rest].
  - destruct xs as [|[re im] xs]; [done|]. cbn [tf_to_nd nd_elements fmap list_fmap].
    cbn [fst snd negb]. apply (default_scalar_complex self depth (SComplex w re im)). done.
  - cbn [tf_to_nd].
    apply (default_ndarray_complex self depth
             (mk_ndarray (lit "ndarray") (n :: rest) (NComplex w xs))); [|done].
    apply bool_decide_eq_true. cbn [nd_data nd_elements]. by rewrite length_fmap.
Qed.

(** C2, amended. On a tensor or an array whose dtype is boolean, an integer
    of 8 to 64 bits, float16, float32, float64 or bfloat16, and on a numpy
    scalar of such a type, [default] raises nothing and returns a value
    that [json.dumps] serializes. On a tensor, an array or a scalar of a
    complex dtype it raises nothing either, but [json.dumps] serializes what
    it returns only when that holds no element: the string that stands for
    an array over [max_ndarray_size], or the list of an array of size zero.
    On an object that is neither of a type that [default] handles (tensor,
    array, numpy scalar, [bytes]) nor a number of Python itself, it raises
    [TypeError], through [JSONEncoder.default]; on an object of a type that
    it handles it raises nothing. *)
Theorem default_on_real_numeric (self : TensorAndNumpyEncoder) (obj : pyobj) :
  let default := TensorAndNumpyEncoder_default self in
  (real_numeric obj = true ->
   exists v, default obj = Ok v /\ is_ok (json_dumps default v) = true)
  /\ (complex_numeric obj = true ->
      exists v, default obj = Ok v
                /\ is_ok (json_dumps default v) = negb (returns_elements self obj))
  /\ (handled_type obj = false -> builtin_number obj = false ->
      default obj = Raise TypeError)
  /\ (handled_type obj = true -> well_formed obj = true ->
      is_ok (default obj) = true).
Proof.
  intros default. unfold default, json_dumps. split; [|split; [|split]].
  - destruct obj; try done; simpl; intros Hreal.
    + destruct (default_scalar_real self s Hreal) as (v & Hv & Hleaf).
      exists v. split; [done|]. by apply iterencode_leaf.
    + by apply default_ndarray_real.
    + apply andb_true_iff in Hreal as [Hwf Hreal]. by apply default_tensor_real.
  - destruct obj; try done; cbn [complex_numeric]; intros Hc.
    + cbn [returns_elements negb]. by apply default_scalar_complex.
    + apply andb_true_iff in Hc as [Hwf Hc]. by apply default_ndarray_complex.
    + apply andb_true_iff in Hc as [Hwf Hc]. by apply default_tensor_complex.
  - destruct obj; try done; intros _ _.
    unfold TensorAndNumpyEncoder_default. simpl. by case_bool_decide.
  - destruct obj; try done; cbn [well_formed]; intros _ Hwf.
    + apply default_bytes_ok.
    + apply default_scalar_ok.
    + apply default_ndarray_ok.
    + by apply default_tensor_ok.
Qed.

(** ** The state monad *)

Lemma bind_Ok {S A B} (m : M S A) (f : A -> M S B) (s s' : S) (a : A) :
  m s = (Ok a, s') -> (m ≫= f) s = f a s'.
Proof. unfold mbind, M_bind. by intros ->. Qed.

Lemma bind_Raise {S A B} (m : M S A) (f : A -> M S B) (s s' : S) (e : exn) :
  m s = (Raise e, s') -> (m ≫= f) s = (Raise e, s').
Proof. unfold mbind, M_bind. by intros ->. Qed.

Lemma for_each_app {S A} (xs ys : list A) (body : A -> M S unit) (s : S) :
  for_each (xs ++ ys) body s
  = (_ ← for_each xs body; for_each ys body) s.
Proof.
  revert s. induction xs as [|x xs IH]; intros s; simpl; [done|].
  unfold mbind, M_bind in *. destruct (body x s) as [[[]|e] s']; [|done].
  apply IH.
Qed.

Lemma with_log_nil (w : world) : with_log w [] = w.
Proof. destruct w. unfold with_log. simpl. by rewrite app_nil_r. Qed.

Lemma with_log_app (w : world) (rs rs' : list logrec) :
  with_log (with_log w rs) rs' = with_log w (rs ++ rs').
Proof. unfold with_log. simpl. by rewrite app_assoc. Qed.

Lemma after_ops_app (w : world) (ops ops' : list fsop) :
  after_ops (after_ops w ops) ops' = after_ops w (ops ++ ops').
Proof. unfold after_ops. simpl. by rewrite foldl_app, app_assoc. Qed.

Lemma logging_spec (r : logrec) (w : world) : logging r w = (Ok tt, with_log w [r]).
Proof. reflexivity. Qed.

Lemma fs_do_spec (op : fsop) (w : world) : fs_do op w = (Ok tt, after_ops w [op]).
Proof. reflexivity. Qed.

Lemma gfile_write_spec (f : GFile) (s : pystr) (w : world) :
  gfile_write f s w
  = (Ok (mk_GFile (gf_name f) true), after_ops w (opening f ++ [FWrite (gf_name f) s])).
Proof.
  unfold gfile_write, opening. destruct (gf_writable f).
  - erewrite bind_Ok by reflexivity. by erewrite bind_Ok by apply fs_do_spec.
  - erewrite bind_Ok by apply fs_do_spec. erewrite bind_Ok by apply fs_do_spec.
    by rewrite after_ops_app.
Qed.

(** ** The metrics file *)

Lemma collect_metrics_spec (metrics : list (pystr * metrics.MetricValue))
    (acc : list (pystr * pyobj)) (w : world) :
  collect_metrics metrics acc w
  = (Ok (dict_update acc (written_metrics metrics)), with_log w (skipped_metrics metrics)).
Proof.
  revert acc w. induction metrics as [|[name v] rest IH]; intros acc w; simpl.
  - by rewrite with_log_nil.
  - destruct v; simpl; rewrite ?IH; try done;
      erewrite bind_Ok by apply logging_spec; rewrite IH; by rewrite with_log_app.
Qed.

Lemma log_metrics_empty (self : JSONLogger) (task_name : pystr) (step : Z) (w : world) :
  JSONLogger_log_metrics self task_name step [] w = (Ok tt, w).
Proof.
  unfold JSONLogger_log_metrics.
  erewrite bind_Ok by apply collect_metrics_spec.
  simpl. by rewrite with_log_nil.
Qed.

Lemma log_metrics_spec (self : JSONLogger) (task_name : pystr) (step : Z)
    (metrics : list (pystr * metrics.MetricValue)) (w : world) :
  metrics <> [] ->
  let fname := metrics_fname_of self task_name in
  let tmp := fname ++ lit ".tmp" in
  let old := default [] (w_fs w !! fname) in
  let w1 := with_log w (skipped_metrics metrics ++ [Info_appending_metrics fname]) in
  JSONLogger_log_metrics self task_name step metrics w
  = match metrics_line step metrics with
    | Ok line =>
      (Ok tt, after_ops w1 [FOpenW tmp; FWrite tmp old; FWrite tmp (line ++ [10%N]);
                            FRename tmp fname])
    | Raise e => (Raise e, after_ops w1 [FOpenW tmp; FWrite tmp old])
    end.
Proof.
  intros Hne fname tmp old w1.
  unfold JSONLogger_log_metrics. fold (metrics_fname_of self task_name). fold fname. fold tmp.
  erewrite bind_Ok by apply collect_metrics_spec.
  rewrite bool_decide_eq_false_2 by done.
  erewrite bind_Ok by apply logging_spec. rewrite with_log_app. fold w1.
  assert (Hread : (exists_ ← gfile_exists fname;
                   if exists_ : bool then gfile_read fname else mret []) w1
                  = (Ok old, w1)).
  { unfold mbind, M_bind, gfile_exists, gfile_read, mret, M_ret, old. simpl.
    destruct (w_fs w !! fname) eqn:E; simpl.
    - by rewrite E.
    - done. }
  unfold mbind, M_bind in Hread |- *.
  destruct (gfile_exists fname w1) as [[ex|e] w1'] eqn:Eex; [|discriminate].
  rewrite Hread. rewrite gfile_write_spec. fold (metrics_line step metrics).
  unfold lift. destruct (metrics_line step metrics) as [line|e];
    rewrite ?gfile_write_spec, ?fs_do_spec, ?after_ops_app; done.
Qed.

(** ** The names of the files *)

Lemma uint_codes_head (u : Decimal.uint) :
  u <> Decimal.Nil ->
  exists c r, uint_codes u = c :: r /\ (48 <= c <= 57)%N.
Proof. destruct u; [done|..]; intros _; eexists _, _; (split; [reflexivity | lia]). Qed.

Lemma digits_of_head (n : N) :
  exists c r, digits_of n = c :: r /\ (48 <= c <= 57)%N.
Proof.
  unfold digits_of. apply uint_codes_head.
  destruct n; simpl; [done | apply DecimalPos.Unsigned.to_uint_nonnil].
Qed.

(** A formatted step begins with a digit or a minus sign. *)
Lemma format_06_head (z : Z) :
  exists c r, format_06 z = c :: r /\ (c = 45 \/ 48 <= c <= 57)%N.
Proof.
  unfold format_06. cbv zeta.
  destruct (digits_of_head (Z.abs_N z)) as (c & r & -> & Hc).
  destruct (z <? 0).
  - eexists _, _. split; [reflexivity | by left].
  - generalize (6 - length (@nil N) - length (c :: r))%nat. intros [|k]; simpl.
    + eexists _, _. split; [reflexivity | by right].
    + eexists _, _. split; [reflexivity | right; lia].
Qed.

(** The files of a task lie side by side. *)
Lemma startswith_task (t x : pystr) (c d : N) :
  startswith (t ++ [d] ++ x) [c] = startswith (t ++ [d]) [c].
Proof. destruct t; reflexivity. Qed.

Lemma path_join_task (a t : pystr) :
  exists p, forall x, path_join a (t ++ lit "-" ++ x) = p ++ t ++ lit "-" ++ x.
Proof.
  unfold path_join. lit_eval.
  exists (if startswith (t ++ [45%N]) [47%N] then []
          else if bool_decide (a = []) || endswith a [47%N] then a
               else a ++ [47%N]).
  intros x. rewrite startswith_task.
  destruct (startswith (t ++ [45%N]) [47%N]); [done|].
  destruct (bool_decide (a = []) || endswith a [47%N]); [done|].
  by rewrite <- app_assoc.
Qed.

Lemma tmp_ne (fname : pystr) : fname ++ lit ".tmp" <> fname.
Proof.
  intros E. apply (f_equal length) in E. rewrite length_app in E. simpl in E. lia.
Qed.

Lemma inferences_fname_ne_metrics (self : JSONLogger) (task_name : pystr) (step : Z) :
  inferences_fname_of self task_name step <> metrics_fname_of self task_name
  /\ inferences_fname_of self task_name step
     <> metrics_fname_of self task_name ++ lit ".tmp".
Proof.
  unfold inferences_fname_of, metrics_fname_of.
  destruct (path_join_task (json_output_dir self) task_name) as [p Hp].
  rewrite (Hp (format_06 step ++ lit ".jsonl")).
  change (task_name ++ lit "-metrics.jsonl")
    with (task_name ++ lit "-" ++ lit "metrics.jsonl").
  rewrite (Hp (lit "metrics.jsonl")).
  destruct (format_06_head step) as (c & r & -> & Hc).
  split; intros E; rewrite <- ?app_assoc in E;
    do 3 apply app_inv_head in E; simpl in E; injection E as E _; lia.
Qed.

(** ** The simulated append *)

Lemma append_ops_fs (fs : gmap pystr pystr) (fname old line : pystr) :
  let tmp := fname ++ lit ".tmp" in
  foldl fs_apply fs [FOpenW tmp; FWrite tmp old; FWrite tmp line; FRename tmp fname]
  = <[fname := old ++ line]> (delete tmp fs).
Proof.
  intros tmp. simpl.
  repeat (rewrite lookup_insert_eq; simpl).
  by rewrite !insert_insert_eq, delete_insert_eq.
Qed.

(** Until the renaming, the file under its name is the file of before. *)
Lemma append_ops_prefix (fs : gmap pystr pystr) (fname old line : pystr) (n : nat) :
  let tmp := fname ++ lit ".tmp" in
  (n < 4)%nat ->
  foldl fs_apply fs (take n [FOpenW tmp; FWrite tmp old; FWrite tmp line; FRename tmp fname])
    !! fname
  = fs !! fname.
Proof.
  intros tmp Hn. pose proof (tmp_ne fname) as Hne. fold tmp in Hne.
  destruct n as [|[|[|[|n]]]]; [| | | |lia]; simpl;
    by rewrite ?lookup_insert_ne.
Qed.

(** ** Dicts *)

Lemma dict_set_Forall {V} (P : V -> Prop) (d : list (pystr * V)) (k : pystr) (v : V) :
  Forall (fun kv => P kv.2) d -> P v -> Forall (fun kv => P kv.2) (dict_set d k v).
Proof.
  induction 1 as [|[k' v'] d Hkv Hd IH]; intros Hv; simpl.
  - by repeat constructor.
  - case_bool_decide; constructor; simpl; auto.
Qed.

Lemma dict_update_Forall {V} (P : V -> Prop) (d e : list (pystr * V)) :
  Forall (fun kv => P kv.2) d -> Forall (fun kv => P kv.2) e ->
  Forall (fun kv => P kv.2) (dict_update d e).
Proof.
  intros Hd He. revert d Hd. unfold dict_update.
  induction He as [|[k v] e Hkv _ IH]; intros d Hd; simpl; [done|].
  apply IH. by apply dict_set_Forall.
Qed.

Lemma dict_set_fresh {V} (d : list (pystr * V)) (k : pystr) (v : V) :
  k ∉ d.*1 -> dict_set d k v = d ++ [(k, v)].
Proof.
  induction d as [|[k' v'] d IH]; simpl; [done|].
  intros Hk. apply not_elem_of_cons in Hk as [Hne Hk].
  rewrite bool_decide_eq_false_2 by done. by rewrite IH.
Qed.

Lemma dict_update_fresh {V} (d e : list (pystr * V)) :
  NoDup (d.*1 ++ e.*1) -> dict_update d e = d ++ e.
Proof.
  unfold dict_update. revert d. induction e as [|[k v] e IH]; intros d Hnd; simpl.
  - by rewrite app_nil_r.
  - simpl in Hnd. rewrite dict_set_fresh.
    + rewrite IH; [by rewrite <- app_assoc|].
      rewrite fmap_app. simpl. by rewrite <- app_assoc.
    + apply NoDup_app in Hnd as (_ & Hdis & _). intros Hk.
      apply (Hdis k Hk). by left.
Qed.

Lemma written_metrics_names (metrics : list (pystr * metrics.MetricValue)) :
  (written_metrics metrics).*1 `sublist_of` metrics.*1.
Proof.
  induction metrics as [|[k v] rest IH]; simpl; [done|].
  unfold written_metrics in *. simpl.
  destruct (metric_payload v); simpl; by constructor.
Qed.

(** ** The line of the metrics *)

Lemma iterencode_dict (default : pyobj -> result pyobj) (depth : nat)
    (kvs : list (pystr * pyobj)) :
  iterencode default depth (PDict kvs)
  = (parts ← encode_pairs (iterencode default depth) kvs;
     mret (lit "{" ++ str_join (lit ", ") parts ++ lit "}")).
Proof. by destruct depth. Qed.

Lemma encode_pairs_ok (enc : pyobj -> result pystr) (kvs : list (pystr * pyobj)) :
  Forall (fun kv => is_ok (enc kv.2) = true) kvs -> is_ok (encode_pairs enc kvs) = true.
Proof.
  induction 1 as [|[k v] kvs Hx _ IH]; simpl in *; [done|].
  destruct (enc v); [|done]. simpl.
  by destruct (encode_pairs enc kvs).
Qed.

Lemma written_metrics_leaves (metrics : list (pystr * metrics.MetricValue)) :
  Forall (fun item => text_is_str item.2 = true) metrics ->
  Forall (fun kv => json_leaf kv.2 = true) (written_metrics metrics).
Proof.
  induction 1 as [|[k v] rest Hv _ IH]; [constructor|].
  unfold written_metrics in *. simpl in *.
  destruct v as [|[]|[]| | | |]; simpl; try done; by constructor.
Qed.

(** With no [bytes] among the texts, the line can be written. *)
Lemma metrics_line_ok (step : Z) (metrics : list (pystr * metrics.MetricValue)) :
  Forall (fun item => text_is_str item.2 = true) metrics ->
  is_ok (metrics_line step metrics) = true.
Proof.
  intros Hstr. unfold metrics_line, json_dumps. rewrite iterencode_dict.
  assert (Hok : is_ok (encode_pairs (iterencode JSONEncoder_default recursion_limit)
                         (dict_update [(lit "step", PInt step)]
                            (dict_update [] (written_metrics metrics)))) = true).
  { apply encode_pairs_ok.
    eapply Forall_impl; [|intros kv Hkv; apply iterencode_leaf; exact Hkv].
    apply (dict_update_Forall (fun v => json_leaf v = true)); [by repeat constructor|].
    apply (dict_update_Forall (fun v => json_leaf v = true)); [constructor|].
    by apply written_metrics_leaves. }
  by destruct (encode_pairs _ _).
Qed.

(** ** The summaries of TensorBoard *)

Lemma tb_loop_scalars (summary_writer : pystr) (step : Z)
    (metrics : list (pystr * metrics.MetricValue))
    (self : TensorBoardLogger) (w : world) (fw : FileWriter) :
  _summary_writers self !! summary_writer = Some fw ->
  Forall (fun item => is_Scalar item.2 = true) metrics ->
  for_each metrics (TensorBoardLogger_log_metric summary_writer step) (self, w)
  = (Ok tt,
     (mk_TensorBoardLogger (tb_output_dir self)
        (<[summary_writer :=
             mk_FileWriter (fw_logdir fw) (fw_pending fw ++ scalar_events step metrics)
               (fw_flushed fw)]> (_summary_writers self)),
      with_log w (event_info <$> scalar_events step metrics))).
Proof.
  intros Hfw Hall. revert self w fw Hfw.
  induction Hall as [|[name v] rest Hv _ IH]; intros self w fw Hfw.
  - simpl. rewrite with_log_nil, app_nil_r.
    destruct self as [dir ws], fw as [logdir pending flushed]. simpl in *.
    by rewrite insert_id.
  - destruct v; try discriminate. simpl.
    unfold mbind, M_bind, tb_logging, on_writer. simpl.
    rewrite (alter_alt_Some _ _ _ _ Hfw).
    erewrite IH; [|simpl; apply lookup_insert_eq]. simpl.
    rewrite insert_insert_eq, <- app_assoc. unfold with_log. simpl.
    by rewrite <- app_assoc.
Qed.

Lemma tb_loop_raises (summary_writer : pystr) (step : Z)
    (metrics : list (pystr * metrics.MetricValue)) (s : TensorBoardLogger * world) :
  Exists (fun item => is_Scalar item.2 = false) metrics ->
  (for_each metrics (TensorBoardLogger_log_metric summary_writer step) s).1
  = Raise ValueError.
Proof.
  intros Hex. revert s. induction metrics as [|[name v] rest IH]; intros s.
  - by apply Exists_nil in Hex.
  - simpl. destruct (is_Scalar v) eqn:Ev.
    + apply Exists_cons in Hex as [Hhd|Htl]; [simpl in Hhd; congruence|].
      destruct v; try discriminate. simpl.
      unfold mbind, M_bind, tb_logging, on_writer. simpl. by apply IH.
    + destruct v; try discriminate; reflexivity.
Qed.

(** C5. A metric that is not a [Scalar] makes the call raise
    [ValueError]. When all are, the call succeeds: the writer of the task,
    made on its first use for the directory of the task under the output
    directory, has received one summary per metric, tagged
    [eval/<metric_name>], with the value of the metric, at the step, and it
    has been flushed. *)
Theorem tensorboard_call (self : TensorBoardLogger) (task_name : pystr) (step : Z)
    (metrics : list (pystr * metrics.MetricValue))
    (dataset : list (list (pystr * pyobj))) (inferences : list (pystr * list pyobj))
    (targets : list pyobj) (w : world) :
  let r := __call__ self task_name (Some step) metrics dataset inferences targets w in
  let writer := default (FileWriter_init (path_join (tb_output_dir self) task_name))
                  (_summary_writers self !! task_name) in
  (Exists (fun item => is_Scalar item.2 = false) metrics -> r.1 = Raise ValueError)
  /\ (Forall (fun item => is_Scalar item.2 = true) metrics ->
      r.1 = Ok tt
      /\ tb_output_dir r.2.1 = tb_output_dir self
      /\ _summary_writers r.2.1
         = <[task_name :=
               mk_FileWriter (fw_logdir writer) []
                 (fw_flushed writer ++ fw_pending writer ++ scalar_events step metrics)]>
             (_summary_writers self)
      /\ length (scalar_events step metrics) = length metrics
      /\ r.2.2 = with_log w (event_info <$> scalar_events step metrics)).
Proof.
  intros r writer. subst r. simpl.
  unfold TensorBoardLogger_call.
  change ((mret step : M _ Z) ≫= ?f) with (f step).
  set (s1 := (_get_summary_writer task_name (self, w)).2).
  assert (Hs1 : _get_summary_writer task_name (self, w) = (Ok task_name, s1)).
  { unfold s1, _get_summary_writer. simpl. by destruct (_ !! _). }
  assert (Hlook : _summary_writers s1.1 !! task_name = Some writer).
  { unfold s1, _get_summary_writer, writer. simpl.
    destruct (_summary_writers self !! task_name) eqn:E; simpl; [done|].
    apply lookup_insert_eq. }
  assert (Hins : forall fw, <[task_name := fw]> (_summary_writers s1.1)
                            = <[task_name := fw]> (_summary_writers self)).
  { intros fw. unfold s1, _get_summary_writer. simpl.
    destruct (_summary_writers self !! task_name); simpl; [done|].
    apply insert_insert_eq. }
  assert (Hdir : tb_output_dir s1.1 = tb_output_dir self /\ s1.2 = w).
  { unfold s1, _get_summary_writer. simpl. by destruct (_ !! _). }
  destruct Hdir as [Hdir Hw].
  erewrite bind_Ok by exact Hs1.
  split.
  - intros Hex. unfold mbind, M_bind.
    pose proof (tb_loop_raises task_name step metrics s1 Hex) as Hr.
    destruct (for_each metrics _ s1) as [[[]|e] s2]; simpl in *; congruence.
  - intros Hall. destruct s1 as [self1 w1]. simpl in *.
    erewrite bind_Ok by (by apply tb_loop_scalars).
    unfold on_writer. simpl. rewrite alter_insert_eq, Hins. simpl.
    repeat split; try done.
    + clear -Hall. induction Hall as [|[n v] rest Hv _ IH]; [done|].
      destruct v; try discriminate. simpl. by f_equal.
    + by subst.
Qed.

(** C9. Called without a step, each logger logs a warning and goes on as
    it does when called with the step -1: the two calls end alike. *)
Theorem step_None (tb : TensorBoardLogger) (js : JSONLogger) (task_name : pystr)
    (metrics : list (pystr * metrics.MetricValue))
    (dataset : list (list (pystr * pyobj))) (inferences : list (pystr * list pyobj))
    (targets : list pyobj) (w : world) :
  __call__ tb task_name None metrics dataset inferences targets w
  = __call__ tb task_name (Some (-1)) metrics dataset inferences targets
      (with_log w [Warning_no_step])
  /\ __call__ js task_name None metrics dataset inferences targets w
     = __call__ js task_name (Some (-1)) metrics dataset inferences targets
         (with_log w [Warning_no_step]).
Proof. split; reflexivity. Qed.

(** ** The state after records and operations *)

Lemma advance_nil (w : world) : advance w [] [] = w.
Proof. destruct w. unfold advance. simpl. by rewrite !app_nil_r. Qed.

Lemma advance_advance (w : world) (rs rs' : list logrec) (ops ops' : list fsop) :
  advance (advance w rs ops) rs' ops' = advance w (rs ++ rs') (ops ++ ops').
Proof. unfold advance. simpl. by rewrite foldl_app, !app_assoc. Qed.

Lemma with_log_advance (w : world) (rs : list logrec) : with_log w rs = advance w rs [].
Proof. unfold with_log, advance. simpl. by rewrite app_nil_r. Qed.

Lemma after_ops_advance (w : world) (ops : list fsop) : after_ops w ops = advance w [] ops.
Proof. unfold after_ops, advance. simpl. by rewrite app_nil_r. Qed.

(** ** One line *)

(** Induction on Python objects, through the lists and the dicts. *)
Lemma pyobj_nested_ind (P : pyobj -> Prop) :
  P PNone -> (forall b, P (PBool b)) -> (forall z, P (PInt z)) ->
  (forall f, P (PFloat f)) -> (forall re im, P (PComplex re im)) ->
  (forall s, P (PStr s)) -> (forall b, P (PBytes b)) ->
  (forall xs, Forall P xs -> P (PList xs)) ->
  (forall xs, Forall P xs -> P (PTuple xs)) ->
  (forall kvs, Forall (fun kv => P kv.2) kvs -> P (PDict kvs)) ->
  (forall s, P (PNpScalar s)) -> (forall a, P (PNdarray a)) ->
  (forall t, P (PTensor t)) -> (forall a, P (PRaggedTensor a)) ->
  (forall cls, P (PObject cls)) ->
  forall o, P o.
Proof.
  intros HNone HBool HInt HFloat HComplex HStr HBytes HList HTuple HDict HScalar
    HNdarray HTensor HRagged HObject.
  fix IH 1. intros [| | | | | | |xs|xs|kvs| | | | |];
    [apply HNone | apply HBool | apply HInt | apply HFloat | apply HComplex
    | apply HStr | apply HBytes | | | | apply HScalar | apply HNdarray
    | apply HTensor | apply HRagged | apply HObject].
  - apply HList. induction xs as [|x xs IHxs]; constructor; [apply IH | exact IHxs].
  - apply HTuple. induction xs as [|x xs IHxs]; constructor; [apply IH | exact IHxs].
  - apply HDict. induction kvs as [|[k v] kvs IHkvs]; constructor;
      [apply IH | exact IHkvs].
Qed.

Lemma uint_codes_no_newline (u : Decimal.uint) : 10%N ∉ uint_codes u.
Proof.
  induction u; simpl; [apply not_elem_of_nil|..];
    (apply not_elem_of_cons; split; [discriminate | assumption]).
Qed.

Lemma int_repr_no_newline (z : Z) : 10%N ∉ int_repr z.
Proof.
  unfold int_repr, digits_of. apply not_elem_of_app. split.
  - destruct (z <? 0); [|apply not_elem_of_nil].
    apply (bool_decide_unpack _). by vm_compute.
  - apply uint_codes_no_newline.
Qed.

Lemma hex_digit_no_newline (n : N) : hex_digit n <> 10%N.
Proof. unfold hex_digit. destruct (n <? 10)%N; lia. Qed.

Lemma u_escape_no_newline (n : N) : 10%N ∉ u_escape n.
Proof.
  unfold u_escape.
  repeat (apply not_elem_of_cons; split;
          [first [discriminate | apply not_eq_sym, hex_digit_no_newline]|]).
  apply not_elem_of_nil.
Qed.

Lemma escape_char_no_newline (c : N) : 10%N ∉ escape_char c.
Proof.
  unfold escape_char.
  repeat (case_match;
          [apply (bool_decide_unpack _); by vm_compute|]).
  case_match.
  - apply andb_true_iff in H6 as [Hlo Hhi]. apply N.leb_le in Hlo.
    apply not_elem_of_cons. split; [lia | apply not_elem_of_nil].
  - case_match; [apply u_escape_no_newline|].
    apply not_elem_of_app. split; apply u_escape_no_newline.
Qed.

Lemma encode_basestring_ascii_no_newline (s : pystr) :
  10%N ∉ encode_basestring_ascii s.
Proof.
  unfold encode_basestring_ascii.
  apply not_elem_of_app. split; [apply not_elem_of_cons; split;
                                 [discriminate | apply not_elem_of_nil]|].
  apply not_elem_of_app. split;
    [|apply not_elem_of_cons; split; [discriminate | apply not_elem_of_nil]].
  induction s as [|c s IH]; simpl; [apply not_elem_of_nil|].
  apply not_elem_of_app. split; [apply escape_char_no_newline | exact IH].
Qed.

Lemma str_join_no_newline (sep : pystr) (parts : list pystr) :
  10%N ∉ sep -> Forall (fun p => 10%N ∉ p) parts -> 10%N ∉ str_join sep parts.
Proof.
  intros Hsep Hparts. induction Hparts as [|p parts Hp Hps IH]; simpl;
    [apply not_elem_of_nil|].
  destruct parts as [|q parts]; [exact Hp|].
  apply not_elem_of_app. split; [exact Hp|].
  apply not_elem_of_app. split; [exact Hsep | exact IH].
Qed.

Lemma lit_no_newline (s : string) :
  bool_decide (10%N ∉ lit s) = true -> 10%N ∉ lit s.
Proof. apply bool_decide_eq_true_1. Qed.

Section OneLine.

Hypothesis float_repr_one_line : forall f, 10%N ∉ py_repr (PFloat f).

Lemma floatstr_no_newline (f : pyfloat) : 10%N ∉ floatstr f.
Proof.
  destruct f as [|[]|]; simpl; try apply float_repr_one_line;
    apply lit_no_newline; by vm_compute.
Qed.

Lemma encode_items_no_newline (enc : pyobj -> result pystr) (xs : list pyobj) :
  Forall (fun x => forall s, enc x = Ok s -> 10%N ∉ s) xs ->
  forall parts, encode_items enc xs = Ok parts -> Forall (fun p => 10%N ∉ p) parts.
Proof.
  induction 1 as [|x xs Hx _ IH]; simpl; intros parts Hparts.
  - injection Hparts as <-. constructor.
  - destruct (enc x) as [s|] eqn:Es; [|discriminate]. simpl in Hparts.
    destruct (encode_items enc xs) as [ss|]; [|discriminate].
    injection Hparts as <-. constructor; [by apply Hx | by apply IH].
Qed.

Lemma encode_pairs_no_newline (enc : pyobj -> result pystr) (kvs : list (pystr * pyobj)) :
  Forall (fun kv => forall s, enc kv.2 = Ok s -> 10%N ∉ s) kvs ->
  forall parts, encode_pairs enc kvs = Ok parts -> Forall (fun p => 10%N ∉ p) parts.
Proof.
  induction 1 as [|[k v] kvs Hx _ IH]; intros parts Hparts.
  - injection Hparts as <-. constructor.
  - cbn [encode_pairs] in Hparts. cbn [snd] in Hx.
    destruct (enc v) as [s|] eqn:Es; [|discriminate].
    destruct (encode_pairs enc kvs) as [ss|]; [|discriminate].
    assert (parts = (encode_basestring_ascii k ++ lit ": " ++ s) :: ss) as ->
      by (symmetry; exact (f_equal (fun r => match r with Ok x => x | _ => [] end)
                             Hparts)).
    constructor; [|by apply IH].
    apply not_elem_of_app. split; [apply encode_basestring_ascii_no_newline|].
    apply not_elem_of_app. split; [apply lit_no_newline; by vm_compute | by apply Hx].
Qed.

Lemma iterencode_tuple (default : pyobj -> result pyobj) (depth : nat) (xs : list pyobj) :
  iterencode default depth (PTuple xs)
  = (parts ← encode_items (iterencode default depth) xs;
     mret (lit "[" ++ str_join (lit ", ") parts ++ lit "]")).
Proof. by destruct depth. Qed.

Lemma bracketed_no_newline (l r : string) (parts : list pystr) :
  bool_decide (10%N ∉ lit l) = true -> bool_decide (10%N ∉ lit r) = true ->
  Forall (fun p => 10%N ∉ p) parts ->
  10%N ∉ lit l ++ str_join (lit ", ") parts ++ lit r.
Proof.
  intros Hl Hr Hparts.
  apply not_elem_of_app. split; [by apply lit_no_newline|].
  apply not_elem_of_app. split; [|by apply lit_no_newline].
  apply str_join_no_newline; [apply lit_no_newline; by vm_compute | exact Hparts].
Qed.

Lemma Ok_inj {A} (x y : A) : Ok x = Ok y -> x = y.
Proof. intros H. exact (f_equal (fun r => match r with Ok a => a | _ => x end) H). Qed.

Lemma iterencode_no_newline_step (default : pyobj -> result pyobj) (depth : nat) :
  (forall o' s,
     match depth with O => Raise RecursionError | S d => iterencode default d o' end
     = Ok s -> 10%N ∉ s) ->
  forall o s, iterencode default depth o = Ok s -> 10%N ∉ s.
Proof.
  intros Hdeeper o. induction o as [|b|z|f|re im|str|b|xs IH|xs IH|kvs IH|sc|a|t|a|cls]
    using pyobj_nested_ind; intros s Hs.
  - destruct depth; apply Ok_inj in Hs; subst s; apply lit_no_newline; by vm_compute.
  - destruct depth, b; apply Ok_inj in Hs; subst s; apply lit_no_newline;
      by vm_compute.
  - destruct depth; apply Ok_inj in Hs; subst s; apply int_repr_no_newline.
  - destruct depth; apply Ok_inj in Hs; subst s; apply floatstr_no_newline.
  - destruct depth; simpl in Hs; destruct (default _) as [o'|]; try discriminate;
      by eapply Hdeeper.
  - rewrite iterencode_str in Hs. apply Ok_inj in Hs. subst s.
    apply encode_basestring_ascii_no_newline.
  - destruct depth; simpl in Hs; destruct (default _) as [o'|]; try discriminate;
      by eapply Hdeeper.
  - rewrite iterencode_list in Hs.
    destruct (encode_items _ xs) as [parts|] eqn:Ep; [|discriminate].
    apply Ok_inj in Hs. subst s. apply bracketed_no_newline; [done..|].
    by eapply encode_items_no_newline.
  - rewrite iterencode_tuple in Hs.
    destruct (encode_items _ xs) as [parts|] eqn:Ep; [|discriminate].
    apply Ok_inj in Hs. subst s. apply bracketed_no_newline; [done..|].
    by eapply encode_items_no_newline.
  - rewrite iterencode_dict in Hs.
    destruct (encode_pairs _ kvs) as [parts|] eqn:Ep; [|discriminate].
    apply Ok_inj in Hs. subst s. apply bracketed_no_newline; [done..|].
    by eapply encode_pairs_no_newline.
  - destruct sc as [| |k f|];
      [| |destruct k|];
      try (destruct depth; simpl in Hs; destruct (default _) as [o'|];
           try discriminate; by eapply Hdeeper).
    destruct depth; apply Ok_inj in Hs; subst s; apply floatstr_no_newline.
  - destruct depth; simpl in Hs; destruct (default _) as [o'|]; try discriminate;
      by eapply Hdeeper.
  - destruct depth; simpl in Hs; destruct (default _) as [o'|]; try discriminate;
      by eapply Hdeeper.
  - destruct depth; simpl in Hs; destruct (default _) as [o'|]; try discriminate;
      by eapply Hdeeper.
  - destruct depth; simpl in Hs; destruct (default _) as [o'|]; try discriminate;
      by eapply Hdeeper.
Qed.

(** What the encoding returns holds no newline, whatever [default] does. *)
Lemma iterencode_no_newline (default : pyobj -> result pyobj) (depth : nat) (o : pyobj)
    (s : pystr) :
  iterencode default depth o = Ok s -> 10%N ∉ s.
Proof.
  revert o s. induction depth as [|d IHd]; apply iterencode_no_newline_step.
  - discriminate.
  - exact IHd.
Qed.

End OneLine.

(** ** The lines of the inferences *)

Lemma example_dict_built (inp prediction target score : pyobj) (bp bt bs : bool) :
  (let d0 := [(lit "input", inp)] in
   let d1 := if bp then dict_set d0 (lit "prediction") prediction else d0 in
   let d2 := if bt then dict_set d1 (lit "target") target else d1 in
   if bs then dict_set d2 (lit "score") score else d2)
  = [(lit "input", inp)]
    ++ (if bp then [(lit "prediction", prediction)] else [])
    ++ (if bt then [(lit "target", target)] else [])
    ++ (if bs then [(lit "score", score)] else []).
Proof. destruct bp, bt, bs; reflexivity. Qed.

Lemma json_dumps_dict_ok (default : pyobj -> result pyobj) (kvs : list (pystr * pyobj)) :
  Forall (fun kv => is_ok (json_dumps default kv.2) = true) kvs ->
  is_ok (json_dumps default (PDict kvs)) = true.
Proof.
  intros Hall. unfold json_dumps in *. rewrite iterencode_dict.
  pose proof (encode_pairs_ok _ _ Hall) as Hok.
  by destruct (encode_pairs _ _).
Qed.

Lemma set_if_serializable_spec (self : JSONLogger) (which : which_field)
    (d : list (pystr * pyobj)) (key : pystr) (v : pyobj) (w : world) :
  serializable self v || refused self v = true ->
  set_if_serializable self which d key v w
  = (Ok (if serializable self v then dict_set d key v else d),
     with_log w (if serializable self v then [] else [Warning_not_serializable which])).
Proof.
  unfold set_if_serializable, serializable, refused.
  destruct (json_dumps _ v) as [|[]]; simpl; try done; intros _.
  by rewrite with_log_nil.
Qed.

Lemma write_example_ok (self : JSONLogger) (f : GFile) (e : entry) (w : world) :
  entry_ok self e = true ->
  exists line,
    example_line self e = Ok line
    /\ JSONLogger_write_example self f e w
       = (Ok (mk_GFile (gf_name f) true),
          advance w (entry_warnings self e)
            (opening f ++ [FWrite (gf_name f) (line ++ [10%N])])).
Proof.
  destruct e as [[[[inp|] p] t] s]; [|done].
  unfold entry_ok, entry_warnings, example_line, example_warnings. simpl.
  set (p' := or_None p). set (t' := or_None t). set (s' := or_None s).
  intros Hok. repeat apply andb_true_iff in Hok as [Hok ?].
  assert (Hline : is_ok (json_dumps (_json_encoder_cls self)
                           (PDict (example_object self inp p' t' s'))) = true).
  { apply json_dumps_dict_ok. unfold example_object.
    repeat apply Forall_app_2; repeat case_match; repeat constructor; simpl;
      try done; fold (serializable self p') (serializable self t') (serializable self s').
    - by apply andb_true_iff in H2 as [_ ?].
    - destruct (is_None s'); [done|]. by fold (serializable self s'). }
  destruct (json_dumps _ (PDict (example_object self inp p' t' s'))) as [line|] eqn:Eline;
    [|done].
  exists line. split; [done|].
  unfold JSONLogger_write_example. fold p' t' s'.
  set (bp := negb (is_None p') && serializable self p').
  set (d0 := [(lit "input", PDict (ragged_to_numpy inp))]).
  erewrite bind_Ok by reflexivity. fold d0.
  erewrite (bind_Ok _ _ w
              (with_log w (if negb (is_None p') && negb (serializable self p')
                           then [Warning_not_serializable prediction_field] else []))
              (if bp then dict_set d0 (lit "prediction") p' else d0)).
  2:{ unfold bp. destruct (is_None p') eqn:Ep; simpl.
      - by rewrite with_log_nil.
      - rewrite set_if_serializable_spec by done.
        by destruct (serializable self p'). }
  erewrite bind_Ok by (by apply set_if_serializable_spec).
  rewrite with_log_app.
  replace (if is_None s' then _ else _)
    with (example_object self inp p' t' s').
  2:{ unfold example_object. rewrite <- example_dict_built. fold d0 bp. cbv zeta.
      by destruct (is_None s'). }
  unfold lift. erewrite bind_Ok by (by rewrite Eline).
  rewrite gfile_write_spec, with_log_advance, after_ops_advance, advance_advance.
  by rewrite app_nil_r.
Qed.

(** The operations of a loop that writes [lines] through [f]. *)
Lemma write_examples_ok (self : JSONLogger) (f : GFile) (entries : list entry)
    (w : world) :
  Forall (fun e => entry_ok self e = true) entries ->
  exists lines,
    Forall2 (fun e line => example_line self e = Ok line) entries lines
    /\ (for_each_with entries f (JSONLogger_write_example self) w).1
       = Ok (match entries with [] => f | _ => mk_GFile (gf_name f) true end)
    /\ (for_each_with entries f (JSONLogger_write_example self) w).2
       = advance w (mjoin (entry_warnings self <$> entries))
           (match lines with
            | [] => []
            | _ => opening f
                   ++ ((fun line => FWrite (gf_name f) (line ++ [10%N])) <$> lines)
            end).
Proof.
  intros Hall. revert f w. induction Hall as [|e entries He _ IH]; intros f w.
  - exists []. split; [constructor|]. simpl. by rewrite advance_nil.
  - destruct (write_example_ok self f e w He) as (line & Hline & Hrun).
    destruct (IH (mk_GFile (gf_name f) true)
                (advance w (entry_warnings self e)
                   (opening f ++ [FWrite (gf_name f) (line ++ [10%N])])))
      as (lines & Hlines & Hres & Hrest).
    exists (line :: lines). split; [by constructor|].
    simpl. erewrite bind_Ok by exact Hrun. rewrite Hres, Hrest.
    split; [by destruct entries|].
    rewrite advance_advance. f_equal. rewrite <- app_assoc. f_equal.
    simpl. by destruct lines.
Qed.

Lemma foldl_writes (fs : gmap pystr pystr) (fname c : pystr) (chunks : list pystr) :
  fs !! fname = Some c ->
  foldl fs_apply fs (FWrite fname <$> chunks) = <[fname := c ++ mjoin chunks]> fs.
Proof.
  revert fs c. induction chunks as [|x chunks IH]; intros fs c Hc; simpl.
  - by rewrite app_nil_r, insert_id.
  - rewrite Hc. simpl. erewrite IH by apply lookup_insert_eq.
    by rewrite insert_insert_eq, app_assoc.
Qed.

(** ** What a phase can touch *)

Lemma only_on_ret (fname : pystr) {A} (a : A) : only_on fname (mret a).
Proof. intros w. exists [], []. by rewrite advance_nil. Qed.

Lemma only_on_raise (fname : pystr) {A} (e : exn) : only_on fname (@raise world A e).
Proof. intros w. exists [], []. by rewrite advance_nil. Qed.

Lemma only_on_lift (fname : pystr) {A} (r : result A) : only_on fname (lift r).
Proof. intros w. exists [], []. by rewrite advance_nil. Qed.

Lemma only_on_logging (fname : pystr) (r : logrec) : only_on fname (logging r).
Proof. intros w. exists [r], []. by rewrite logging_spec, with_log_advance. Qed.

Lemma only_on_gfile_write (f : GFile) (s : pystr) :
  only_on (gf_name f) (gfile_write f s).
Proof.
  intros w. exists [], (opening f ++ [FWrite (gf_name f) s]).
  rewrite gfile_write_spec, after_ops_advance. split; [done|].
  unfold opening. destruct (gf_writable f); repeat constructor; simpl;
    by apply bool_decide_eq_true.
Qed.

Lemma only_on_bind (fname : pystr) {A B} (m : M world A) (f : A -> M world B) :
  only_on fname m -> (forall a, only_on fname (f a)) -> only_on fname (m ≫= f).
Proof.
  intros Hm Hf w. destruct (Hm w) as (rs & ops & Hw & Hops).
  unfold mbind, M_bind. destruct (m w) as [[a|e] w1]; simpl in *; subst w1.
  - destruct (Hf a (advance w rs ops)) as (rs' & ops' & Hw' & Hops').
    exists (rs ++ rs'), (ops ++ ops'). rewrite Hw', advance_advance.
    split; [done | by apply Forall_app].
  - by exists rs, ops.
Qed.

Lemma only_on_set_if_serializable (fname : pystr) (self : JSONLogger)
    (which : which_field) (d : list (pystr * pyobj)) (key : pystr) (v : pyobj) :
  only_on fname (set_if_serializable self which d key v).
Proof.
  unfold set_if_serializable. destruct (json_dumps _ v) as [|[]];
    try apply only_on_ret; try apply only_on_raise.
  apply only_on_bind; [apply only_on_logging | intros _; apply only_on_ret].
Qed.

Lemma only_on_write_example (self : JSONLogger) (f : GFile) (e : entry) :
  only_on (gf_name f) (JSONLogger_write_example self f e).
Proof.
  destruct e as [[[inp p] t] s]. unfold JSONLogger_write_example.
  apply only_on_bind.
  { destruct inp; [apply only_on_ret | apply only_on_raise]. }
  intros inp'. apply only_on_bind.
  { destruct (is_None _); [apply only_on_ret | apply only_on_set_if_serializable]. }
  intros d1. apply only_on_bind; [apply only_on_set_if_serializable|].
  intros d2. apply only_on_bind; [apply only_on_lift|].
  intros line. apply only_on_gfile_write.
Qed.

(** The file that an example is written to keeps its name. *)
Lemma write_example_name (self : JSONLogger) (f f' : GFile) (e : entry) (w : world) :
  (JSONLogger_write_example self f e w).1 = Ok f' -> gf_name f' = gf_name f.
Proof.
  destruct e as [[[inp p] t] s]. unfold JSONLogger_write_example.
  unfold mbind, M_bind.
  repeat (match goal with
          | |- context [let (_, _) := ?m ?w in _] =>
            destruct (m w) as [[?|?] ?]; simpl; try discriminate
          end).
  unfold lift. destruct (json_dumps _ _); simpl; [|discriminate].
  rewrite gfile_write_spec. simpl. by intros [= <-].
Qed.

Lemma only_on_write_examples (self : JSONLogger) (f : GFile) (entries : list entry) :
  only_on (gf_name f) (for_each_with entries f (JSONLogger_write_example self)).
Proof.
  revert f. induction entries as [|e entries IH]; intros f; simpl.
  - apply only_on_ret.
  - intros w. destruct (only_on_write_example self f e w) as (rs & ops & Hw & Hops).
    unfold mbind, M_bind.
    destruct (JSONLogger_write_example self f e w) as [[f'|err] w1] eqn:Erun;
      simpl in *; subst w1; [|by exists rs, ops].
    assert (Hname : gf_name f' = gf_name f).
    { apply (write_example_name self f f' e w). by rewrite Erun. }
    destruct (IH f' (advance w rs ops)) as (rs' & ops' & Hw' & Hops').
    rewrite Hname in Hops'.
    exists (rs ++ rs'), (ops ++ ops'). rewrite Hw', advance_advance.
    split; [done | by apply Forall_app].
Qed.

Lemma op_on_frame (fs : gmap pystr pystr) (fname p : pystr) (ops : list fsop) :
  Forall (fun op => op_on fname op = true) ops -> p <> fname ->
  foldl fs_apply fs ops !! p = fs !! p.
Proof.
  intros Hops Hp. revert fs. induction Hops as [|op ops Hop _ IH]; intros fs; [done|].
  simpl. rewrite IH. destruct op as [q|q s|q q']; simpl in *; try done;
    apply bool_decide_eq_true in Hop; subst q; by rewrite lookup_insert_ne.
Qed.

Lemma zip_longest_length {A B C D} (xs : list A) (ys : list B) (zs : list C) (ws : list D) :
  length (zip_longest xs ys zs ws)
  = Nat.max (Nat.max (length xs) (length ys)) (Nat.max (length zs) (length ws)).
Proof. unfold zip_longest. by rewrite length_fmap, length_seq. Qed.

Lemma example_object_keys (self : JSONLogger) (inp : list (pystr * pyobj))
    (prediction target score : pyobj) :
  let o := example_object self inp prediction target score in
  dict_get o (lit "input") = Some (PDict (ragged_to_numpy inp))
  /\ dict_get o (lit "prediction")
     = (if negb (is_None prediction) && serializable self prediction
        then Some prediction else None)
  /\ dict_get o (lit "target") = (if serializable self target then Some target else None)
  /\ dict_get o (lit "score") = (if negb (is_None score) then Some score else None).
Proof.
  unfold example_object.
  destruct (negb (is_None prediction) && serializable self prediction),
    (serializable self target), (negb (is_None score)); repeat split; reflexivity.
Qed.

Lemma write_inferences_zero (self : JSONLogger) (task_name : pystr) (step : Z)
    (dataset : list (list (pystr * pyobj))) (inferences : list (pystr * list pyobj))
    (targets : list pyobj) (w : world) :
  _write_n_results self = Some 0 ->
  JSONLogger_write_inferences self task_name step dataset inferences targets w = (Ok tt, w).
Proof. intros H. unfold JSONLogger_write_inferences. by rewrite H. Qed.

Lemma write_inferences_only_on (self : JSONLogger) (task_name : pystr) (step : Z)
    (dataset : list (list (pystr * pyobj))) (inferences : list (pystr * list pyobj))
    (targets : list pyobj) :
  only_on (inferences_fname_of self task_name step)
    (JSONLogger_write_inferences self task_name step dataset inferences targets).
Proof.
  unfold JSONLogger_write_inferences. fold (inferences_fname_of self task_name step).
  case_bool_decide; [apply only_on_ret|].
  apply only_on_bind; [apply only_on_logging|]. intros _.
  apply only_on_bind.
  { destruct (_write_n_results self) as [n|]; [|apply only_on_ret].
    destruct (n <? 0); [apply only_on_raise | apply only_on_ret]. }
  intros entries. apply only_on_bind; [|intros _; apply only_on_logging].
  apply (only_on_write_examples self (GFile_w (inferences_fname_of self task_name step))).
Qed.

Lemma write_inferences_ok (self : JSONLogger) (task_name : pystr) (step : Z)
    (dataset : list (list (pystr * pyobj))) (inferences : list (pystr * list pyobj))
    (targets : list pyobj) (w : world) :
  let fname := inferences_fname_of self task_name step in
  let entries := entries_of self dataset inferences targets in
  (_write_n_results self = None \/ exists n, _write_n_results self = Some n /\ 0 < n) ->
  Forall (fun e => entry_ok self e = true) entries ->
  exists lines,
    Forall2 (fun e line => example_line self e = Ok line) entries lines
    /\ JSONLogger_write_inferences self task_name step dataset inferences targets w
       = (Ok tt,
          advance w
            ([Info_writing_inferences fname] ++ mjoin (entry_warnings self <$> entries)
             ++ [Info_writing_completed])
            (match lines with
             | [] => []
             | _ => FOpenW fname :: ((fun line => FWrite fname (line ++ [10%N])) <$> lines)
             end)).
Proof.
  intros fname entries Hn Hall.
  unfold JSONLogger_write_inferences.
  fold (inferences_fname_of self task_name step). fold fname.
  rewrite bool_decide_eq_false_2.
  2:{ destruct Hn as [->|(n & -> & Hpos)]; [done|]. intros [= ->]. lia. }
  erewrite bind_Ok by apply logging_spec.
  rewrite with_log_advance.
  set (w1 := advance w _ _).
  erewrite (bind_Ok _ _ w1 w1 entries).
  2:{ unfold entries, entries_of.
      destruct Hn as [->|(n & -> & Hpos)]; [done|].
      by rewrite (proj2 (Z.ltb_ge n 0)) by lia. }
  destruct (write_examples_ok self (GFile_w fname) entries w1 Hall)
    as (lines & Hlines & Hres & Hrun).
  exists lines. split; [done|].
  erewrite bind_Ok by (apply injective_projections; [exact Hres | exact Hrun]).
  rewrite logging_spec, with_log_advance. unfold w1. rewrite !advance_advance.
  simpl. rewrite app_nil_r. by destruct lines.
Qed.

(** ** The call of the JSON logger *)

Lemma call_phases (self : JSONLogger) (task_name : pystr) (step : option Z)
    (metrics : list (pystr * metrics.MetricValue))
    (dataset : list (list (pystr * pyobj))) (inferences : list (pystr * list pyobj))
    (targets : list pyobj) (w : world) :
  JSONLogger_call self task_name step metrics dataset inferences targets w
  = (_ ← JSONLogger_log_metrics self task_name (step_or_dummy step) metrics;
     JSONLogger_write_inferences self task_name (step_or_dummy step) dataset
       inferences targets) (entry_world step w).
Proof. by destruct step. Qed.

(** The metrics phase leaves every file but the metrics file and its
    temporary file as it was, and the metrics file too when it raises. *)
Lemma log_metrics_frame (self : JSONLogger) (task_name : pystr) (step : Z)
    (metrics : list (pystr * metrics.MetricValue)) (w : world) :
  let fname := metrics_fname_of self task_name in
  let r := JSONLogger_log_metrics self task_name step metrics w in
  (forall p, p <> fname -> p <> fname ++ lit ".tmp" -> w_fs r.2 !! p = w_fs w !! p)
  /\ (r.1 <> Ok tt -> w_fs r.2 !! fname = w_fs w !! fname).
Proof.
  intros fname r. subst r. pose proof (tmp_ne fname) as Htmp.
  destruct (decide (metrics = [])) as [->|Hne].
  - rewrite log_metrics_empty. by split.
  - rewrite (log_metrics_spec _ _ _ _ _ Hne). fold fname.
    destruct (metrics_line step metrics) as [line|e]; simpl.
    + split; [|done]. intros p Hp Hp'.
      repeat (rewrite lookup_insert_eq; simpl).
      by rewrite lookup_insert_ne, lookup_delete_ne, !lookup_insert_ne.
    + split; [intros p Hp Hp' | intros _]; by rewrite !lookup_insert_ne.
Qed.

(** After the call the metrics file is as the metrics phase left it. *)
Lemma call_metrics_file (self : JSONLogger) (task_name : pystr) (step : option Z)
    (metrics : list (pystr * metrics.MetricValue))
    (dataset : list (list (pystr * pyobj))) (inferences : list (pystr * list pyobj))
    (targets : list pyobj) (w : world) :
  let m := JSONLogger_log_metrics self task_name (step_or_dummy step) metrics
             (entry_world step w) in
  let r := JSONLogger_call self task_name step metrics dataset inferences targets w in
  w_fs r.2 !! metrics_fname_of self task_name = w_fs m.2 !! metrics_fname_of self task_name
  /\ (m.1 <> Ok tt -> r = m).
Proof.
  intros m r. subst r m. rewrite call_phases.
  unfold mbind, M_bind.
  destruct (JSONLogger_log_metrics _ _ _ _ _) as [[[]|e] w1] eqn:Em; simpl.
  - split; [|done].
    destruct (write_inferences_only_on self task_name (step_or_dummy step) dataset
                inferences targets w1) as (rs & ops & -> & Hops).
    simpl. apply op_on_frame with (fname := inferences_fname_of self task_name
                                               (step_or_dummy step)); [done|].
    intros E. by destruct (inferences_fname_ne_metrics self task_name (step_or_dummy step)).
  - by split.
Qed.

(** C6, amended. Let the metrics be written, [write_n_results] be [None] or
    positive, and every entry gone through (all those of [zip_longest], or
    the first [write_n_results]) have an input that the encoder serializes,
    a score that it serializes if there is one, and a prediction and a
    target that it serializes or refuses with [TypeError]. Then the call
    returns and, if there is an entry, the inferences file holds one line
    per entry, in order, and nothing else; with no entry no file is
    written. A line holds no newline of its own, provided that the [repr]
    of a float holds none. The object of a line has [input]; it has [prediction] exactly
    when there is a prediction and it can be serialized, [target] exactly
    when the target can be serialized, and [score] exactly when there is a
    score. *)
Theorem inferences_file (self : JSONLogger) (task_name : pystr) (step : option Z)
    (metrics : list (pystr * metrics.MetricValue))
    (dataset : list (list (pystr * pyobj))) (inferences : list (pystr * list pyobj))
    (targets : list pyobj) (w : world) :
  let fname := inferences_fname_of self task_name (step_or_dummy step) in
  let m := JSONLogger_log_metrics self task_name (step_or_dummy step) metrics
             (entry_world step w) in
  let entries := entries_of self dataset inferences targets in
  let all := zip_longest dataset (default [] (dict_get inferences (lit "predictions")))
               targets (default [] (dict_get inferences (lit "scores"))) in
  let r := JSONLogger_call self task_name step metrics dataset inferences targets w in
  (_write_n_results self = None \/ exists n, _write_n_results self = Some n /\ 0 < n) ->
  m.1 = Ok tt ->
  Forall (fun e => entry_ok self e = true) entries ->
  exists lines,
    r.1 = Ok tt
    /\ w_fs r.2
       = match lines with
         | [] => w_fs m.2
         | _ => <[fname := mjoin ((fun line => line ++ [10%N]) <$> lines)]> (w_fs m.2)
         end
    /\ Forall2 (fun e line => example_line self e = Ok line) entries lines
    /\ ((forall f, 10%N ∉ py_repr (PFloat f)) -> Forall (fun line => 10%N ∉ line) lines)
    /\ entries = match _write_n_results self with
                 | Some n => take (Z.to_nat n) all
                 | None => all
                 end
    /\ forall inp prediction target score,
         let o := example_object self inp prediction target score in
         dict_get o (lit "input") = Some (PDict (ragged_to_numpy inp))
         /\ dict_get o (lit "prediction")
            = (if negb (is_None prediction) && serializable self prediction
               then Some prediction else None)
         /\ dict_get o (lit "target")
            = (if serializable self target then Some target else None)
         /\ dict_get o (lit "score")
            = (if negb (is_None score) then Some score else None).
Proof.
  intros fname m entries all r Hn Hm Hall. subst r m.
  rewrite call_phases. unfold mbind, M_bind.
  destruct (JSONLogger_log_metrics _ _ _ _ _) as [[[]|e] w1] eqn:Em; [|discriminate].
  simpl.
  destruct (write_inferences_ok self task_name (step_or_dummy step) dataset inferences
              targets w1 Hn Hall) as (lines & Hlines & ->).
  exists lines. fold fname. simpl.
  split; [done|]. split.
  { destruct lines as [|line lines]; [done|].
    rewrite list_fmap_compose with (g := FWrite fname) (f := fun line => line ++ [10%N]).
    cbn [foldl]. erewrite foldl_writes by apply lookup_insert_eq.
    cbn [fs_apply]. by rewrite insert_insert_eq. }
  split; [done|]. split.
  { intros Hrepr. eapply Forall2_Forall_r; [exact Hlines|].
    apply Forall_forall. intros [[[[inp|] prediction] target] score] _ line Hline;
      [|discriminate].
    exact (iterencode_no_newline Hrepr _ _ _ _ Hline). }
  split; [done|].
  intros inp prediction target score. apply example_object_keys.
Qed.

(** ** A text of bytes among the metrics *)

Lemma dict_set_elem_of {V} (d : list (pystr * V)) (k : pystr) (v : V) :
  (k, v) ∈ dict_set d k v.
Proof.
  induction d as [|[k' v'] d IH]; simpl; [apply list_elem_of_here|].
  case_bool_decide; [apply list_elem_of_here | by apply list_elem_of_further].
Qed.

Lemma dict_set_other {V} (d : list (pystr * V)) (k k' : pystr) (v v' : V) :
  (k', v') ∈ d -> k' <> k -> (k', v') ∈ dict_set d k v.
Proof.
  intros Hin Hne. induction d as [|[k0 v0] d IH]; simpl; [by apply elem_of_nil in Hin|].
  apply elem_of_cons in Hin as [Heq|Hin].
  - injection Heq as <- <-. rewrite bool_decide_eq_false_2 by done.
    apply list_elem_of_here.
  - case_bool_decide; apply list_elem_of_further; auto.
Qed.

Lemma dict_update_preserve {V} (d e : list (pystr * V)) (k : pystr) (v : V) :
  (k, v) ∈ d -> k ∉ e.*1 -> (k, v) ∈ dict_update d e.
Proof.
  unfold dict_update. revert d. induction e as [|[k0 v0] e IH]; intros d Hin Hk; [done|].
  simpl in *. apply not_elem_of_cons in Hk as [Hne Hk].
  apply IH; [|done]. by apply dict_set_other.
Qed.

Lemma dict_update_elem_of {V} (d e : list (pystr * V)) (k : pystr) (v : V) :
  NoDup e.*1 -> (k, v) ∈ e -> (k, v) ∈ dict_update d e.
Proof.
  revert d. induction e as [|[k0 v0] e IH]; intros d Hnd Hin;
    [by apply elem_of_nil in Hin|].
  simpl in Hnd. apply NoDup_cons in Hnd as [Hk0 Hnd].
  apply elem_of_cons in Hin as [Heq|Hin].
  - injection Heq as -> ->.
    apply (dict_update_preserve (dict_set d k0 v0) e); [apply dict_set_elem_of | done].
  - by apply (IH (dict_set d k0 v0)).
Qed.

Lemma encode_pairs_bytes (depth : nat) (kvs : list (pystr * pyobj)) :
  Forall (fun kv => json_leaf kv.2 || is_bytes kv.2 = true) kvs ->
  Exists (fun kv => is_bytes kv.2 = true) kvs ->
  encode_pairs (iterencode JSONEncoder_default depth) kvs = Raise TypeError.
Proof.
  induction 1 as [|[k v] kvs Hv _ IH]; intros Hex; [by apply Exists_nil in Hex|].
  simpl in *. destruct (is_bytes v) eqn:Eb.
  - destruct v; try discriminate. by destruct depth.
  - rewrite orb_false_r in Hv.
    pose proof (iterencode_leaf JSONEncoder_default depth v Hv) as Hok.
    destruct (iterencode _ _ v); [|done]. simpl.
    apply Exists_cons in Hex as [Hhd|Htl]; [simpl in Hhd; congruence|].
    by rewrite IH.
Qed.

Lemma written_metrics_values (metrics : list (pystr * metrics.MetricValue)) :
  Forall (fun kv => json_leaf kv.2 || is_bytes kv.2 = true) (written_metrics metrics).
Proof.
  induction metrics as [|[k v] rest IH]; [constructor|].
  unfold written_metrics in *. simpl.
  destruct v as [|[]|[]| | | |]; simpl; try done; by constructor.
Qed.

Lemma metrics_line_bytes (step : Z) (metrics : list (pystr * metrics.MetricValue))
    (name : pystr) (b : pybytes) :
  NoDup metrics.*1 -> (name, metrics.Text (metrics.Bytes b)) ∈ metrics ->
  metrics_line step metrics = Raise TypeError.
Proof.
  intros Hnd Hin. unfold metrics_line, json_dumps. rewrite iterencode_dict.
  assert (Hw : (name, PBytes b) ∈ written_metrics metrics).
  { apply list_elem_of_omap. by eexists (_, _). }
  assert (Hndw : NoDup (written_metrics metrics).*1).
  { eapply sublist_NoDup; [exact Hnd | apply written_metrics_names]. }
  rewrite (dict_update_fresh [] (written_metrics metrics)) by done. simpl.
  rewrite encode_pairs_bytes; [done| |].
  - apply (dict_update_Forall (fun v => json_leaf v || is_bytes v = true));
      [by repeat constructor | apply written_metrics_values].
  - apply Exists_exists. exists (name, PBytes b). split; [|done].
    by apply dict_update_elem_of.
Qed.

(** C3. With a [Text] of [bytes] among the metrics the call raises
    [TypeError]: [json.dumps] is called without the encoder of the logger,
    and [bytes] are not serializable. No line is appended, the metrics file
    is as it was. *)
Theorem metrics_text_of_bytes (self : JSONLogger) (task_name : pystr) (step : option Z)
    (metrics : list (pystr * metrics.MetricValue))
    (dataset : list (list (pystr * pyobj))) (inferences : list (pystr * list pyobj))
    (targets : list pyobj) (w : world) (name : pystr) (b : pybytes) :
  NoDup metrics.*1 ->
  (name, metrics.Text (metrics.Bytes b)) ∈ metrics ->
  let r := JSONLogger_call self task_name step metrics dataset inferences targets w in
  r.1 = Raise TypeError
  /\ w_fs r.2 !! metrics_fname_of self task_name = w_fs w !! metrics_fname_of self task_name.
Proof.
  intros Hnd Hin r.
  assert (Hne : metrics <> []) by (intros ->; by apply elem_of_nil in Hin).
  pose proof (call_metrics_file self task_name step metrics dataset inferences targets w)
    as [Hfile Hraise]. cbv zeta in Hfile, Hraise. fold r in Hfile, Hraise.
  pose proof (log_metrics_frame self task_name (step_or_dummy step) metrics
                (entry_world step w)) as [_ Hsame]. cbv zeta in Hsame.
  assert (Hm : (JSONLogger_log_metrics self task_name (step_or_dummy step) metrics
                  (entry_world step w)).1 = Raise TypeError).
  { rewrite (log_metrics_spec _ _ _ _ _ Hne).
    by rewrite (metrics_line_bytes _ _ _ _ Hnd Hin). }
  rewrite Hfile, Hsame by (by rewrite Hm).
  rewrite Hraise by (by rewrite Hm).
  split; [done|]. by destruct step.
Qed.

(** ** The mapping of the metrics line *)

Lemma filter_other_keys {V} (e : list (pystr * V)) (k : pystr) :
  k ∉ e.*1 -> filter (fun kv => kv.1 <> k) e = e.
Proof.
  induction e as [|[k' v'] e IH]; intros Hk; [done|].
  simpl in Hk. apply not_elem_of_cons in Hk as [Hne Hk].
  rewrite filter_cons_True by (simpl; congruence). by rewrite IH.
Qed.

(** Updating a dict leaves its first key first; the value under it is the
    last that the update gives it, if it gives it one. *)
Lemma dict_update_first {V} (k : pystr) (x : V) (d e : list (pystr * V)) :
  exists y,
    dict_update ((k, x) :: d) e
    = (k, y) :: dict_update d (filter (fun kv => kv.1 <> k) e)
    /\ (k ∉ e.*1 -> y = x)
    /\ (forall v, NoDup e.*1 -> (k, v) ∈ e -> y = v).
Proof.
  unfold dict_update. revert x d. induction e as [|[k' v'] e IH]; intros x d.
  - exists x. split; [done|]. split; [done|]. intros v _ Hin. by apply elem_of_nil in Hin.
  - simpl. case_bool_decide as Hk.
    + subst k'. destruct (IH v' d) as (y & Hy & Hfresh & Hin).
      exists y. rewrite filter_cons_False by (simpl; tauto).
      split; [done|]. split.
      * intros Hnot. exfalso. apply Hnot. simpl. apply list_elem_of_here.
      * intros v Hnd Hv. simpl in Hnd. apply NoDup_cons in Hnd as [Hk Hnd].
        apply elem_of_cons in Hv as [Heq|Hv].
        -- injection Heq as ->. by apply Hfresh.
        -- exfalso. apply Hk. apply list_elem_of_fmap. by exists (k, v).
    + destruct (IH x (dict_set d k' v')) as (y & Hy & Hfresh & Hin).
      exists y. rewrite filter_cons_True by (simpl; congruence). simpl.
      split; [done|]. split.
      * intros Hnot. simpl in Hnot. apply not_elem_of_cons in Hnot as [_ Hnot]. auto.
      * intros v Hnd Hv. simpl in Hnd. apply NoDup_cons in Hnd as [_ Hnd].
        apply elem_of_cons in Hv as [Heq|Hv]; [congruence | auto].
Qed.

(** C4, amended. Let the metrics, a mapping, hold no [Text] of [bytes].
    The line appended for them is the serialization of a mapping whose
    first key is [step], bound to the step argument unless a [Scalar] or a
    [Text] is itself named [step], whose value then takes its place; the
    [Scalar] and [Text] metrics of other names follow in the order of the
    mapping, bound to [value] and to [textdata]. A metric of another type
    is not in the line: it gives a warning, and the line is written all
    the same. *)
Theorem metrics_line_content (self : JSONLogger) (task_name : pystr) (step : option Z)
    (metrics : list (pystr * metrics.MetricValue))
    (dataset : list (list (pystr * pyobj))) (inferences : list (pystr * list pyobj))
    (targets : list pyobj) (w : world) :
  let fname := metrics_fname_of self task_name in
  let old := default [] (w_fs w !! fname) in
  let m := JSONLogger_log_metrics self task_name (step_or_dummy step) metrics
             (entry_world step w) in
  let r := JSONLogger_call self task_name step metrics dataset inferences targets w in
  let others := filter (fun kv => kv.1 <> lit "step") (written_metrics metrics) in
  metrics <> [] ->
  NoDup metrics.*1 ->
  Forall (fun item => text_is_str item.2 = true) metrics ->
  exists line first,
    m.1 = Ok tt
    /\ w_fs r.2 !! fname = Some (old ++ line ++ [10%N])
    /\ json_dumps JSONEncoder_default (PDict ((lit "step", first) :: others)) = Ok line
    /\ (lit "step" ∉ (written_metrics metrics).*1 ->
        first = PInt (step_or_dummy step) /\ others = written_metrics metrics)
    /\ (forall v, (lit "step", v) ∈ written_metrics metrics -> first = v)
    /\ w_log m.2 = w_log (entry_world step w) ++ skipped_metrics metrics
                   ++ [Info_appending_metrics fname].
Proof.
  intros fname old m r others Hne Hnd Hstr.
  pose proof (call_metrics_file self task_name step metrics dataset inferences targets w)
    as [Hfile _]. cbv zeta in Hfile. fold r m fname in Hfile.
  assert (Hndw : NoDup (written_metrics metrics).*1).
  { eapply sublist_NoDup; [exact Hnd | apply written_metrics_names]. }
  destruct (dict_update_first (lit "step") (PInt (step_or_dummy step)) []
              (written_metrics metrics)) as (first & Hdict & Hfresh & Hin).
  pose proof (metrics_line_ok (step_or_dummy step) metrics Hstr) as Hok.
  unfold metrics_line in Hok.
  rewrite (dict_update_fresh [] (written_metrics metrics)) in Hok by done.
  simpl in Hok. rewrite Hdict in Hok.
  rewrite (dict_update_fresh [] (filter _ _)) in Hok.
  2:{ simpl. eapply sublist_NoDup; [exact Hndw|]. apply fmap_sublist, sublist_filter. }
  simpl in Hok. fold others in Hok.
  destruct (json_dumps _ (PDict ((lit "step", first) :: others))) as [line|] eqn:Eline;
    [|done].
  assert (Hline : metrics_line (step_or_dummy step) metrics = Ok line).
  { unfold metrics_line. rewrite (dict_update_fresh [] (written_metrics metrics)) by done.
    simpl. rewrite Hdict. rewrite (dict_update_fresh [] (filter _ _)); [done|].
    simpl. eapply sublist_NoDup; [exact Hndw|]. apply fmap_sublist, sublist_filter. }
  exists line, first. rewrite Hfile. unfold m.
  rewrite (log_metrics_spec _ _ _ _ _ Hne), Hline. fold fname. simpl.
  split; [done|]. split.
  { unfold after_ops. simpl.
    pose proof (append_ops_fs (w_fs (entry_world step w)) fname
                  (default [] (w_fs (entry_world step w) !! fname)) (line ++ [10%N])) as Hfs.
    cbv zeta in Hfs. simpl in Hfs. rewrite Hfs, lookup_insert_eq.
    unfold old. by destruct step. }
  split; [done|]. split.
  { intros Hno. split; [by apply Hfresh | by apply filter_other_keys]. }
  split; [by intros v; apply Hin|].
  by rewrite app_assoc.
Qed.

(** The append of a line, step by step: the temporary file is opened, it
    receives the old contents and the line, and takes the place of the
    metrics file. Before the last step the metrics file is as it was,
    after it it has the line. *)
Lemma metrics_append_atomic (self : JSONLogger) (task_name : pystr) (step : Z)
    (metrics : list (pystr * metrics.MetricValue)) (w : world) :
  let fname := metrics_fname_of self task_name in
  let tmp := fname ++ lit ".tmp" in
  let old := default [] (w_fs w !! fname) in
  metrics <> [] ->
  Forall (fun item => text_is_str item.2 = true) metrics ->
  exists line rs,
    metrics_line step metrics = Ok line
    /\ let ops := [FOpenW tmp; FWrite tmp old; FWrite tmp (line ++ [10%N]);
                   FRename tmp fname] in
       JSONLogger_log_metrics self task_name step metrics w = (Ok tt, advance w rs ops)
       /\ (forall n, (n < length ops)%nat ->
           foldl fs_apply (w_fs w) (take n ops) !! fname = w_fs w !! fname)
       /\ foldl fs_apply (w_fs w) ops !! fname = Some (old ++ line ++ [10%N]).
Proof.
  intros fname tmp old Hne Hstr.
  pose proof (metrics_line_ok step metrics Hstr) as Hok.
  destruct (metrics_line step metrics) as [line|] eqn:Eline; [|done].
  exists line, (skipped_metrics metrics ++ [Info_appending_metrics fname]).
  split; [done|]. cbv zeta. split; [|split].
  - rewrite (log_metrics_spec _ _ _ _ _ Hne), Eline.
    by rewrite with_log_advance, after_ops_advance, advance_advance, app_nil_r.
  - intros n Hn. by apply append_ops_prefix.
  - pose proof (append_ops_fs (w_fs w) fname old (line ++ [10%N])) as Hfs.
    cbv zeta in Hfs. fold tmp in Hfs. rewrite Hfs. apply lookup_insert_eq.
Qed.

Lemma log_metrics_dir (self other : JSONLogger) (task_name : pystr) (step : Z)
    (metrics : list (pystr * metrics.MetricValue)) (w : world) :
  json_output_dir other = json_output_dir self ->
  JSONLogger_log_metrics other task_name step metrics w
  = JSONLogger_log_metrics self task_name step metrics w.
Proof. unfold JSONLogger_log_metrics. by intros ->. Qed.

(** C8. With [write_n_results] at 0 the call is its metrics phase and no
    more. The metrics file comes out as it does for any other value: the
    line is appended all the same. No file is made or changed but the
    metrics file and its temporary file; the inferences file in particular
    is neither, while with [None] or a positive value it is written as
    soon as there is an example to write. *)
Theorem write_n_results_zero (self : JSONLogger) (task_name : pystr) (step : option Z)
    (metrics : list (pystr * metrics.MetricValue))
    (dataset : list (list (pystr * pyobj))) (inferences : list (pystr * list pyobj))
    (targets : list pyobj) (w : world) :
  let fname := metrics_fname_of self task_name in
  let inferences_fname := inferences_fname_of self task_name (step_or_dummy step) in
  let old := default [] (w_fs w !! fname) in
  let m := JSONLogger_log_metrics self task_name (step_or_dummy step) metrics
             (entry_world step w) in
  let r := JSONLogger_call self task_name step metrics dataset inferences targets w in
  _write_n_results self = Some 0 ->
  r = m
  /\ (forall p, p <> fname -> p <> fname ++ lit ".tmp" -> w_fs r.2 !! p = w_fs w !! p)
  /\ w_fs r.2 !! inferences_fname = w_fs w !! inferences_fname
  /\ (forall other : JSONLogger,
        json_output_dir other = json_output_dir self ->
        w_fs (JSONLogger_call other task_name step metrics dataset inferences
                targets w).2 !! fname
        = w_fs r.2 !! fname)
  /\ (metrics <> [] -> Forall (fun item => text_is_str item.2 = true) metrics ->
      exists line,
        metrics_line (step_or_dummy step) metrics = Ok line
        /\ r.1 = Ok tt
        /\ w_fs r.2 !! fname = Some (old ++ line ++ [10%N]))
  /\ (forall other : JSONLogger,
        json_output_dir other = json_output_dir self ->
        (_write_n_results other = None
         \/ exists n, _write_n_results other = Some n /\ 0 < n) ->
        m.1 = Ok tt ->
        Forall (fun e => entry_ok other e = true)
          (entries_of other dataset inferences targets) ->
        entries_of other dataset inferences targets <> [] ->
        is_Some (w_fs (JSONLogger_call other task_name step metrics dataset inferences
                         targets w).2 !! inferences_fname)).
Proof.
  intros fname inferences_fname old m r Hzero.
  assert (Hrm : r = m).
  { unfold r, m. rewrite call_phases. unfold mbind, M_bind.
    destruct (JSONLogger_log_metrics _ _ _ _ _) as [[[]|e] w1]; [|done].
    by apply write_inferences_zero. }
  pose proof (log_metrics_frame self task_name (step_or_dummy step) metrics
                (entry_world step w)) as [Hframe _]. cbv zeta in Hframe.
  fold m fname in Hframe.
  assert (Hw : w_fs (entry_world step w) = w_fs w) by (by destruct step).
  rewrite Hw in Hframe.
  destruct (inferences_fname_ne_metrics self task_name (step_or_dummy step)) as [Hi Hi'].
  split; [done|]. rewrite Hrm. split; [done|]. split; [by apply Hframe|]. split; [|split].
  - intros other Hdir.
    pose proof (call_metrics_file other task_name step metrics dataset inferences
                  targets w) as [Hfile _]. cbv zeta in Hfile.
    rewrite (log_metrics_dir self other) in Hfile by done.
    unfold metrics_fname_of in Hfile. rewrite Hdir in Hfile. exact Hfile.
  - intros Hne Hstr.
    destruct (metrics_append_atomic self task_name (step_or_dummy step) metrics
                (entry_world step w) Hne Hstr) as (line & rs & Hline & Hrun & _ & Hfinal).
    exists line. split; [done|]. unfold m. rewrite Hrun. split; [done|].
    unfold advance. cbn [snd w_fs]. cbv zeta in Hfinal.
    unfold fname, old. rewrite Hfinal. by rewrite Hw.
  - intros other Hdir Hn Hm Hall Hsome.
    rewrite call_phases. unfold mbind, M_bind.
    rewrite (log_metrics_dir self other) by done. fold m.
    destruct m as [[[]|e] w1]; [|discriminate].
    destruct (write_inferences_ok other task_name (step_or_dummy step) dataset
                inferences targets w1 Hn Hall) as (lines & Hlines & ->).
    assert (Hname : inferences_fname_of other task_name (step_or_dummy step)
                    = inferences_fname).
    { unfold inferences_fname, inferences_fname_of. by rewrite Hdir. }
    rewrite Hname. destruct lines as [|line lines].
    { apply Forall2_nil_inv_r in Hlines. contradiction. }
    cbn [snd advance w_fs foldl].
    rewrite list_fmap_compose with (g := FWrite inferences_fname)
                                   (f := fun line => line ++ [10%N]).
    erewrite foldl_writes by apply lookup_insert_eq.
    rewrite lookup_insert_eq. eauto.
Qed.

(** * Further properties *)

(** ** What [json.dumps] writes is printable ASCII *)

Lemma printable_iff (c : N) : printable c = true <-> (32 <= c <= 126)%N.
Proof. unfold printable. rewrite andb_true_iff, !N.leb_le. tauto. Qed.

Lemma lit_printable (s : string) :
  forallb printable (lit s) = true -> Forall (fun c => printable c = true) (lit s).
Proof.
  generalize (lit s). intros l. induction l as [|c l IH]; simpl; intros H; [constructor|].
  apply andb_true_iff in H as [Hc Hl]. constructor; [exact Hc | by apply IH].
Qed.

Lemma uint_codes_printable (u : Decimal.uint) :
  Forall (fun c => printable c = true) (uint_codes u).
Proof. induction u; simpl; by constructor. Qed.

Lemma int_repr_printable (z : Z) : Forall (fun c => printable c = true) (int_repr z).
Proof.
  unfold int_repr, digits_of. apply Forall_app. split.
  - destruct (z <? 0); [|constructor]. apply lit_printable. by vm_compute.
  - apply uint_codes_printable.
Qed.

Lemma hex_digit_printable (n : N) : (n < 16)%N -> printable (hex_digit n) = true.
Proof.
  intros Hn. apply printable_iff. unfold hex_digit. destruct (n <? 10)%N eqn:E; [|lia].
  apply N.ltb_lt in E. lia.
Qed.

Lemma u_escape_printable (n : N) : Forall (fun c => printable c = true) (u_escape n).
Proof.
  unfold u_escape.
  repeat (constructor; [first [reflexivity | apply hex_digit_printable, N.mod_lt; lia]|]).
  constructor.
Qed.

Lemma escape_char_printable (c : N) : Forall (fun c => printable c = true) (escape_char c).
Proof.
  unfold escape_char.
  repeat (case_match; [by repeat constructor|]).
  case_match; [apply u_escape_printable|].
  apply Forall_app. split; apply u_escape_printable.
Qed.

Lemma encode_basestring_ascii_printable (s : pystr) :
  Forall (fun c => printable c = true) (encode_basestring_ascii s).
Proof.
  unfold encode_basestring_ascii.
  apply Forall_app. split; [by repeat constructor|].
  apply Forall_app. split; [|by repeat constructor].
  induction s as [|c s IH]; simpl; [constructor|].
  apply Forall_app. split; [apply escape_char_printable | exact IH].
Qed.

Lemma str_join_Forall (P : N -> Prop) (sep : pystr) (parts : list pystr) :
  Forall P sep -> Forall (Forall P) parts -> Forall P (str_join sep parts).
Proof.
  intros Hsep Hparts. induction Hparts as [|p parts Hp Hps IH]; simpl; [constructor|].
  destruct parts as [|q parts]; [exact Hp|].
  apply Forall_app. split; [exact Hp|].
  apply Forall_app. split; [exact Hsep | exact IH].
Qed.

Lemma bracketed_printable (l r : string) (parts : list pystr) :
  forallb printable (lit l) = true -> forallb printable (lit r) = true ->
  Forall (Forall (fun c => printable c = true)) parts ->
  Forall (fun c => printable c = true) (lit l ++ str_join (lit ", ") parts ++ lit r).
Proof.
  intros Hl Hr Hparts.
  apply Forall_app. split; [by apply lit_printable|].
  apply Forall_app. split; [|by apply lit_printable].
  apply str_join_Forall; [apply lit_printable; by vm_compute | exact Hparts].
Qed.

Lemma encode_items_Forall (P : pystr -> Prop) (enc : pyobj -> result pystr)
    (xs : list pyobj) :
  Forall (fun x => forall s, enc x = Ok s -> P s) xs ->
  forall parts, encode_items enc xs = Ok parts -> Forall P parts.
Proof.
  induction 1 as [|x xs Hx _ IH]; simpl; intros parts Hparts.
  - apply Ok_inj in Hparts as <-. constructor.
  - destruct (enc x) as [s|] eqn:Es; [|discriminate]. simpl in Hparts.
    destruct (encode_items enc xs) as [ss|]; [|discriminate].
    apply Ok_inj in Hparts as <-. constructor; [by apply Hx | by apply IH].
Qed.

Lemma encode_pairs_printable (enc : pyobj -> result pystr) (kvs : list (pystr * pyobj)) :
  Forall (fun kv => forall s, enc kv.2 = Ok s -> Forall (fun c => printable c = true) s)
    kvs ->
  forall parts, encode_pairs enc kvs = Ok parts ->
                Forall (Forall (fun c => printable c = true)) parts.
Proof.
  induction 1 as [|[k v] kvs Hx _ IH]; intros parts Hparts.
  - apply Ok_inj in Hparts as <-. constructor.
  - cbn [encode_pairs] in Hparts. cbn [snd] in Hx.
    destruct (enc v) as [s|] eqn:Es; [|discriminate].
    destruct (encode_pairs enc kvs) as [ss|]; [|discriminate].
    assert (parts = (encode_basestring_ascii k ++ lit ": " ++ s) :: ss) as ->
      by (symmetry; exact (Ok_inj _ _ Hparts)).
    constructor; [|by apply IH].
    apply Forall_app. split; [apply encode_basestring_ascii_printable|].
    apply Forall_app. split; [apply lit_printable; by vm_compute | by apply Hx].
Qed.

Section Printable.

Hypothesis float_repr_printable :
  forall f, Forall (fun c => printable c = true) (py_repr (PFloat f)).

Lemma floatstr_printable (f : pyfloat) : Forall (fun c => printable c = true) (floatstr f).
Proof.
  destruct f as [|[]|]; simpl; try apply float_repr_printable;
    apply lit_printable; by vm_compute.
Qed.

Lemma iterencode_printable_step (default : pyobj -> result pyobj) (depth : nat) :
  (forall o' s,
     match depth with O => Raise RecursionError | S d => iterencode default d o' end
     = Ok s -> Forall (fun c => printable c = true) s) ->
  forall o s, iterencode default depth o = Ok s -> Forall (fun c => printable c = true) s.
Proof.
  intros Hdeeper o. induction o as [|b|z|f|re im|str|b|xs IH|xs IH|kvs IH|sc|a|t|a|cls]
    using pyobj_nested_ind; intros s Hs.
  - destruct depth; apply Ok_inj in Hs; subst s; apply lit_printable; by vm_compute.
  - destruct depth, b; apply Ok_inj in Hs; subst s; apply lit_printable;
      by vm_compute.
  - destruct depth; apply Ok_inj in Hs; subst s; apply int_repr_printable.
  - destruct depth; apply Ok_inj in Hs; subst s; apply floatstr_printable.
  - destruct depth; simpl in Hs; destruct (default _) as [o'|]; try discriminate;
      by eapply Hdeeper.
  - rewrite iterencode_str in Hs. apply Ok_inj in Hs. subst s.
    apply encode_basestring_ascii_printable.
  - destruct depth; simpl in Hs; destruct (default _) as [o'|]; try discriminate;
      by eapply Hdeeper.
  - rewrite iterencode_list in Hs.
    destruct (encode_items _ xs) as [parts|] eqn:Ep; [|discriminate].
    apply Ok_inj in Hs. subst s. apply bracketed_printable; [done..|].
    by eapply encode_items_Forall.
  - rewrite iterencode_tuple in Hs.
    destruct (encode_items _ xs) as [parts|] eqn:Ep; [|discriminate].
    apply Ok_inj in Hs. subst s. apply bracketed_printable; [done..|].
    by eapply encode_items_Forall.
  - rewrite iterencode_dict in Hs.
    destruct (encode_pairs _ kvs) as [parts|] eqn:Ep; [|discriminate].
    apply Ok_inj in Hs. subst s. apply bracketed_printable; [done..|].
    by eapply encode_pairs_printable.
  - destruct sc as [| |k f|];
      [| |destruct k|];
      try (destruct depth; simpl in Hs; destruct (default _) as [o'|];
           try discriminate; by eapply Hdeeper).
    destruct depth; apply Ok_inj in Hs; subst s; apply floatstr_printable.
  - destruct depth; simpl in Hs; destruct (default _) as [o'|]; try discriminate;
      by eapply Hdeeper.
  - destruct depth; simpl in Hs; destruct (default _) as [o'|]; try discriminate;
      by eapply Hdeeper.
  - destruct depth; simpl in Hs; destruct (default _) as [o'|]; try discriminate;
      by eapply Hdeeper.
  - destruct depth; simpl in Hs; destruct (default _) as [o'|]; try discriminate;
      by eapply Hdeeper.
Qed.

Lemma iterencode_printable (default : pyobj -> result pyobj) (depth : nat) (o : pyobj)
    (s : pystr) :
  iterencode default depth o = Ok s -> Forall (fun c => printable c = true) s.
Proof.
  revert o s. induction depth as [|d IHd]; apply iterencode_printable_step.
  - discriminate.
  - exact IHd.
Qed.

End Printable.

(** X1. Whatever the object and whatever the encoder, a string that
    [json.dumps] returns is made of printable ASCII characters alone,
    provided that the [repr] of a float is: characters outside of ASCII and
    control characters are written as escapes. So the lines written at
    lines 232 and 279 hold no newline but the one that ends them. *)
Theorem json_dumps_printable (default : pyobj -> result pyobj) (o : pyobj) (s : pystr) :
  (forall f, Forall (fun c => printable c = true) (py_repr (PFloat f))) ->
  json_dumps default o = Ok s ->
  Forall (fun c => printable c = true) s /\ 10%N ∉ s.
Proof.
  intros Hrepr Hs.
  assert (Hp : Forall (fun c => printable c = true) s)
    by exact (iterencode_printable Hrepr _ _ _ _ Hs).
  split; [exact Hp|]. intros Hin.
  eapply Forall_forall in Hp; [|exact Hin]. discriminate.
Qed.

(** ** The files of a call of [JSONLogger] *)

(** After the metrics, a call only logs, and opens or extends the file of
    the inferences. *)
Lemma call_after_metrics (self : JSONLogger) (task_name : pystr) (step : option Z)
    (metrics : list (pystr * metrics.MetricValue))
    (dataset : list (list (pystr * pyobj))) (inferences : list (pystr * list pyobj))
    (targets : list pyobj) (w : world) :
  let m := JSONLogger_log_metrics self task_name (step_or_dummy step) metrics
             (entry_world step w) in
  let r := JSONLogger_call self task_name step metrics dataset inferences targets w in
  exists rs ops,
    r.2 = advance m.2 rs ops
    /\ Forall (fun op => op_on (inferences_fname_of self task_name (step_or_dummy step)) op
                        = true) ops.
Proof.
  intros m r. subst r m. rewrite call_phases. unfold mbind, M_bind.
  destruct (JSONLogger_log_metrics _ _ _ _ _) as [[[]|e] w1]; simpl.
  - destruct (write_inferences_only_on self task_name (step_or_dummy step) dataset
                inferences targets w1) as (rs & ops & Hw & Hops).
    by exists rs, ops.
  - exists [], []. by rewrite advance_nil.
Qed.

Lemma entry_world_fs (step : option Z) (w : world) :
  w_fs (entry_world step w) = w_fs w /\ w_ops (entry_world step w) = w_ops w.
Proof. by destruct step. Qed.

(** X2. Apart from the metrics file of the task, its temporary file and
    the inferences file of the task and step, a call leaves every file as
    it was: whatever it is called with, and whether it returns or raises. *)
Theorem json_call_frame (self : JSONLogger) (task_name : pystr) (step : option Z)
    (metrics : list (pystr * metrics.MetricValue))
    (dataset : list (list (pystr * pyobj))) (inferences : list (pystr * list pyobj))
    (targets : list pyobj) (w : world) (p : pystr) :
  let r := JSONLogger_call self task_name step metrics dataset inferences targets w in
  p <> metrics_fname_of self task_name ->
  p <> metrics_fname_of self task_name ++ lit ".tmp" ->
  p <> inferences_fname_of self task_name (step_or_dummy step) ->
  w_fs r.2 !! p = w_fs w !! p.
Proof.
  intros r Hm Ht Hi.
  destruct (call_after_metrics self task_name step metrics dataset inferences targets w)
    as (rs & ops & Hr & Hops). cbv zeta in Hr. fold r in Hr. rewrite Hr.
  unfold advance. cbn [w_fs].
  rewrite (op_on_frame _ _ _ _ Hops Hi).
  pose proof (log_metrics_frame self task_name (step_or_dummy step) metrics
                (entry_world step w)) as [Hframe _]. cbv zeta in Hframe.
  rewrite Hframe by done. by rewrite (proj1 (entry_world_fs step w)).
Qed.

(** X3. Called with an empty mapping of metrics, the logger leaves the
    metrics file and its temporary file alone: no line is appended, and no
    empty metrics file is made. With [write_n_results] at 0 as well, the
    call does nothing at all but warn of a missing step. *)
Theorem metrics_empty_untouched (self : JSONLogger) (task_name : pystr) (step : option Z)
    (dataset : list (list (pystr * pyobj))) (inferences : list (pystr * list pyobj))
    (targets : list pyobj) (w : world) :
  let fname := metrics_fname_of self task_name in
  let r := JSONLogger_call self task_name step [] dataset inferences targets w in
  w_fs r.2 !! fname = w_fs w !! fname
  /\ w_fs r.2 !! (fname ++ lit ".tmp") = w_fs w !! (fname ++ lit ".tmp")
  /\ (_write_n_results self = Some 0 -> r = (Ok tt, entry_world step w)).
Proof.
  intros fname r.
  destruct (call_after_metrics self task_name step [] dataset inferences targets w)
    as (rs & ops & Hr & Hops). cbv zeta in Hr. fold r in Hr.
  rewrite log_metrics_empty in Hr. cbn [snd] in Hr.
  destruct (inferences_fname_ne_metrics self task_name (step_or_dummy step)) as [Hi Hi'].
  rewrite Hr. unfold advance. cbn [w_fs].
  rewrite !(op_on_frame _ _ _ _ Hops) by done.
  rewrite (proj1 (entry_world_fs step w)).
  split; [done|]. split; [done|].
  intros Hzero. unfold r. rewrite call_phases. unfold mbind, M_bind.
  rewrite log_metrics_empty. by apply write_inferences_zero.
Qed.

Lemma iterencode_int (default : pyobj -> result pyobj) (depth : nat) (z : Z) :
  iterencode default depth (PInt z) = Ok (int_repr z).
Proof. by destruct depth. Qed.

Lemma iterencode_None (default : pyobj -> result pyobj) (depth : nat) :
  iterencode default depth PNone = Ok (lit "null").
Proof. by destruct depth. Qed.

Lemma written_metrics_none (metrics : list (pystr * metrics.MetricValue)) :
  Forall (fun item => metric_payload item.2 = None) metrics ->
  written_metrics metrics = []
  /\ skipped_metrics metrics
     = (fun item => Warning_skipping_metric item.1 (metrics.class_of item.2)) <$> metrics.
Proof.
  unfold written_metrics, skipped_metrics.
  induction 1 as [|[k v] rest Hv _ [IH1 IH2]]; [done|].
  cbn [omap list_omap fst snd] in *. rewrite Hv. cbn [fmap option_fmap option_map].
  rewrite IH1, IH2. by rewrite fmap_cons.
Qed.

(** A call with metrics that can be written appends their line. *)
Lemma call_appends_line (self : JSONLogger) (task_name : pystr) (step : option Z)
    (metrics : list (pystr * metrics.MetricValue))
    (dataset : list (list (pystr * pyobj))) (inferences : list (pystr * list pyobj))
    (targets : list pyobj) (w : world) :
  let fname := metrics_fname_of self task_name in
  let tmp := fname ++ lit ".tmp" in
  let old := default [] (w_fs w !! fname) in
  let r := JSONLogger_call self task_name step metrics dataset inferences targets w in
  metrics <> [] ->
  Forall (fun item => text_is_str item.2 = true) metrics ->
  exists line ops,
    metrics_line (step_or_dummy step) metrics = Ok line
    /\ w_ops r.2
       = w_ops w ++ [FOpenW tmp; FWrite tmp old; FWrite tmp (line ++ [10%N]);
                     FRename tmp fname] ++ ops
    /\ Forall (fun op => op_on (inferences_fname_of self task_name (step_or_dummy step)) op
                         = true) ops
    /\ w_fs r.2 !! fname = Some (old ++ line ++ [10%N])
    /\ w_fs r.2 !! tmp = None
    /\ w_log r.2 !! length (w_log (entry_world step w) ++ skipped_metrics metrics)
       = Some (Info_appending_metrics fname).
Proof.
  intros fname tmp old r Hne Hstr.
  destruct (call_after_metrics self task_name step metrics dataset inferences targets w)
    as (rs & ops & Hr & Hops). cbv zeta in Hr. fold r in Hr.
  destruct (metrics_append_atomic self task_name (step_or_dummy step) metrics
              (entry_world step w) Hne Hstr) as (line & rs' & Hline & Hm & _ & _).
  assert (Hrs' : JSONLogger_log_metrics self task_name (step_or_dummy step) metrics
                   (entry_world step w)
                 = (Ok tt,
                    after_ops (with_log (entry_world step w)
                                 (skipped_metrics metrics ++ [Info_appending_metrics fname]))
                      [FOpenW tmp; FWrite tmp (default [] (w_fs (entry_world step w) !! fname));
                       FWrite tmp (line ++ [10%N]); FRename tmp fname])).
  { rewrite (log_metrics_spec _ _ _ _ _ Hne). by rewrite Hline. }
  rewrite Hrs' in Hr. cbn [snd] in Hr.
  destruct (entry_world_fs step w) as [Hfs Hops0].
  rewrite Hfs in Hr. fold old in Hr.
  destruct (inferences_fname_ne_metrics self task_name (step_or_dummy step)) as [Hi Hi'].
  exists line, ops. split; [done|]. rewrite Hr. unfold advance, after_ops, with_log.
  cbn [w_ops w_fs w_log]. rewrite Hfs, Hops0.
  split; [by rewrite <- app_assoc|]. split; [done|].
  rewrite !(op_on_frame _ _ _ _ Hops) by done.
  pose proof (append_ops_fs (w_fs w) fname old (line ++ [10%N])) as Happ.
  cbv zeta in Happ. fold tmp in Happ. rewrite Happ.
  split; [apply lookup_insert_eq|]. split.
  - rewrite lookup_insert_ne by (intros E; by apply (tmp_ne fname)).
    apply lookup_delete_eq.
  - rewrite <- !app_assoc. rewrite app_assoc.
    by rewrite lookup_app_r, Nat.sub_diag by lia.
Qed.

(** X4. When the metrics hold no [Text] of [bytes], their line is
    appended by four operations and no other on these files: the temporary
    file is opened, it receives the old contents, then the line, and it is
    renamed to the metrics file. Until the renaming the metrics file is as
    it was; after the call it ends with the line and the temporary file is
    gone. What the call does next is done to the inferences file. *)
Theorem metrics_append_by_rename (self : JSONLogger) (task_name : pystr) (step : option Z)
    (metrics : list (pystr * metrics.MetricValue))
    (dataset : list (list (pystr * pyobj))) (inferences : list (pystr * list pyobj))
    (targets : list pyobj) (w : world) :
  let fname := metrics_fname_of self task_name in
  let tmp := fname ++ lit ".tmp" in
  let old := default [] (w_fs w !! fname) in
  let r := JSONLogger_call self task_name step metrics dataset inferences targets w in
  metrics <> [] ->
  Forall (fun item => text_is_str item.2 = true) metrics ->
  exists line rest,
    metrics_line (step_or_dummy step) metrics = Ok line
    /\ let ops := [FOpenW tmp; FWrite tmp old; FWrite tmp (line ++ [10%N]);
                   FRename tmp fname] in
       w_ops r.2 = w_ops w ++ ops ++ rest
       /\ Forall (fun op => op_on (inferences_fname_of self task_name (step_or_dummy step))
                              op = true) rest
       /\ (forall n, (n < length ops)%nat ->
           foldl fs_apply (w_fs w) (take n ops) !! fname = w_fs w !! fname)
       /\ w_fs r.2 !! fname = Some (old ++ line ++ [10%N])
       /\ w_fs r.2 !! tmp = None.
Proof.
  intros fname tmp old r Hne Hstr.
  destruct (call_appends_line self task_name step metrics dataset inferences targets w
              Hne Hstr) as (line & rest & Hline & Hops & Hrest & Hfile & Htmp & _).
  exists line, rest. split; [done|]. cbv zeta.
  split; [done|]. split; [done|]. split; [|by split].
  intros n Hn. by apply append_ops_prefix.
Qed.

(** X5. A mapping of metrics that is not empty but holds neither a
    [Scalar] nor a [Text] still has a line appended, which gives the step
    alone; each metric is warned of, in order, before the append is
    announced. *)
Theorem metrics_all_skipped (self : JSONLogger) (task_name : pystr) (step : option Z)
    (metrics : list (pystr * metrics.MetricValue))
    (dataset : list (list (pystr * pyobj))) (inferences : list (pystr * list pyobj))
    (targets : list pyobj) (w : world) :
  let fname := metrics_fname_of self task_name in
  let old := default [] (w_fs w !! fname) in
  let m := JSONLogger_log_metrics self task_name (step_or_dummy step) metrics
             (entry_world step w) in
  let r := JSONLogger_call self task_name step metrics dataset inferences targets w in
  metrics <> [] ->
  Forall (fun item => metric_payload item.2 = None) metrics ->
  w_fs r.2 !! fname
  = Some (old ++ json_object [(lit "step", int_repr (step_or_dummy step))] ++ [10%N])
  /\ m.1 = Ok tt
  /\ w_log m.2
     = w_log (entry_world step w)
       ++ ((fun item => Warning_skipping_metric item.1 (metrics.class_of item.2))
             <$> metrics)
       ++ [Info_appending_metrics fname].
Proof.
  intros fname old m r Hne Hnone.
  destruct (written_metrics_none metrics Hnone) as [Hwritten Hskipped].
  assert (Hstr : Forall (fun item => text_is_str item.2 = true) metrics).
  { eapply Forall_impl; [exact Hnone|]. intros [k v] Hv. simpl in *.
    by destruct v as [|?|[]| | | |]. }
  assert (Hline : metrics_line (step_or_dummy step) metrics
                  = Ok (json_object [(lit "step", int_repr (step_or_dummy step))])).
  { unfold metrics_line, json_dumps. rewrite Hwritten. cbn [dict_update foldl].
    rewrite iterencode_dict. cbn [encode_pairs]. by rewrite iterencode_int. }
  destruct (call_appends_line self task_name step metrics dataset inferences targets w
              Hne Hstr) as (line & rest & Hline' & _ & _ & Hfile & _).
  rewrite Hline in Hline'. apply Ok_inj in Hline' as <-.
  split; [exact Hfile|].
  unfold m. rewrite (log_metrics_spec _ _ _ _ _ Hne), Hline. cbn [fst snd].
  split; [done|]. unfold after_ops, with_log. cbn [w_log]. by rewrite Hskipped.
Qed.

(** X6. The lines of successive calls add up in the metrics file, in the
    order of the calls: after two calls for a task the file is what it was,
    then the line of the first, then the line of the second. *)
Theorem metrics_two_calls (self : JSONLogger) (task_name : pystr) (step1 step2 : option Z)
    (metrics1 metrics2 : list (pystr * metrics.MetricValue))
    (dataset1 dataset2 : list (list (pystr * pyobj)))
    (inferences1 inferences2 : list (pystr * list pyobj))
    (targets1 targets2 : list pyobj) (w : world) :
  let fname := metrics_fname_of self task_name in
  let old := default [] (w_fs w !! fname) in
  let r1 := JSONLogger_call self task_name step1 metrics1 dataset1 inferences1 targets1 w in
  let r2 := JSONLogger_call self task_name step2 metrics2 dataset2 inferences2 targets2
              r1.2 in
  metrics1 <> [] -> metrics2 <> [] ->
  Forall (fun item => text_is_str item.2 = true) metrics1 ->
  Forall (fun item => text_is_str item.2 = true) metrics2 ->
  exists line1 line2,
    metrics_line (step_or_dummy step1) metrics1 = Ok line1
    /\ metrics_line (step_or_dummy step2) metrics2 = Ok line2
    /\ w_fs r1.2 !! fname = Some (old ++ line1 ++ [10%N])
    /\ w_fs r2.2 !! fname = Some (old ++ line1 ++ [10%N] ++ line2 ++ [10%N]).
Proof.
  intros fname old r1 r2 Hne1 Hne2 Hstr1 Hstr2.
  destruct (call_appends_line self task_name step1 metrics1 dataset1 inferences1 targets1
              w Hne1 Hstr1) as (line1 & ? & Hline1 & _ & _ & Hfile1 & _).
  destruct (call_appends_line self task_name step2 metrics2 dataset2 inferences2 targets2
              r1.2 Hne2 Hstr2) as (line2 & ? & Hline2 & _ & _ & Hfile2 & _).
  exists line1, line2. split; [done|]. split; [done|]. split; [exact Hfile1|].
  fold r1 in Hfile2. fold r2 fname in Hfile2. rewrite Hfile2.
  fold r1 fname in Hfile1. rewrite Hfile1. cbn [from_option id]. fold old.
  by rewrite <- !app_assoc.
Qed.

(** ** The names of the files *)

Lemma path_join_suffix (a x : pystr) : exists p, path_join a x = p ++ x.
Proof.
  unfold path_join. destruct (startswith x (lit "/")); [by exists []|].
  destruct (_ || _); [by exists a|].
  exists (a ++ lit "/"). by rewrite <- app_assoc.
Qed.

Lemma uint_codes_digits (u : Decimal.uint) :
  Forall (fun c => (48 <= c <= 57)%N) (uint_codes u).
Proof. induction u; simpl; constructor; try lia; assumption. Qed.

Lemma format_06_last (z : Z) :
  exists body d, format_06 z = body ++ [d] /\ (48 <= d <= 57)%N.
Proof.
  unfold format_06, digits_of.
  destruct (digits_of_head (Z.abs_N z)) as (c & r & Hd & _). unfold digits_of in Hd.
  pose proof (uint_codes_digits (N.to_uint (Z.abs_N z))) as Hall.
  destruct (uint_codes (N.to_uint (Z.abs_N z))) as [|c' r'] using rev_ind; [done|].
  apply Forall_app in Hall as [_ Hlast]. rewrite Forall_singleton in Hlast.
  eexists _, c'. split; [|exact Hlast]. by rewrite !app_assoc.
Qed.

(** The last characters of the names: a digit before [.jsonl] for the
    inferences, an [s] for the metrics. *)
Lemma inferences_fname_end (self : JSONLogger) (task_name : pystr) (step : Z) :
  exists body d,
    inferences_fname_of self task_name step = body ++ d :: lit ".jsonl"
    /\ (48 <= d <= 57)%N.
Proof.
  unfold inferences_fname_of.
  destruct (path_join_suffix (json_output_dir self)
              (task_name ++ lit "-" ++ format_06 step ++ lit ".jsonl")) as [p ->].
  destruct (format_06_last step) as (body & d & -> & Hd).
  exists (p ++ task_name ++ lit "-" ++ body), d. split; [|exact Hd].
  rewrite <- !app_assoc. reflexivity.
Qed.

Lemma metrics_fname_end (self : JSONLogger) (task_name : pystr) :
  exists body, metrics_fname_of self task_name = body ++ 115%N :: lit ".jsonl".
Proof.
  unfold metrics_fname_of.
  destruct (path_join_suffix (json_output_dir self) (task_name ++ lit "-metrics.jsonl"))
    as [p ->].
  exists (p ++ task_name ++ lit "-metric"). rewrite <- !app_assoc. reflexivity.
Qed.

Lemma app_last_ne (a b : pystr) (x y : pystr) :
  length x = length y -> x <> y -> a ++ x <> b ++ y.
Proof. intros Hlen Hne E. apply app_inj_2 in E as [_ E]; done. Qed.

(** X7. The three kinds of files never share a name: whatever the output
    directories, the tasks and the step, an inferences file is neither a
    metrics file nor the temporary file of one, and a metrics file is not
    the temporary file of another. Writing inferences cannot replace a
    metrics file. *)
Theorem file_names_apart (self other : JSONLogger) (task_name other_task : pystr)
    (step : Z) :
  inferences_fname_of self task_name step <> metrics_fname_of other other_task
  /\ inferences_fname_of self task_name step
     <> metrics_fname_of other other_task ++ lit ".tmp"
  /\ metrics_fname_of self task_name <> metrics_fname_of other other_task ++ lit ".tmp".
Proof.
  destruct (inferences_fname_end self task_name step) as (bi & d & -> & Hd).
  destruct (metrics_fname_end other other_task) as (bm & ->).
  destruct (metrics_fname_end self task_name) as (bs & ->).
  split; [|split].
  - apply app_last_ne; [done|]. intros E. injection E as E. lia.
  - replace (bi ++ d :: lit ".jsonl") with ((bi ++ d :: lit ".json") ++ lit "l")
      by (rewrite <- app_assoc; reflexivity).
    replace ((bm ++ 115%N :: lit ".jsonl") ++ lit ".tmp")
      with ((bm ++ 115%N :: lit ".jsonl" ++ lit ".tm") ++ lit "p")
      by (rewrite <- !app_assoc; reflexivity).
    by apply app_last_ne.
  - replace (bs ++ 115%N :: lit ".jsonl") with ((bs ++ 115%N :: lit ".json") ++ lit "l")
      by (rewrite <- app_assoc; reflexivity).
    replace ((bm ++ 115%N :: lit ".jsonl") ++ lit ".tmp")
      with ((bm ++ 115%N :: lit ".jsonl" ++ lit ".tm") ++ lit "p")
      by (rewrite <- !app_assoc; reflexivity).
    by apply app_last_ne.
Qed.

Lemma uint_of_codes_codes (u : Decimal.uint) : uint_of_codes (uint_codes u) = u.
Proof. induction u; simpl; by f_equal. Qed.

Lemma uint_of_codes_zeros (k : nat) (s : pystr) :
  N.of_uint (uint_of_codes (replicate k 48%N ++ s)) = N.of_uint (uint_of_codes s).
Proof. induction k as [|k IH]; [done|]. exact IH. Qed.

Lemma format_06_abs (z : Z) :
  N.of_uint (uint_of_codes (drop (if z <? 0 then 1%nat else 0%nat) (format_06 z)))
  = Z.abs_N z.
Proof.
  unfold format_06, digits_of. destruct (z <? 0); cbn [drop lit length app];
    change (lit "-") with [45%N]; cbn [app drop];
    rewrite ?drop_0, uint_of_codes_zeros, uint_of_codes_codes;
    apply DecimalN.Unsigned.of_to.
Qed.

Lemma format_06_sign (z : Z) : startswith (format_06 z) (lit "-") = (z <? 0).
Proof.
  unfold format_06. destruct (z <? 0); [reflexivity|]. cbn [app length].
  destruct (digits_of_head (Z.abs_N z)) as (c & r & -> & Hc).
  destruct (6 - 0 - length (c :: r))%nat; cbn [replicate app]; [|reflexivity].
  change (lit "-") with [45%N]. cbn [startswith].
  destruct (45 =? c)%N eqn:E; [|done]. apply N.eqb_eq in E. lia.
Qed.

Lemma format_06_inj (a b : Z) : format_06 a = format_06 b -> a = b.
Proof.
  intros E. pose proof (format_06_sign a) as Ha. pose proof (format_06_sign b) as Hb.
  pose proof (format_06_abs a) as Aa. pose proof (format_06_abs b) as Ab.
  rewrite E in Ha, Aa. rewrite Ha in Hb. rewrite Hb in Aa. rewrite Ab in Aa.
  destruct (a <? 0) eqn:Sa; symmetry in Hb.
  - apply Z.ltb_lt in Sa, Hb. lia.
  - apply Z.ltb_ge in Sa, Hb. lia.
Qed.

(** X8. The inferences of different steps of a task go to different
    files: the name tells the step. The step is written in full, padded
    with zeros to six characters, the sign among them. *)
Theorem inferences_fname_step (self : JSONLogger) (task_name : pystr) (step step' : Z) :
  step <> step' ->
  inferences_fname_of self task_name step <> inferences_fname_of self task_name step'
  /\ length (format_06 step) = Nat.max 6 (length (int_repr step)).
Proof.
  intros Hne. split.
  - unfold inferences_fname_of.
    destruct (path_join_task (json_output_dir self) task_name) as [p Hp].
    rewrite !Hp. intros E. apply Hne, format_06_inj.
    by repeat (apply app_inv_head in E); apply app_inv_tail in E.
  - unfold format_06, int_repr. rewrite !length_app, length_replicate. lia.
Qed.

(** ** The loop over the examples *)

Lemma for_each_with_app {S A H} (xs ys : list A) (h : H) (body : H -> A -> M S H) (s : S) :
  for_each_with (xs ++ ys) h body s
  = (h' ← for_each_with xs h body; for_each_with ys h' body) s.
Proof.
  revert h s. induction xs as [|x xs IH]; intros h s; [reflexivity|].
  simpl. unfold mbind, M_bind. destruct (body h x s) as [[h'|e] s']; [apply IH | done].
Qed.

Lemma zip_longest_lookup {A B C D} (xs : list A) (ys : list B) (zs : list C)
    (ws : list D) (i : nat) :
  (i < length (zip_longest xs ys zs ws))%nat ->
  zip_longest xs ys zs ws !! i = Some (xs !! i, ys !! i, zs !! i, ws !! i).
Proof.
  rewrite zip_longest_length. intros Hi. unfold zip_longest.
  rewrite list_lookup_fmap, lookup_seq_lt by done. reflexivity.
Qed.

(** The entries gone through are the first of [zip_longest]. *)
Lemma entries_of_lookup (self : JSONLogger) (dataset : list (list (pystr * pyobj)))
    (inferences : list (pystr * list pyobj)) (targets : list pyobj) (i : nat) :
  (i < length (entries_of self dataset inferences targets))%nat ->
  entries_of self dataset inferences targets !! i
  = Some (dataset !! i,
          default [] (dict_get inferences (lit "predictions")) !! i,
          targets !! i,
          default [] (dict_get inferences (lit "scores")) !! i).
Proof.
  unfold entries_of. destruct (_write_n_results self) as [n|]; intros Hi.
  - rewrite length_take in Hi. rewrite lookup_take_lt by lia.
    apply zip_longest_lookup.
    eapply Nat.lt_le_trans; [exact Hi | apply Nat.le_min_r].
  - by apply zip_longest_lookup.
Qed.

(** The loop of lines 250 to 279 when [write_n_results] is not 0. *)
Lemma write_inferences_loop (self : JSONLogger) (task_name : pystr) (step : Z)
    (dataset : list (list (pystr * pyobj))) (inferences : list (pystr * list pyobj))
    (targets : list pyobj) (w : world) :
  let fname := inferences_fname_of self task_name step in
  let entries := entries_of self dataset inferences targets in
  (_write_n_results self = None \/ exists n, _write_n_results self = Some n /\ 0 < n) ->
  JSONLogger_write_inferences self task_name step dataset inferences targets w
  = (_ ← for_each_with entries (GFile_w fname) (JSONLogger_write_example self);
     logging Info_writing_completed) (with_log w [Info_writing_inferences fname]).
Proof.
  intros fname entries Hn.
  unfold JSONLogger_write_inferences.
  fold (inferences_fname_of self task_name step). fold fname.
  rewrite bool_decide_eq_false_2.
  2:{ destruct Hn as [->|(n & -> & Hpos)]; [done|]. intros [= ->]. lia. }
  erewrite bind_Ok by apply logging_spec.
  set (w1 := with_log w _).
  erewrite (bind_Ok _ _ w1 w1 entries); [done|].
  unfold entries, entries_of.
  destruct Hn as [->|(n & -> & Hpos)]; [done|].
  by rewrite (proj2 (Z.ltb_ge n 0)) by lia.
Qed.

(** The files after lines were written to a file opened for them. *)
Lemma written_lines_fs (fs : gmap pystr pystr) (fname : pystr) (lines : list pystr) :
  foldl fs_apply fs
    (match lines with
     | [] => []
     | _ => opening (GFile_w fname)
            ++ ((fun line => FWrite fname (line ++ [10%N])) <$> lines)
     end)
  = match lines with
    | [] => fs
    | _ => <[fname := mjoin ((fun line => line ++ [10%N]) <$> lines)]> fs
    end.
Proof.
  destruct lines as [|line lines]; [done|].
  rewrite list_fmap_compose with (g := FWrite fname) (f := fun line => line ++ [10%N]).
  cbn [opening GFile_w gf_writable gf_name app foldl].
  erewrite foldl_writes by apply lookup_insert_eq.
  cbn [fs_apply]. by rewrite insert_insert_eq.
Qed.

(** X9. When the predictions, the targets or the scores are more than
    the examples of the dataset, the call raises [TypeError] at the first
    entry without an example: [zip_longest] gives [None] for its input.
    The lines of the examples of the dataset are in the file by then, and
    stay there. *)
Theorem inferences_beyond_dataset (self : JSONLogger) (task_name : pystr)
    (step : option Z) (metrics : list (pystr * metrics.MetricValue))
    (dataset : list (list (pystr * pyobj))) (inferences : list (pystr * list pyobj))
    (targets : list pyobj) (w : world) :
  let fname := inferences_fname_of self task_name (step_or_dummy step) in
  let m := JSONLogger_log_metrics self task_name (step_or_dummy step) metrics
             (entry_world step w) in
  let entries := entries_of self dataset inferences targets in
  let r := JSONLogger_call self task_name step metrics dataset inferences targets w in
  (_write_n_results self = None \/ exists n, _write_n_results self = Some n /\ 0 < n) ->
  m.1 = Ok tt ->
  (length dataset < length entries)%nat ->
  Forall (fun e => entry_ok self e = true) (take (length dataset) entries) ->
  exists lines,
    r.1 = Raise TypeError
    /\ Forall2 (fun e line => example_line self e = Ok line)
         (take (length dataset) entries) lines
    /\ length lines = length dataset
    /\ w_fs r.2
       = match lines with
         | [] => w_fs m.2
         | _ => <[fname := mjoin ((fun line => line ++ [10%N]) <$> lines)]> (w_fs m.2)
         end.
Proof.
  intros fname m entries r Hn Hm Hlen Hall.
  assert (Hr : r = (_ ← for_each_with entries (GFile_w fname)
                          (JSONLogger_write_example self);
                    logging Info_writing_completed)
                     (with_log m.2 [Info_writing_inferences fname])).
  { subst r m. rewrite call_phases. unfold mbind at 1, M_bind at 1.
    destruct (JSONLogger_log_metrics _ _ _ _ _) as [[[]|e] w1] eqn:Em; [|discriminate].
    cbn [snd]. by apply write_inferences_loop. }
  rewrite Hr. clear Hr. generalize dependent m. intros m Hm.
  set (w2 := with_log m.2 _).
  pose proof (entries_of_lookup self dataset inferences targets (length dataset) Hlen)
    as Hk. fold entries in Hk. rewrite (lookup_ge_None_2 dataset) in Hk by lia.
  assert (Hsplit : exists rest,
            entries
            = take (length dataset) entries
              ++ (None, default [] (dict_get inferences (lit "predictions"))
                          !! length dataset,
                  targets !! length dataset,
                  default [] (dict_get inferences (lit "scores")) !! length dataset)
                 :: rest).
  { exists (drop (S (length dataset)) entries).
    rewrite <- (take_drop (length dataset) entries) at 1. f_equal.
    by apply drop_S. }
  destruct Hsplit as [rest Hsplit].
  destruct (write_examples_ok self (GFile_w fname) (take (length dataset) entries) w2 Hall)
    as (lines & Hlines & Hres & Hrun).
  exists lines.
  assert (Hpre : length (take (length dataset) entries) = length dataset)
    by (rewrite length_take; lia).
  set (pre := take (length dataset) entries) in *. clearbody pre.
  assert (Hloop : for_each_with entries (GFile_w fname) (JSONLogger_write_example self) w2
                  = (Raise TypeError,
                     advance w2 (mjoin (entry_warnings self <$> pre))
                       match lines with
                       | [] => []
                       | _ => opening (GFile_w fname)
                              ++ ((fun line => FWrite (gf_name (GFile_w fname))
                                                 (line ++ [10%N])) <$> lines)
                       end)).
  { rewrite Hsplit, for_each_with_app. unfold mbind, M_bind.
    destruct (for_each_with pre _ _ w2) as [res w3].
    cbn [fst snd] in Hres, Hrun. by subst res w3. }
  erewrite bind_Raise by exact Hloop.
  cbn [fst snd]. split; [done|]. split; [done|]. split.
  { apply Forall2_length in Hlines. by rewrite <- Hlines. }
  unfold advance, w2, with_log. cbn [w_fs]. apply written_lines_fs.
Qed.

(** X10. A negative [write_n_results] makes the call raise
    [ValueError], from [itertools.islice], once the metrics are written
    and the inferences announced: no file of inferences is made. *)
Theorem write_n_results_negative (self : JSONLogger) (task_name : pystr)
    (step : option Z) (metrics : list (pystr * metrics.MetricValue))
    (dataset : list (list (pystr * pyobj))) (inferences : list (pystr * list pyobj))
    (targets : list pyobj) (w : world) (n : Z) :
  let fname := inferences_fname_of self task_name (step_or_dummy step) in
  let m := JSONLogger_log_metrics self task_name (step_or_dummy step) metrics
             (entry_world step w) in
  let r := JSONLogger_call self task_name step metrics dataset inferences targets w in
  _write_n_results self = Some n -> n < 0 ->
  m.1 = Ok tt ->
  r = (Raise ValueError, with_log m.2 [Info_writing_inferences fname]).
Proof.
  intros fname m r Hn Hneg Hm. subst r m.
  rewrite call_phases. unfold mbind at 1, M_bind at 1.
  destruct (JSONLogger_log_metrics _ _ _ _ _) as [[[]|e] w1] eqn:Em; [|discriminate].
  unfold JSONLogger_write_inferences.
  fold (inferences_fname_of self task_name (step_or_dummy step)). fold fname.
  rewrite bool_decide_eq_false_2 by (rewrite Hn; intros [= ->]; lia).
  erewrite bind_Ok by apply logging_spec.
  rewrite Hn, (proj2 (Z.ltb_lt n 0)) by done. reflexivity.
Qed.

(** X11. A [write_n_results] that is positive and not less than the
    number of entries is as good as [None]: the two calls end alike. *)
Theorem write_n_results_all (self : JSONLogger) (task_name : pystr)
    (step : option Z) (metrics : list (pystr * metrics.MetricValue))
    (dataset : list (list (pystr * pyobj))) (inferences : list (pystr * list pyobj))
    (targets : list pyobj) (w : world) (n : Z) :
  let all := zip_longest dataset (default [] (dict_get inferences (lit "predictions")))
               targets (default [] (dict_get inferences (lit "scores"))) in
  let unbounded := mk_JSONLogger (json_output_dir self) None (_json_encoder_cls self) in
  _write_n_results self = Some n -> 0 < n -> Z.of_nat (length all) <= n ->
  JSONLogger_call self task_name step metrics dataset inferences targets w
  = JSONLogger_call unbounded task_name step metrics dataset inferences targets w.
Proof.
  intros all unbounded Hn Hpos Hlen.
  rewrite !call_phases. unfold mbind, M_bind.
  rewrite (log_metrics_dir self unbounded) by done.
  destruct (JSONLogger_log_metrics _ _ _ _ _) as [[[]|e] w1]; [|done].
  rewrite (write_inferences_loop self) by (right; exists n; by split).
  rewrite (write_inferences_loop unbounded) by (by left).
  unfold entries_of. rewrite Hn. cbn [_write_n_results unbounded].
  fold all. rewrite take_ge by lia. reflexivity.
Qed.

Lemma json_dumps_fields (default : pyobj -> result pyobj) (k1 k2 : pystr)
    (v1 v2 : pyobj) (s1 s2 : pystr) :
  json_dumps default v1 = Ok s1 -> json_dumps default v2 = Ok s2 ->
  json_dumps default (PDict [(k1, v1); (k2, v2)]) = Ok (json_object [(k1, s1); (k2, s2)]).
Proof.
  unfold json_dumps. intros H1 H2. rewrite iterencode_dict. cbn [encode_pairs].
  by rewrite H1, H2.
Qed.

(** X12. An example that has neither a prediction nor a target nor a
    score, as when these sequences are shorter than the dataset, is written
    with its input and a target of [null]: a missing prediction leaves its
    key out, a missing target does not. Nothing is logged. *)
Theorem example_without_target (self : JSONLogger) (f : GFile)
    (inp : list (pystr * pyobj)) (w : world) (s : pystr) :
  json_dumps (_json_encoder_cls self) (PDict (ragged_to_numpy inp)) = Ok s ->
  JSONLogger_write_example self f (Some inp, None, None, None) w
  = (Ok (mk_GFile (gf_name f) true),
     after_ops w
       (opening f
        ++ [FWrite (gf_name f)
              (json_object [(lit "input", s); (lit "target", lit "null")] ++ [10%N])])).
Proof.
  intros Hs.
  assert (Hnull : json_dumps (_json_encoder_cls self) PNone = Ok (lit "null"))
    by apply iterencode_None.
  assert (Hok : entry_ok self (Some inp, None, None, None) = true).
  { unfold entry_ok, serializable. cbn [or_None default from_option id is_None].
    by rewrite Hs, Hnull. }
  destruct (write_example_ok self f _ w Hok) as (line & Hline & ->).
  unfold example_line, example_object, serializable in Hline.
  cbn [or_None default from_option id is_None negb andb] in Hline.
  rewrite Hnull in Hline. cbn [is_ok app] in Hline.
  rewrite (json_dumps_fields _ _ _ _ _ _ _ Hs Hnull) in Hline.
  apply Ok_inj in Hline as <-.
  unfold entry_warnings, example_warnings, serializable.
  cbn [fst snd or_None default from_option id is_None negb andb].
  rewrite Hnull. cbn [is_ok app]. by rewrite after_ops_advance.
Qed.

(** X25. A prediction or a target that is a Python [complex] is not
    left out with a warning: for the encoder of the loggers, the check of
    lines 262 and 270 raises [AttributeError], which [except TypeError]
    lets through. The example is not written and nothing is logged; a call
    whose first entry has such a prediction raises [AttributeError] and
    makes no inferences file. *)
Theorem complex_prediction_raises (self : JSONLogger) (enc : TensorAndNumpyEncoder)
    (task_name : pystr) (step : option Z) (metrics : list (pystr * metrics.MetricValue))
    (dataset : list (list (pystr * pyobj))) (inferences : list (pystr * list pyobj))
    (targets : list pyobj) (w : world) (f : GFile) (inp : list (pystr * pyobj))
    (re im : pyfloat) (target score : option pyobj) (rest : list entry) :
  let m := JSONLogger_log_metrics self task_name (step_or_dummy step) metrics
             (entry_world step w) in
  let r := JSONLogger_call self task_name step metrics dataset inferences targets w in
  _json_encoder_cls self = TensorAndNumpyEncoder_default enc ->
  (forall w', JSONLogger_write_example self f (Some inp, Some (PComplex re im), target, score)
                w' = (Raise AttributeError, w'))
  /\ (forall w', JSONLogger_write_example self f (Some inp, None, Some (PComplex re im), score)
                   w' = (Raise AttributeError, w'))
  /\ ((_write_n_results self = None \/ exists n, _write_n_results self = Some n /\ 0 < n) ->
      m.1 = Ok tt ->
      entries_of self dataset inferences targets
      = (Some inp, Some (PComplex re im), target, score) :: rest ->
      r = (Raise AttributeError,
           with_log m.2 [Info_writing_inferences
                           (inferences_fname_of self task_name (step_or_dummy step))])).
Proof.
  intros m r Henc.
  assert (Hdumps : json_dumps (_json_encoder_cls self) (PComplex re im)
                   = Raise AttributeError).
  { rewrite Henc. unfold json_dumps. by destruct recursion_limit. }
  assert (H1 : forall g w',
             JSONLogger_write_example self g (Some inp, Some (PComplex re im), target, score)
               w' = (Raise AttributeError, w')).
  { intros g w'. unfold JSONLogger_write_example.
    cbn [or_None default from_option id is_None].
    unfold mbind at 1, M_bind at 1. cbn [mret M_ret].
    unfold mbind at 1, M_bind at 1. unfold set_if_serializable at 1. by rewrite Hdumps. }
  split; [apply H1|]. split.
  - intros w'. unfold JSONLogger_write_example.
    cbn [or_None default from_option id is_None].
    unfold mbind at 1, M_bind at 1. cbn [mret M_ret].
    unfold mbind at 1, M_bind at 1. cbn [mret M_ret].
    unfold mbind at 1, M_bind at 1. unfold set_if_serializable at 1. by rewrite Hdumps.
  - intros Hn Hm Hentries. subst r m.
    rewrite call_phases. unfold mbind at 1, M_bind at 1.
    destruct (JSONLogger_log_metrics _ _ _ _ _) as [[[]|e] w1] eqn:Em; [|discriminate].
    rewrite (write_inferences_loop _ _ _ _ _ _ _ Hn), Hentries.
    cbn [for_each_with snd]. unfold mbind, M_bind. by rewrite H1.
Qed.

(** ** Ragged tensors in the input *)

Lemma ragged_step_map (d : list (pystr * pyobj)) (k : pystr) :
  NoDup d.*1 ->
  match dict_get d k with
  | Some (PRaggedTensor a) => dict_set d k (PNdarray a)
  | _ => d
  end
  = (fun kv => if bool_decide (kv.1 = k) then (kv.1, numpy_of_ragged kv.2) else kv) <$> d.
Proof.
  intros Hnd. induction d as [|[k' v'] d IH]; [done|].
  rewrite fmap_cons in Hnd. cbn [fst] in Hnd. apply NoDup_cons in Hnd as [Hk' Hnd].
  rewrite fmap_cons. cbn [dict_get dict_set fst snd]. case_bool_decide as E.
  - subst k'.
    assert (Hrest : (fun kv : pystr * pyobj =>
                       if bool_decide (kv.1 = k) then (kv.1, numpy_of_ragged kv.2) else kv)
                      <$> d = d).
    { clear IH Hnd. induction d as [|[k2 v2] d IH2]; [done|].
      rewrite fmap_cons in Hk'. cbn [fst] in Hk'.
      apply not_elem_of_cons in Hk' as [Hne Hk'].
      rewrite fmap_cons. cbn [fst].
      rewrite bool_decide_eq_false_2 by done. f_equal. by apply IH2. }
    rewrite Hrest.
    by destruct v'.
  - rewrite <- (IH Hnd).
    by destruct (dict_get d k) as [[]|].
Qed.

Lemma ragged_fold_map (ks : list pystr) (d : list (pystr * pyobj)) :
  NoDup d.*1 ->
  foldl (fun inp k =>
           match dict_get inp k with
           | Some (PRaggedTensor a) => dict_set inp k (PNdarray a)
           | _ => inp
           end) d ks
  = (fun kv => if bool_decide (kv.1 ∈ ks) then (kv.1, numpy_of_ragged kv.2) else kv) <$> d.
Proof.
  revert d. induction ks as [|k ks IH]; intros d Hnd.
  - cbn [foldl]. rewrite <- (list_fmap_id d) at 1. apply list_fmap_ext.
    intros i [k' v'] _. by rewrite bool_decide_eq_false_2 by apply not_elem_of_nil.
  - cbn [foldl]. rewrite ragged_step_map by done. rewrite IH.
    2:{ rewrite <- list_fmap_compose.
        erewrite (list_fmap_ext _ fst); [exact Hnd|].
        intros i [k' v'] _. cbn. by case_bool_decide. }
    rewrite <- list_fmap_compose. apply list_fmap_ext. intros i [k' v'] _.
    cbn [compose fst snd]. destruct (decide (k' = k)) as [->|Hne].
    + rewrite !(bool_decide_eq_true_2 (k = k)) by done. cbn [fst snd].
      rewrite (bool_decide_eq_true_2 (k ∈ k :: ks)) by apply list_elem_of_here.
      case_bool_decide; [|done]. by destruct v'.
    + rewrite !(bool_decide_eq_false_2 (k' = k)) by done. cbn [fst snd].
      destruct (decide (k' ∈ ks)) as [Hin|Hnin].
      * rewrite (bool_decide_eq_true_2 (k' ∈ ks)) by done.
        by rewrite bool_decide_eq_true_2 by (by apply list_elem_of_further).
      * rewrite (bool_decide_eq_false_2 (k' ∈ ks)) by done.
        rewrite bool_decide_eq_false_2; [done|].
        intros Hin. apply elem_of_cons in Hin as [?|?]; done.
Qed.

(** X13. Lines 253 to 255 replace each ragged tensor among the values of
    an input by its [numpy()] and touch nothing else: the keys, their order
    and the other values are kept; a ragged tensor inside a value is left
    where it is. Done twice, it is as done once. *)
Theorem ragged_to_numpy_values (inp : list (pystr * pyobj)) :
  NoDup inp.*1 ->
  ragged_to_numpy inp = (fun kv => (kv.1, numpy_of_ragged kv.2)) <$> inp
  /\ (ragged_to_numpy inp).*1 = inp.*1
  /\ ragged_to_numpy (ragged_to_numpy inp) = ragged_to_numpy inp.
Proof.
  intros Hnd.
  assert (Hmap : forall d, NoDup d.*1 ->
                           ragged_to_numpy d = (fun kv => (kv.1, numpy_of_ragged kv.2)) <$> d).
  { intros d Hd. unfold ragged_to_numpy. rewrite ragged_fold_map by done.
    apply list_fmap_ext. intros i [k v] Hi. cbn [fst snd].
    rewrite bool_decide_eq_true_2; [done|].
    apply list_elem_of_fmap. exists (k, v). split; [done|].
    by eapply list_elem_of_lookup_2. }
  assert (Hkeys : (ragged_to_numpy inp).*1 = inp.*1).
  { rewrite Hmap by done. rewrite <- list_fmap_compose. by apply list_fmap_ext. }
  split; [by apply Hmap|]. split; [exact Hkeys|].
  rewrite (Hmap (ragged_to_numpy inp)) by (by rewrite Hkeys).
  rewrite Hmap by done. rewrite <- list_fmap_compose. apply list_fmap_ext.
  intros i [k v] _. cbn. by destruct v.
Qed.

(** ** The writers of [TensorBoardLogger] *)

(** The writer of a task once it has been asked for. *)
Lemma get_summary_writer_spec (task_name : pystr) (self : TensorBoardLogger) (w : world) :
  let writer := default (FileWriter_init (path_join (tb_output_dir self) task_name))
                  (_summary_writers self !! task_name) in
  _get_summary_writer task_name (self, w)
  = (Ok task_name,
     (mk_TensorBoardLogger (tb_output_dir self)
        (<[task_name := writer]> (_summary_writers self)), w)).
Proof.
  unfold _get_summary_writer. cbn [fst snd].
  destruct (_summary_writers self !! task_name) as [fw|] eqn:E; cbn [default from_option id].
  - rewrite insert_id by done. by destruct self.
  - reflexivity.
Qed.

Lemma tb_call_scalars (self : TensorBoardLogger) (task_name : pystr) (step : Z)
    (metrics : list (pystr * metrics.MetricValue)) (w : world) :
  let writer := default (FileWriter_init (path_join (tb_output_dir self) task_name))
                  (_summary_writers self !! task_name) in
  Forall (fun item => is_Scalar item.2 = true) metrics ->
  TensorBoardLogger_call task_name (Some step) metrics (self, w)
  = (Ok tt,
     (mk_TensorBoardLogger (tb_output_dir self)
        (<[task_name :=
             mk_FileWriter (fw_logdir writer) []
               (fw_flushed writer ++ fw_pending writer ++ scalar_events step metrics)]>
           (_summary_writers self)),
      with_log w (event_info <$> scalar_events step metrics))).
Proof.
  intros writer Hall. unfold TensorBoardLogger_call.
  change ((mret step : M _ Z) ≫= ?f) with (f step). cbv beta.
  erewrite bind_Ok by apply get_summary_writer_spec.
  erewrite bind_Ok.
  2:{ apply tb_loop_scalars; [|exact Hall]. cbn [_summary_writers]. apply lookup_insert_eq. }
  unfold on_writer. cbn [fst snd tb_output_dir _summary_writers].
  rewrite alter_insert_eq, insert_insert_eq. unfold flush.
  cbn [fw_logdir fw_pending fw_flushed]. by fold writer.
Qed.

(** The loop up to a metric that is not a [Scalar]. *)
Lemma tb_loop_stops (summary_writer : pystr) (step : Z)
    (pre post : list (pystr * metrics.MetricValue)) (name : pystr)
    (v : metrics.MetricValue) (self : TensorBoardLogger) (w : world) (fw : FileWriter) :
  _summary_writers self !! summary_writer = Some fw ->
  Forall (fun item => is_Scalar item.2 = true) pre ->
  is_Scalar v = false ->
  for_each (pre ++ (name, v) :: post) (TensorBoardLogger_log_metric summary_writer step)
    (self, w)
  = (Raise ValueError,
     (mk_TensorBoardLogger (tb_output_dir self)
        (<[summary_writer :=
             mk_FileWriter (fw_logdir fw) (fw_pending fw ++ scalar_events step pre)
               (fw_flushed fw)]> (_summary_writers self)),
      with_log w (event_info <$> scalar_events step pre))).
Proof.
  intros Hfw Hpre Hv. rewrite for_each_app.
  erewrite bind_Ok by (by apply tb_loop_scalars).
  cbn [for_each]. unfold mbind, M_bind, TensorBoardLogger_log_metric. cbn [fst snd].
  by destruct v.
Qed.

(** X14. Two calls for a task share its writer: after both, the writer
    has flushed what it held, then the summaries of the first call, then
    those of the second, and nothing is pending. The writer is made once,
    for the directory of the task under the output directory. *)
Theorem tensorboard_two_calls (self : TensorBoardLogger) (task_name : pystr)
    (step1 step2 : Z) (metrics1 metrics2 : list (pystr * metrics.MetricValue))
    (w : world) :
  let writer := default (FileWriter_init (path_join (tb_output_dir self) task_name))
                  (_summary_writers self !! task_name) in
  let r1 := TensorBoardLogger_call task_name (Some step1) metrics1 (self, w) in
  let r2 := TensorBoardLogger_call task_name (Some step2) metrics2 r1.2 in
  Forall (fun item => is_Scalar item.2 = true) metrics1 ->
  Forall (fun item => is_Scalar item.2 = true) metrics2 ->
  r1.1 = Ok tt /\ r2.1 = Ok tt
  /\ _summary_writers r2.2.1
     = <[task_name :=
           mk_FileWriter (fw_logdir writer) []
             (fw_flushed writer ++ fw_pending writer
              ++ scalar_events step1 metrics1 ++ scalar_events step2 metrics2)]>
         (_summary_writers self)
  /\ (_summary_writers self !! task_name = None ->
      fw_logdir writer = path_join (tb_output_dir self) task_name
      /\ fw_flushed writer ++ fw_pending writer = []).
Proof.
  intros writer r1 r2 Hall1 Hall2. subst r2 r1.
  rewrite (tb_call_scalars self) by done. cbn [fst snd].
  rewrite tb_call_scalars by done.
  cbn [fst snd _summary_writers tb_output_dir].
  rewrite lookup_insert_eq, insert_insert_eq.
  cbn [default from_option id fw_logdir fw_pending fw_flushed]. fold writer.
  split; [done|]. split; [done|]. split.
  - by rewrite app_nil_l, <- !app_assoc.
  - intros Hnone. unfold writer. by rewrite Hnone.
Qed.

(** X15. When a metric is not a [Scalar], the summaries of the metrics
    before it have been added to the writer by the time [ValueError] is
    raised, and announced in the log; they are not flushed, and the
    metrics after it are not looked at. *)
Theorem tensorboard_call_stops (self : TensorBoardLogger) (task_name : pystr) (step : Z)
    (pre post : list (pystr * metrics.MetricValue)) (name : pystr)
    (v : metrics.MetricValue) (w : world) :
  let writer := default (FileWriter_init (path_join (tb_output_dir self) task_name))
                  (_summary_writers self !! task_name) in
  let r := TensorBoardLogger_call task_name (Some step) (pre ++ (name, v) :: post)
             (self, w) in
  Forall (fun item => is_Scalar item.2 = true) pre ->
  is_Scalar v = false ->
  r.1 = Raise ValueError
  /\ _summary_writers r.2.1
     = <[task_name :=
           mk_FileWriter (fw_logdir writer)
             (fw_pending writer ++ scalar_events step pre) (fw_flushed writer)]>
         (_summary_writers self)
  /\ r.2.2 = with_log w (event_info <$> scalar_events step pre).
Proof.
  intros writer r Hpre Hv. subst r. unfold TensorBoardLogger_call.
  change ((mret step : M _ Z) ≫= ?f) with (f step). cbv beta.
  erewrite bind_Ok by apply get_summary_writer_spec.
  erewrite bind_Raise.
  2:{ apply tb_loop_stops; [|exact Hpre|exact Hv].
      cbn [_summary_writers]. apply lookup_insert_eq. }
  cbn [fst snd _summary_writers]. fold writer. by rewrite insert_insert_eq.
Qed.

Lemma tb_loop_frame (summary_writer other : pystr) (step : Z)
    (metrics : list (pystr * metrics.MetricValue)) (s : TensorBoardLogger * world) :
  other <> summary_writer ->
  let r := for_each metrics (TensorBoardLogger_log_metric summary_writer step) s in
  _summary_writers r.2.1 !! other = _summary_writers s.1 !! other
  /\ tb_output_dir r.2.1 = tb_output_dir s.1.
Proof.
  intros Hne. revert s. induction metrics as [|[name v] rest IH]; intros s; [done|].
  cbn [for_each]. cbv zeta.
  destruct (TensorBoardLogger_log_metric summary_writer step (name, v) s)
    as [[[]|e] s'] eqn:Es.
  - erewrite !bind_Ok by exact Es.
    destruct (IH s') as [IH1 IH2]. cbv zeta in IH1, IH2. rewrite IH1, IH2.
    unfold TensorBoardLogger_log_metric in Es. cbn [fst snd] in Es.
    destruct v; try discriminate.
    unfold mbind, M_bind, tb_logging, on_writer in Es. cbn [fst snd] in Es.
    injection Es as <-. cbn [fst snd _summary_writers tb_output_dir].
    by rewrite lookup_alter_ne.
  - erewrite !bind_Raise by exact Es. cbn [fst snd].
    unfold TensorBoardLogger_log_metric in Es. cbn [fst snd] in Es.
    destruct v; try (injection Es as _ <-; done).
    unfold mbind, M_bind, tb_logging, on_writer in Es. cbn [fst snd] in Es.
    discriminate.
Qed.

(** X16. A call changes no writer but that of its task, and leaves the
    output directory as it is, whether it returns or raises. *)
Theorem tensorboard_call_frame (self : TensorBoardLogger) (task_name other : pystr)
    (step : option Z) (metrics : list (pystr * metrics.MetricValue)) (w : world) :
  let r := TensorBoardLogger_call task_name step metrics (self, w) in
  other <> task_name ->
  _summary_writers r.2.1 !! other = _summary_writers self !! other
  /\ tb_output_dir r.2.1 = tb_output_dir self.
Proof.
  intros r Hne. subst r. unfold TensorBoardLogger_call.
  set (s0 := match step with
             | None => (self, with_log w [Warning_no_step])
             | Some _ => (self, w)
             end).
  set (step' := default (-1) step).
  assert (H0 : forall f : Z -> M (TensorBoardLogger * world) unit,
             (match step with
              | None => _ ← tb_logging Warning_no_step; mret (-1)
              | Some step => mret step
              end ≫= f) (self, w) = f step' s0).
  { intros f. by destruct step. }
  rewrite H0. clear H0.
  assert (Hs0 : s0.1 = self) by (by destruct step).
  destruct s0 as [self0 w0]. cbn [fst] in Hs0. subst self0.
  erewrite bind_Ok by apply get_summary_writer_spec.
  set (s1 := (mk_TensorBoardLogger _ _, w0)).
  pose proof (tb_loop_frame task_name other step' metrics s1 Hne) as [Hw Hd].
  cbv zeta in Hw, Hd. unfold mbind, M_bind.
  destruct (for_each metrics _ s1) as [[[]|e] s2]; cbn [fst snd] in *.
  - unfold on_writer. cbn [fst snd _summary_writers tb_output_dir].
    rewrite lookup_alter_ne by done. rewrite Hw, Hd. unfold s1.
    cbn [fst _summary_writers tb_output_dir]. by rewrite lookup_insert_ne.
  - rewrite Hw, Hd. unfold s1.
    cbn [fst _summary_writers tb_output_dir]. by rewrite lookup_insert_ne.
Qed.

(** ** The encoder on tensors and on small limits *)

(** X17. A tensor of bfloat16 is cast before it becomes an array, an
    array of bfloat16 after its dtype was noted: under the limit both give
    the same list of floats, over it the summary of the array says
    [bfloat16] and that of the tensor [float32]. The elements are shown as
    Python floats in both. *)
Theorem bfloat16_array_and_tensor (self : TensorAndNumpyEncoder) (n : nat)
    (shape : list nat) (xs : list pyfloat) :
  let default := TensorAndNumpyEncoder_default self in
  let array := PNdarray (mk_ndarray (lit "ndarray") (n :: shape) (NFloat BF16 xs)) in
  let tensor := PTensor (mk_tensor (n :: shape) (TFloat BF16 xs)) in
  let summary dt :=
    PStr (lit "ndarray(shape=" ++ shape_str (n :: shape) ++ lit ", dtype=" ++ dt
          ++ lit "); first: " ++ str_join (lit ", ") (py_repr <$> take 5 (PFloat <$> xs))
          ++ lit " ...") in
  (Z.of_nat (shape_size (n :: shape)) <= max_ndarray_size self ->
   default array = Ok (nest (n :: shape) (PFloat <$> xs))
   /\ default tensor = default array)
  /\ (max_ndarray_size self < Z.of_nat (shape_size (n :: shape)) ->
      default array = Ok (summary (lit "bfloat16"))
      /\ default tensor = Ok (summary (lit "float32"))).
Proof.
  intros default array tensor summary.
  assert (Hflat : forall k, k <> BF16 ->
            flat_tolist (NFloat k xs : nddata pyobj) = PFloat <$> xs).
  { intros k Hk. unfold flat_tolist. cbn [nd_elements]. rewrite <- list_fmap_compose.
    apply list_fmap_ext. intros i f _. by destruct k. }
  assert (Ha : default array
               = if Z.of_nat (shape_size (n :: shape)) <=? max_ndarray_size self
                 then Ok (nest (n :: shape) (PFloat <$> xs))
                 else Ok (summary (lit "bfloat16"))).
  { unfold default, array. rewrite default_ndarray_branches.
    cbn [nd_data nd_dtype nd_class nd_shape]. rewrite bool_decide_eq_true_2 by done.
    unfold tolist, astype_float32, nd_size.
    cbn [nd_data nd_shape nd_class data_to_float32]. by rewrite Hflat. }
  assert (Ht : default tensor
               = if Z.of_nat (shape_size (n :: shape)) <=? max_ndarray_size self
                 then Ok (nest (n :: shape) (PFloat <$> xs))
                 else Ok (summary (lit "float32"))).
  { unfold default, tensor. rewrite default_tensor.
    cbn [is_tf_bfloat16 t_data tf_cast_float32 t_shape tensor_numpy tf_to_nd].
    rewrite default_ndarray_branches.
    cbn [nd_data nd_dtype nd_class nd_shape]. rewrite bool_decide_eq_false_2 by done.
    unfold tolist, nd_size. cbn [nd_data nd_shape]. by rewrite Hflat. }
  rewrite Ha, Ht. split.
  - intros Hle. apply Z.leb_le in Hle. by rewrite Hle.
  - intros Hgt. apply Z.leb_gt in Hgt. by rewrite Hgt.
Qed.

(** X18. A tensor of rank zero is written as the Python value of its
    element: a boolean, an int, a float (for bfloat16 too, after the
    cast), a complex; a string tensor goes the way of its [bytes]. The
    limit on the size plays no part. *)
Theorem default_scalar_tensor (self : TensorAndNumpyEncoder) :
  let default := TensorAndNumpyEncoder_default self in
  (forall b, default (PTensor (mk_tensor [] (TBool [b]))) = Ok (PBool b))
  /\ (forall s w z, default (PTensor (mk_tensor [] (TInt s w [z]))) = Ok (PInt z))
  /\ (forall k f, default (PTensor (mk_tensor [] (TFloat k [f]))) = Ok (PFloat f))
  /\ (forall c re im,
        default (PTensor (mk_tensor [] (TComplex c [(re, im)]))) = Ok (PComplex re im))
  /\ (forall b, default (PTensor (mk_tensor [] (TString [b]))) = default (PBytes b)).
Proof.
  intros default. repeat split; intros; try reflexivity.
  by destruct k.
Qed.

(** X19. With a limit under five, an array over the limit that has at
    most five elements is shown whole in its summary, which still ends
    with the dots. *)
Theorem summary_of_few (self : TensorAndNumpyEncoder) (a : ndarray pyobj) :
  let a32 := if bool_decide (nd_dtype (nd_data a) = DFloat BF16)
             then astype_float32 a else a in
  max_ndarray_size self < Z.of_nat (nd_size a) ->
  (length (flat_tolist (nd_data a)) <= 5)%nat ->
  TensorAndNumpyEncoder_default self (PNdarray a)
  = Ok (PStr (nd_class a ++ lit "(shape=" ++ shape_str (nd_shape a)
              ++ lit ", dtype=" ++ dtype_str (nd_dtype (nd_data a))
              ++ lit "); first: "
              ++ str_join (lit ", ") (py_repr <$> flat_tolist (nd_data a32))
              ++ lit " ...")).
Proof.
  intros a32 Hgt Hlen. rewrite default_ndarray_branches.
  apply Z.leb_gt in Hgt. rewrite Hgt. fold a32.
  rewrite take_ge; [done|].
  unfold a32. case_bool_decide; [|done].
  unfold astype_float32, flat_tolist in *. cbn [nd_data] in *.
  destruct (nd_data a) as [| |[]| |]; cbn [data_to_float32 nd_elements] in *;
    by rewrite ?length_fmap in *.
Qed.

(** ** UTF-8 *)

(** The digits of a code point in base 64. *)
Lemma base64_digits (c : N) :
  (c < 1114112)%N ->
  exists c0 c1 c2 c3 : N,
    (c = c0 * 262144 + c1 * 4096 + c2 * 64 + c3 /\ c0 <= 4 /\ c1 < 64 /\ c2 < 64 /\ c3 < 64
     /\ c / 262144 = c0 /\ c / 4096 mod 64 = c1 /\ c / 64 mod 64 = c2 /\ c mod 64 = c3
     /\ c / 64 = c0 * 4096 + c1 * 64 + c2 /\ c / 4096 = c0 * 64 + c1)%N.
Proof.
  intros Hc. exists (c / 262144)%N, (c / 4096 mod 64)%N, (c / 64 mod 64)%N, (c mod 64)%N.
  repeat split; try reflexivity; div_lia.
Qed.

Lemma utf8_decode_encode_char (c : N) (rest : list N) :
  is_scalar_value c = true ->
  utf8_decode_N (utf8_encode_char c ++ rest) = cons c <$> utf8_decode_N rest.
Proof.
  intros Hc.
  assert (Hv : (c < 55296 \/ (57344 <= c /\ c < 1114112))%N) by (N_bool; lia).
  clear Hc.
  destruct (base64_digits c)
    as (c0 & c1 & c2 & c3 & Hsum & H0 & H1 & H2 & H3 & E0 & E1 & E2 & E3 & E64 & E4096);
    [lia|].
  unfold utf8_encode_char. rewrite E0, E1, E2, E3, E64, E4096.
  clear E0 E1 E2 E3 E64 E4096.
  destruct (N.ltb_spec c 128).
  { cbn [app utf8_decode_N]. by destruct (N.ltb_spec c 128); [|lia]. }
  destruct (N.ltb_spec c 2048).
  { assert (c0 = 0 /\ c1 = 0)%N as [-> ->] by lia.
    cbn [app utf8_decode_N]. unfold is_cont, cont_bits.
    repeat N_case; do 2 f_equal; lia. }
  destruct (N.ltb_spec c 65536).
  { assert (c0 = 0)%N as -> by lia.
    cbn [app utf8_decode_N]. unfold is_cont, cont_bits.
    repeat N_case; do 2 f_equal; lia. }
  cbn [app utf8_decode_N]. unfold is_cont, cont_bits.
  repeat N_case; do 2 f_equal; lia.
Qed.

Lemma utf8_encode_char_1 (c : N) : (c < 128)%N -> utf8_encode_char c = [c].
Proof. intros Hc. unfold utf8_encode_char. by N_case. Qed.

Lemma utf8_encode_char_2 (b0 b1 : N) :
  (194 <= b0 <= 223 -> 128 <= b1 <= 191 ->
   utf8_encode_char ((b0 - 192) * 64 + (b1 - 128)) = [b0; b1])%N.
Proof.
  intros H0 H1. unfold utf8_encode_char.
  repeat N_case. repeat f_equal; div_lia.
Qed.

Lemma utf8_encode_char_3 (b0 b1 b2 : N) :
  (224 <= b0 <= 239 -> 128 <= b1 <= 191 -> 128 <= b2 <= 191 ->
   (b0 = 224 -> 160 <= b1) ->
   utf8_encode_char ((b0 - 224) * 4096 + (b1 - 128) * 64 + (b2 - 128)) = [b0; b1; b2])%N.
Proof.
  intros H0 H1 H2 Hlow. unfold utf8_encode_char.
  repeat N_case. repeat f_equal; div_lia.
Qed.

Lemma utf8_encode_char_4 (b0 b1 b2 b3 : N) :
  (240 <= b0 <= 244 -> 128 <= b1 <= 191 -> 128 <= b2 <= 191 -> 128 <= b3 <= 191 ->
   (b0 = 240 -> 144 <= b1) ->
   utf8_encode_char ((b0 - 240) * 262144 + (b1 - 128) * 4096 + (b2 - 128) * 64
                     + (b3 - 128))
   = [b0; b1; b2; b3])%N.
Proof.
  intros H0 H1 H2 H3 Hlow. unfold utf8_encode_char.
  repeat N_case. repeat f_equal; div_lia.
Qed.

Lemma utf8_decode_N_inv (n : nat) (bs : list N) (s : pystr) :
  (length bs <= n)%nat ->
  utf8_decode_N bs = Some s ->
  mjoin (utf8_encode_char <$> s) = bs /\ forallb is_scalar_value s = true.
Proof.
  revert bs s. induction n as [|n IH]; intros [|b0 r0] s Hlen H;
    try (injection H as <-; done); cbn [length] in Hlen; [lia|].
  cbn [utf8_decode_N] in H. unfold is_cont, cont_bits in H.
  repeat case_match; try discriminate; N_bool.
  all: match goal with
       | H' : cons ?c <$> utf8_decode_N ?r = Some _ |- _ =>
         destruct (utf8_decode_N r) as [s'|] eqn:E; [|discriminate];
         injection H' as <-; apply IH in E; [|cbn [length] in Hlen; lia];
         destruct E as [<- Hs']
       end.
  all: rewrite fmap_cons; cbn [forallb]; rewrite Hs', andb_true_r;
    match goal with
    | |- mjoin (?x :: ?l) = _ /\ _ => change (mjoin (x :: l)) with (x ++ mjoin l)
    end.
  all: unfold is_scalar_value.
  all: first [rewrite utf8_encode_char_4 by lia
             | rewrite utf8_encode_char_3 by lia
             | rewrite utf8_encode_char_2 by lia
             | rewrite utf8_encode_char_1 by lia].
  all: split; [done|]; by repeat N_case.
Qed.

Lemma byte_of_N_to_N (x : byte) : byte_of_N (Byte.to_N x) = x.
Proof. unfold byte_of_N. by rewrite Byte.of_to_N. Qed.

Lemma utf8_encode_char_bytes (c : N) :
  is_scalar_value c = true -> Forall (fun b => (b < 256)%N) (utf8_encode_char c).
Proof.
  intros Hc.
  assert (Hv : (c < 1114112)%N) by (N_bool; lia).
  destruct (base64_digits c Hv)
    as (c0 & c1 & c2 & c3 & Hsum & H0 & H1 & H2 & H3 & E0 & E1 & E2 & E3 & E64 & E4096).
  unfold utf8_encode_char. rewrite E0, E1, E2, E3, E64, E4096.
  repeat N_case; repeat constructor; lia.
Qed.

Lemma utf8_decode_N_encode (s : pystr) :
  forallb is_scalar_value s = true ->
  utf8_decode_N (mjoin (utf8_encode_char <$> s)) = Some s
  /\ Forall (fun b => (b < 256)%N) (mjoin (utf8_encode_char <$> s)).
Proof.
  induction s as [|c s IH]; [by split|]. cbn [forallb]. intros H.
  apply andb_true_iff in H as [Hc Hs]. destruct (IH Hs) as [IH1 IH2].
  rewrite fmap_cons.
  change (mjoin (utf8_encode_char c :: (utf8_encode_char <$> s)))
    with (utf8_encode_char c ++ mjoin (utf8_encode_char <$> s)).
  split.
  - by rewrite utf8_decode_encode_char, IH1.
  - apply Forall_app. split; [by apply utf8_encode_char_bytes | done].
Qed.

Lemma utf8_decode_iff_encode (b : pybytes) (s : pystr) :
  utf8_decode b = Some s <-> utf8_encode s = Some b.
Proof.
  unfold utf8_decode, utf8_encode. split.
  - intros H. apply (utf8_decode_N_inv (length (Byte.to_N <$> b))) in H as [Henc Hs]; [|done].
    rewrite Hs, Henc. f_equal. rewrite <- list_fmap_compose.
    rewrite <- (list_fmap_id b) at 2. apply list_fmap_ext. intros i x _.
    apply byte_of_N_to_N.
  - destruct (forallb is_scalar_value s) eqn:Hs; [|discriminate].
    intros [= <-]. destruct (utf8_decode_N_encode s Hs) as [Hdec Hlt].
    rewrite <- list_fmap_compose.
    erewrite (list_fmap_ext _ id); [by rewrite list_fmap_id|].
    intros i x Hx. cbn. apply to_N_byte_of_N.
    eapply Forall_forall in Hlt; [exact Hlt|]. by eapply list_elem_of_lookup_2.
Qed.

(** X20. The decoder is the inverse of [str.encode]: bytes decode to a
    text exactly when they are its encoding in UTF-8, in the shortest form
    and without surrogates. The encoder thus gives back the text of the
    bytes that encode one, and takes to base64 the bytes that encode
    none. *)
Theorem bytes_of_text (self : TensorAndNumpyEncoder) (b : pybytes) (s : pystr) :
  (utf8_decode b = Some s <-> utf8_encode s = Some b)
  /\ (utf8_encode s = Some b ->
      TensorAndNumpyEncoder_default self (PBytes b) = Ok (PStr s))
  /\ ((forall s', utf8_encode s' <> Some b) ->
      TensorAndNumpyEncoder_default self (PBytes b) = Ok (PBytes (b64encode b))).
Proof.
  split; [apply utf8_decode_iff_encode|]. rewrite default_bytes. split.
  - intros H. apply utf8_decode_iff_encode in H. by rewrite H.
  - intros Hnone. destruct (utf8_decode b) as [s'|] eqn:E; [|done].
    apply utf8_decode_iff_encode in E. by destruct (Hnone s').
Qed.

(** ** Base64 *)

Lemma b64_index_char (i : N) : (i < 64)%N -> b64_index (b64_char i) = i.
Proof.
  intros Hi. unfold b64_char.
  destruct (N.ltb_spec i 26);
    [|destruct (N.ltb_spec i 52);
      [|destruct (N.ltb_spec i 62); [|destruct (N.eqb_spec i 62)]]];
    unfold b64_index; rewrite to_N_byte_of_N by lia; cbv zeta; repeat N_case; lia.
Qed.

Lemma b64_char_inj (i j : N) : (i < 64)%N -> (j < 64)%N -> b64_char i = b64_char j -> i = j.
Proof.
  intros Hi Hj E. apply (f_equal b64_index) in E. by rewrite !b64_index_char in E.
Qed.

Lemma b64_char_not_pad (i : N) : (i < 64)%N -> b64_char i <> b64_pad.
Proof.
  intros Hi E. apply (f_equal Byte.to_N) in E. revert E. unfold b64_char.
  destruct (N.ltb_spec i 26);
    [|destruct (N.ltb_spec i 52);
      [|destruct (N.ltb_spec i 62); [|destruct (N.eqb_spec i 62)]]];
    rewrite to_N_byte_of_N by lia; change (Byte.to_N b64_pad) with 61%N; lia.
Qed.

Lemma to_N_lt (x : byte) : (Byte.to_N x < 256)%N.
Proof. pose proof (Byte.to_N_bounded x). lia. Qed.

Lemma list_ind3 {A} (P : list A -> Prop) :
  P [] -> (forall x, P [x]) -> (forall x y, P [x; y]) ->
  (forall x y z l, P l -> P (x :: y :: z :: l)) ->
  forall l, P l.
Proof.
  intros H0 H1 H2 H3 l.
  assert (H : P l /\ (forall x, P (x :: l)) /\ (forall x y, P (x :: y :: l))).
  { induction l as [|z l (IH0 & IH1 & IH2)]; [by repeat split|].
    split; [apply IH1|]. split; [intros x; apply IH2|]. intros x y. by apply H3. }
  apply H.
Qed.

Lemma to_N_inj (x y : byte) : Byte.to_N x = Byte.to_N y -> x = y.
Proof.
  intros E. apply (f_equal Byte.of_N) in E. rewrite !Byte.of_to_N in E. by injection E.
Qed.

Lemma digits_24 (n : N) :
  (n = n / 262144 * 262144 + n / 4096 mod 64 * 4096 + n / 64 mod 64 * 64 + n mod 64)%N.
Proof. div_lia. Qed.

Lemma digits_16 (n : N) :
  (n < 65536 -> n * 4 = n / 1024 * 4096 + n / 16 mod 64 * 64 + n mod 16 * 4)%N.
Proof. intros Hn. div_lia. Qed.

Lemma b64_digits_3 (x y z x' y' z' : byte) :
  let n := (Byte.to_N x * 65536 + Byte.to_N y * 256 + Byte.to_N z)%N in
  let n' := (Byte.to_N x' * 65536 + Byte.to_N y' * 256 + Byte.to_N z')%N in
  (n / 262144 = n' / 262144 -> n / 4096 mod 64 = n' / 4096 mod 64 ->
   n / 64 mod 64 = n' / 64 mod 64 -> n mod 64 = n' mod 64 ->
   x = x' /\ y = y' /\ z = z')%N.
Proof.
  intros n n' E0 E1 E2 E3.
  pose proof (to_N_lt x). pose proof (to_N_lt y). pose proof (to_N_lt z).
  pose proof (to_N_lt x'). pose proof (to_N_lt y'). pose proof (to_N_lt z').
  assert (Hn : n = n') by (rewrite (digits_24 n), (digits_24 n'); congruence).
  unfold n, n' in Hn.
  repeat split; apply to_N_inj; lia.
Qed.

Lemma b64_digits_2 (x y x' y' : byte) :
  let n := (Byte.to_N x * 256 + Byte.to_N y)%N in
  let n' := (Byte.to_N x' * 256 + Byte.to_N y')%N in
  (n / 1024 = n' / 1024 -> n / 16 mod 64 = n' / 16 mod 64 ->
   n mod 16 * 4 = n' mod 16 * 4 ->
   x = x' /\ y = y')%N.
Proof.
  intros n n' E0 E1 E2.
  pose proof (to_N_lt x). pose proof (to_N_lt y).
  pose proof (to_N_lt x'). pose proof (to_N_lt y').
  assert (Hn : (n * 4 = n' * 4)%N).
  { rewrite (digits_16 n), (digits_16 n') by (unfold n, n'; lia). congruence. }
  unfold n, n' in Hn.
  repeat split; apply to_N_inj; lia.
Qed.

Lemma b64_digits_1 (x x' : byte) :
  (Byte.to_N x / 4 = Byte.to_N x' / 4 ->
   Byte.to_N x mod 4 * 16 = Byte.to_N x' mod 4 * 16 -> x = x')%N.
Proof. intros E0 E1. apply to_N_inj. div_lia. Qed.

Lemma b64encode_inj (a b : pybytes) : b64encode a = b64encode b -> a = b.
Proof.
  revert b. induction a as [|x|x y|x y z a IH] using list_ind3;
    intros [|x' [|y' [|z' b]]] E; cbn [b64encode] in E; try discriminate E;
    try reflexivity; cbv zeta in E.
  all: pose proof (to_N_lt x); pose proof (to_N_lt x');
    try pose proof (to_N_lt y); try pose proof (to_N_lt y');
    try pose proof (to_N_lt z); try pose proof (to_N_lt z').
  all: injection E; clear E; intros.
  all: try (match goal with
            | E : b64_char ?i = b64_pad |- _ =>
              exfalso; apply (b64_char_not_pad i); [|exact E]
            | E : b64_pad = b64_char ?i |- _ =>
              exfalso; apply (b64_char_not_pad i); [|exact (eq_sym E)]
            end; first [apply N.mod_lt; lia | div_lia]).
  all: repeat match goal with
              | E : b64_char _ = b64_char _ |- _ =>
                apply b64_char_inj in E; [|first [apply N.mod_lt; lia | div_lia]..]
              end.
  - f_equal. by apply b64_digits_1.
  - match goal with
    | E0 : _, E1 : _, E2 : _ |- _ =>
      destruct (b64_digits_2 x y x' y' E0 E1 E2) as [-> ->]
    end. reflexivity.
  - match goal with
    | E0 : _, E1 : _, E2 : _, E3 : _ |- _ =>
      destruct (b64_digits_3 x y z x' y' z' E0 E1 E2 E3) as (-> & -> & ->)
    end.
    do 3 f_equal. by apply IH.
Qed.

Lemma b64encode_length (a : pybytes) :
  length (b64encode a) = (4 * ((length a + 2) / 3))%nat.
Proof.
  induction a as [|x|x y|x y z a IH] using list_ind3; try reflexivity.
  cbn [b64encode length]. rewrite IH.
  replace (S (S (S (length a))) + 2)%nat with (length a + 2 + 1 * 3)%nat by lia.
  rewrite Nat.div_add by lia. lia.
Qed.

(** X21. Base64 loses nothing: different bytes have different encodings.
    An encoding has four characters for every three bytes, the last group
    filled up. *)
Theorem b64encode_lossless (a b : pybytes) :
  a <> b ->
  b64encode a <> b64encode b
  /\ length (b64encode a) = (4 * ((length a + 2) / 3))%nat.
Proof.
  intros Hne. split; [|apply b64encode_length].
  intros E. by apply Hne, b64encode_inj.
Qed.

(** ** The output types of a model and the metrics made from functions *)

(** X22. [ModelOutputType.to_str] knows every member, so that it never
    raises [KeyError] on one: it gives the name of the member in lower
    case, a different string for each member. The values of the members
    count them from 1 in the order of their definition. *)
Theorem to_str_of_members (enm enm' : clu_metrics.ModelOutputType) :
  clu_metrics.to_str enm = Some (ascii_lower (clu_metrics.name enm))
  /\ (clu_metrics.to_str enm = clu_metrics.to_str enm' -> enm = enm')
  /\ clu_metrics.value <$> clu_metrics.members = [1; 2; 3; 4]
  /\ enm ∈ clu_metrics.members.
Proof.
  split; [by destruct enm|]. split; [|split; [reflexivity|]].
  - destruct enm, enm'; try reflexivity; intros E; vm_compute in E; discriminate E.
  - destruct enm; unfold clu_metrics.members;
      repeat first [apply list_elem_of_here | apply list_elem_of_further].
Qed.

Lemma known_pos_args_functional (pos : list pystr) (t t' : clu_metrics.ModelOutputType) :
  (pos, t) ∈ known_pos_args -> (pos, t') ∈ known_pos_args -> t = t'.
Proof.
  unfold known_pos_args. lit_eval. intros Hin Hin'.
  repeat (apply elem_of_cons in Hin as [Hin|Hin]);
    repeat (apply elem_of_cons in Hin' as [Hin'|Hin']);
    try (by apply elem_of_nil in Hin); try (by apply elem_of_nil in Hin');
    by simplify_eq.
Qed.

Lemma empty_cases (metric_fn : clu_metrics.function)
    (postprocess_fn : option clu_metrics.function) :
  (exists t, (clu_metrics.pos_args metric_fn, t) ∈ known_pos_args
             /\ clu_metrics.empty metric_fn postprocess_fn
                = Ok (clu_metrics.mk_LegacyMetricClu metric_fn postprocess_fn t []))
  \/ ((clu_metrics.pos_args metric_fn ∉ (known_pos_args.*1))
      /\ clu_metrics.empty metric_fn postprocess_fn = Raise ValueError).
Proof.
  unfold clu_metrics.empty. cbv zeta.
  destruct (decide (clu_metrics.pos_args metric_fn = [lit "targets"; lit "scores"]))
    as [E1|N1].
  { left. exists clu_metrics.SCORE. rewrite E1. split; [|done].
    unfold known_pos_args. repeat first [apply list_elem_of_here | apply list_elem_of_further]. }
  rewrite (bool_decide_eq_false_2 _ N1).
  destruct (decide (clu_metrics.pos_args metric_fn = [lit "targets"; lit "predictions"]))
    as [E2|N2].
  { left. exists clu_metrics.PREDICTION. rewrite E2. split; [|done].
    unfold known_pos_args. repeat first [apply list_elem_of_here | apply list_elem_of_further]. }
  rewrite (bool_decide_eq_false_2 _ N2).
  destruct (decide (clu_metrics.pos_args metric_fn
                    = [lit "targets"; lit "predictions"; lit "aux_values"]))
    as [E3|N3].
  { left. exists clu_metrics.PREDICTION_WITH_AUX. rewrite E3. split; [|done].
    unfold known_pos_args. repeat first [apply list_elem_of_here | apply list_elem_of_further]. }
  rewrite (bool_decide_eq_false_2 _ N3).
  right. split; [|done]. unfold known_pos_args. cbn [fmap list_fmap fst].
  intros Hin. repeat (apply elem_of_cons in Hin as [Hin|Hin]); try done.
  by apply elem_of_nil in Hin.
Qed.

(** X23. [LegacyMetricClu.empty] tells the output type from the names
    of the parameters of the metric function that have no default, taken in
    order: [targets, scores], [targets, predictions] or [targets,
    predictions, aux_values]. For these it returns a metric that holds the
    two functions and no keyword argument yet; for anything else it raises
    [ValueError]. The type [SCORE_WITH_INTERMEDIATES] is never given. *)
Theorem legacy_metric_empty (metric_fn : clu_metrics.function)
    (postprocess_fn : option clu_metrics.function) :
  let pos := clu_metrics.pos_args metric_fn in
  let r := clu_metrics.empty metric_fn postprocess_fn in
  (forall t, (pos, t) ∈ known_pos_args ->
             r = Ok (clu_metrics.mk_LegacyMetricClu metric_fn postprocess_fn t []))
  /\ ((pos ∉ (known_pos_args.*1)) -> r = Raise ValueError)
  /\ (forall m, r = Ok m ->
        clu_metrics.model_output_type m <> clu_metrics.SCORE_WITH_INTERMEDIATES
        /\ clu_metrics.metric_fn_kwargs m = []
        /\ clu_metrics._metric_fn m = metric_fn
        /\ clu_metrics._postprocess_fn m = postprocess_fn).
Proof.
  intros pos r. subst pos r.
  destruct (empty_cases metric_fn postprocess_fn) as [(t & Hin & ->)|[Hnin ->]].
  - split; [|split].
    + intros t' Hin'. do 2 f_equal. by apply (known_pos_args_functional _ _ _ Hin Hin').
    + intros Hnin. destruct Hnin. apply list_elem_of_fmap. by exists (clu_metrics.pos_args metric_fn, t).
    + intros m [= <-]. cbn. repeat split; try done.
      unfold known_pos_args in Hin.
      repeat (apply elem_of_cons in Hin as [Hin|Hin]);
        try (by apply elem_of_nil in Hin); congruence.
  - split; [|split; [done|discriminate]].
    intros t Hin. destruct Hnin. apply list_elem_of_fmap. by exists (clu_metrics.pos_args metric_fn, t).
Qed.

(** X24. A parameter of the metric function that has no default and is
    not named [targets], [scores], [predictions] or [aux_values] makes
    [LegacyMetricClu.empty] raise [ValueError], whatever its kind: a
    keyword-only parameter, [*args] or [**kwargs] as much as a positional
    one. *)
Theorem legacy_metric_rejects (metric_fn : clu_metrics.function)
    (postprocess_fn : option clu_metrics.function) (p : clu_metrics.param) :
  p ∈ clu_metrics.parameters metric_fn ->
  clu_metrics.param_default p = None ->
  clu_metrics.param_name p
    ∉ [lit "targets"; lit "scores"; lit "predictions"; lit "aux_values"] ->
  clu_metrics.empty metric_fn postprocess_fn = Raise ValueError.
Proof.
  intros Hin Hdef Hname.
  destruct (empty_cases metric_fn postprocess_fn) as [(t & Ht & _)|[_ ->]]; [|done].
  exfalso. apply Hname.
  assert (Hp : clu_metrics.param_name p ∈ clu_metrics.pos_args metric_fn).
  { unfold clu_metrics.pos_args. apply list_elem_of_fmap. exists p. split; [done|].
    by apply list_elem_of_filter. }
  unfold known_pos_args in Ht.
  repeat (apply elem_of_cons in Ht as [Ht|Ht]); try (by apply elem_of_nil in Ht);
    injection Ht as Ht _; rewrite Ht in Hp;
    repeat (apply elem_of_cons in Hp as [->|Hp];
            [repeat first [apply list_elem_of_here | apply list_elem_of_further]|]);
    by apply elem_of_nil in Hp.
Qed.

(** ** [from_model_output] *)

Section FromModelOutput.

Context {V : Type} {Voc : clu_metrics.Vocabulary V} {Py : clu_metrics.Interpreter}.

Lemma outcome_mapM_Forall2 {A B} (f : A -> clu_metrics.outcome B) (l : list A) (k : list B) :
  mapM f l = clu_metrics.Returns k
  <-> Forall2 (fun x y => f x = clu_metrics.Returns y) l k.
Proof.
  revert k. induction l as [|x l IH]; intros k.
  - split.
    + intros [= <-]. constructor.
    + intros H. by inversion H.
  - cbn [mapM]. split.
    + destruct (f x) as [y|e] eqn:E; [|discriminate]. cbn.
      destruct (mapM f l) as [k'|e] eqn:E'; [|discriminate]. cbn.
      intros [= <-]. constructor; [done|]. by apply IH.
    + intros H. inversion H as [|? y ? k' Hy Hk]; subst.
      rewrite Hy. cbn. apply IH in Hk. rewrite Hk. done.
Qed.

Lemma outcome_mapM_length {A B} (f : A -> clu_metrics.outcome B) (l : list A) (k : list B) :
  mapM f l = clu_metrics.Returns k -> length k = length l.
Proof. intros H. apply outcome_mapM_Forall2 in H. symmetry. by eapply Forall2_length. Qed.

Lemma postprocess_fn_None (self : clu_metrics.LegacyMetricClu) (x : pyobj)
    (kwargs : list (pystr * pyobj)) :
  clu_metrics._postprocess_fn self = None ->
  clu_metrics.postprocess_fn self x kwargs = clu_metrics.Returns x.
Proof. intros H. unfold clu_metrics.postprocess_fn. by rewrite H. Qed.

(** X26. An example that has the field [<target_field_name>_pretokenized]
    gives its target from that field alone: neither the feature nor its
    vocabulary is asked for, so [features] may even be empty. A [str] is
    taken as it is and [bytes] are taken as the text that they encode in
    UTF-8. For a metric of scores without a postprocessing function the
    call returns, with these texts as [targets] and the model output, as it
    was given, as [scores]. *)
Theorem pretokenized_targets (self : clu_metrics.LegacyMetricClu)
    (inputs : list (list (pystr * pyobj))) (model_output : pyobj)
    (features : list (pystr * clu_metrics.Feature V)) (target_field_name : option pystr)
    (texts : list pystr) :
  let field := default (lit "targets") target_field_name ++ lit "_pretokenized" in
  clu_metrics._postprocess_fn self = None ->
  clu_metrics.model_output_type self = clu_metrics.SCORE ->
  Forall2 (fun ex s => dict_get ex field = Some (PStr s)
                       \/ exists b, dict_get ex field = Some (PBytes b)
                                    /\ utf8_encode s = Some b) inputs texts ->
  clu_metrics.from_model_output self inputs model_output features target_field_name
  = (clu_metrics.Returns tt,
     clu_metrics.set_kwarg
       (clu_metrics.set_kwarg self (lit "targets") (PList (PStr <$> texts)))
       (lit "scores") model_output).
Proof.
  intros field Hpp Ht HF.
  assert (Hm : mapM (clu_metrics.target_of_example self features
                       (default (lit "targets") target_field_name)) inputs
               = clu_metrics.Returns (PStr <$> texts)).
  { apply outcome_mapM_Forall2, Forall2_fmap_r.
    eapply Forall2_impl; [exact HF|]. intros ex s H.
    unfold clu_metrics.target_of_example. fold field.
    assert (Hin : is_Some (dict_get ex field)) by (destruct H as [->|(b & -> & _)]; eauto).
    rewrite (bool_decide_eq_true_2 _ Hin). unfold clu_metrics.item.
    destruct H as [->|(b & -> & Hb)]; cbn.
    - by apply postprocess_fn_None.
    - apply utf8_decode_iff_encode in Hb. rewrite Hb. cbn. by apply postprocess_fn_None. }
  unfold clu_metrics.from_model_output. rewrite Hm.
  cbn [clu_metrics.model_output_type clu_metrics.set_kwarg]. by rewrite Ht.
Qed.

(** X27. A metric of type [SCORE_WITH_INTERMEDIATES] never gets through
    [from_model_output]: the call raises. When the targets can be worked
    out and [features] has [targets], what it raises is [UnboundLocalError]
    for [predictions], and by then the metric has got its [targets]; nothing
    else of it has changed. *)
Theorem score_with_intermediates_raises (self : clu_metrics.LegacyMetricClu)
    (inputs : list (list (pystr * pyobj))) (model_output : pyobj)
    (features : list (pystr * clu_metrics.Feature V)) (target_field_name : option pystr) :
  let r := clu_metrics.from_model_output self inputs model_output features
             target_field_name in
  clu_metrics.model_output_type self = clu_metrics.SCORE_WITH_INTERMEDIATES ->
  (exists e, r.1 = clu_metrics.Raises e)
  /\ (forall ts, mapM (clu_metrics.target_of_example self features
                         (default (lit "targets") target_field_name)) inputs
                 = clu_metrics.Returns ts ->
                 is_Some (dict_get features (lit "targets")) ->
                 r = (clu_metrics.Raises (clu_metrics.UnboundLocalError (lit "predictions")),
                      clu_metrics.set_kwarg self (lit "targets") (PList ts))).
Proof.
  intros r Ht. subst r. unfold clu_metrics.from_model_output.
  destruct (mapM _ inputs) as [ts|e] eqn:Em.
  - cbn [clu_metrics.model_output_type clu_metrics.set_kwarg]. rewrite Ht.
    unfold clu_metrics.item.
    destruct (dict_get features (lit "targets")) as [feature|] eqn:Ef; cbn.
    + split; [by eexists|]. by intros ts' [= <-] _.
    + split; [by eexists|]. intros ts' _ [? [=]].
  - split; [by eexists|]. intros ts [=].
Qed.

(** X28. The predictions are decoded with the vocabulary of
    [features["targets"]], whatever [target_field_name] is. So when the
    targets have been worked out from another field and [features] has no
    [targets], a metric of scores returns, and a metric of any other type
    raises [KeyError] for [targets], after the metric has got its [targets]
    and before the model output is looked at. *)
Theorem predictions_need_targets_feature (self : clu_metrics.LegacyMetricClu)
    (inputs : list (list (pystr * pyobj))) (model_output : pyobj)
    (features : list (pystr * clu_metrics.Feature V)) (target_field_name : option pystr)
    (ts : list pyobj) :
  let with_targets := clu_metrics.set_kwarg self (lit "targets") (PList ts) in
  mapM (clu_metrics.target_of_example self features
          (default (lit "targets") target_field_name)) inputs
  = clu_metrics.Returns ts ->
  dict_get features (lit "targets") = None ->
  clu_metrics.from_model_output self inputs model_output features target_field_name
  = if bool_decide (clu_metrics.model_output_type self = clu_metrics.SCORE)
    then (clu_metrics.Returns tt,
          clu_metrics.set_kwarg with_targets (lit "scores") model_output)
    else (clu_metrics.Raises (clu_metrics.KeyError (lit "targets")), with_targets).
Proof.
  intros with_targets Hm Hf. subst with_targets.
  unfold clu_metrics.from_model_output. rewrite Hm.
  cbn [clu_metrics.model_output_type clu_metrics.set_kwarg].
  unfold clu_metrics.item. rewrite Hf.
  by destruct (clu_metrics.model_output_type self).
Qed.

Lemma dict_get_set_eq {A} (d : list (pystr * A)) (k : pystr) (v : A) :
  dict_get (dict_set d k v) k = Some v.
Proof.
  induction d as [|[k' v'] d IH]; cbn [dict_set dict_get].
  - by rewrite bool_decide_eq_true_2.
  - case_bool_decide as E; cbn [dict_get].
    + by rewrite bool_decide_eq_true_2.
    + by rewrite (bool_decide_eq_false_2 _ E).
Qed.

Lemma dict_get_set_ne {A} (d : list (pystr * A)) (k k' : pystr) (v : A) :
  k <> k' -> dict_get (dict_set d k v) k' = dict_get d k'.
Proof.
  intros Hne. induction d as [|[k0 v0] d IH]; cbn [dict_set dict_get].
  - by rewrite (bool_decide_eq_false_2 _ Hne).
  - case_bool_decide as E; cbn [dict_get].
    + subst k0. by rewrite !(bool_decide_eq_false_2 _ Hne).
    + by rewrite IH.
Qed.

(** X29. The predictions are paired with the examples by [zip]. When a
    metric of predictions (with or without auxiliary values) returns, it
    has one target for every example, and as many predictions as there are
    examples or rows of the model output, whichever is fewer: rows beyond
    the examples are decoded and then dropped, and rows that are missing
    leave fewer predictions than targets, without an error. *)
Theorem predictions_zip (self self' : clu_metrics.LegacyMetricClu)
    (inputs : list (list (pystr * pyobj))) (model_output : pyobj)
    (features : list (pystr * clu_metrics.Feature V)) (target_field_name : option pystr)
    (rows : list pyobj) :
  clu_metrics.from_model_output self inputs model_output features target_field_name
  = (clu_metrics.Returns tt, self') ->
  (clu_metrics.model_output_type self = clu_metrics.PREDICTION
   /\ clu_metrics.py_iter model_output = clu_metrics.Returns rows)
  \/ (clu_metrics.model_output_type self = clu_metrics.PREDICTION_WITH_AUX
      /\ exists first, clu_metrics.py_getitem model_output 0 = clu_metrics.Returns first
                       /\ clu_metrics.py_iter first = clu_metrics.Returns rows) ->
  exists ts ps,
    dict_get (clu_metrics.metric_fn_kwargs self') (lit "targets") = Some (PList ts)
    /\ dict_get (clu_metrics.metric_fn_kwargs self') (lit "predictions") = Some (PList ps)
    /\ length ts = length inputs
    /\ length ps = Nat.min (length inputs) (length rows).
Proof.
  intros Hr Hrows. unfold clu_metrics.from_model_output in Hr.
  destruct (mapM _ inputs) as [ts|e] eqn:Em; [|discriminate].
  apply outcome_mapM_length in Em.
  assert (Htp : lit "targets" <> lit "predictions") by (vm_compute; discriminate).
  assert (Hta : lit "targets" <> lit "aux_values") by (vm_compute; discriminate).
  assert (Hap : lit "aux_values" <> lit "predictions") by (vm_compute; discriminate).
  cbn [clu_metrics.model_output_type clu_metrics.set_kwarg] in Hr.
  destruct Hrows as [[Ht Hit]|(Ht & first & H0 & Hit)]; rewrite Ht in Hr;
    destruct (clu_metrics.item features (lit "targets")) as [feature|e]; try discriminate.
  - rewrite Hit in Hr. cbn [mbind clu_metrics.outcome_bind] in Hr.
    destruct (mapM (clu_metrics.decode _) rows) as [decoded|e] eqn:Ed; [|discriminate].
    apply outcome_mapM_length in Ed. cbn [mbind clu_metrics.outcome_bind] in Hr.
    destruct (mapM _ (zip inputs decoded)) as [ps|e] eqn:Ep; [|discriminate].
    apply outcome_mapM_length in Ep. injection Hr as <-.
    exists ts, ps. cbn [clu_metrics.metric_fn_kwargs clu_metrics.set_kwarg].
    rewrite (dict_get_set_ne _ _ _ _ (not_eq_sym Htp)), !dict_get_set_eq.
    repeat split; [done|]. by rewrite Ep, length_zip_with, Ed.
  - destruct (clu_metrics.py_getitem model_output 1) as [aux|e]; [|discriminate].
    rewrite H0 in Hr. cbn [mbind clu_metrics.outcome_bind] in Hr.
    rewrite Hit in Hr. cbn [mbind clu_metrics.outcome_bind] in Hr.
    destruct (mapM (clu_metrics.decode _) rows) as [decoded|e] eqn:Ed; [|discriminate].
    apply outcome_mapM_length in Ed. cbn [mbind clu_metrics.outcome_bind] in Hr.
    destruct (mapM _ (zip inputs decoded)) as [ps|e] eqn:Ep; [|discriminate].
    apply outcome_mapM_length in Ep. injection Hr as <-.
    exists ts, ps. cbn [clu_metrics.metric_fn_kwargs clu_metrics.set_kwarg].
    rewrite (dict_get_set_ne _ _ _ _ (not_eq_sym Htp)),
      (dict_get_set_ne _ _ _ _ (not_eq_sym Hta)), !dict_get_set_eq.
    repeat split; [done|]. by rewrite Ep, length_zip_with, Ed.
Qed.

Lemma as_text_Returns (a t : pyobj) :
  clu_metrics.as_text a = clu_metrics.Returns t ->
  exists s, t = PStr s
            /\ (a = PStr s \/ exists b, a = PBytes b /\ utf8_encode s = Some b).
Proof.
  intros H. destruct a; cbn [clu_metrics.as_text] in H; try discriminate H.
  - injection H as <-. exists s. split; [done|by left].
  - destruct (utf8_decode b) as [s|] eqn:E; [|discriminate]. injection H as <-.
    apply utf8_decode_iff_encode in E. exists s. split; [done|]. right. by exists b.
Qed.

Lemma as_text_texts (elems ts : list pyobj) :
  mapM clu_metrics.as_text elems = clu_metrics.Returns ts ->
  exists texts, ts = PStr <$> texts
    /\ Forall2 (fun a s => a = PStr s \/ exists b, a = PBytes b /\ utf8_encode s = Some b)
         elems texts.
Proof.
  intros H. apply outcome_mapM_Forall2 in H.
  induction H as [|a t elems ts Ha _ (texts & -> & IH)].
  - exists []. split; [done|constructor].
  - apply as_text_Returns in Ha as (s & -> & Ha).
    exists (s :: texts). split; [done|]. by constructor.
Qed.

(** X30. When [Squad.from_model_output] returns, the metric is of type
    [PREDICTION] and holds [targets] and [predictions], in this order and
    nothing else. There is a target for every example, the list of its
    [answers] as texts ([bytes] decoded from UTF-8), and a prediction for
    every row of the model output, decoded with the vocabulary of
    [features["targets"]]: the rows are not paired with the examples, and
    [target_field_name] is not used. *)
Theorem squad_from_model_output (inputs : list (list (pystr * pyobj)))
    (model_output : pyobj) (features : list (pystr * clu_metrics.Feature V))
    (target_field_name : option pystr) (squad : clu_metrics.Squad) :
  clu_metrics.Squad_from_model_output inputs model_output features target_field_name
  = clu_metrics.Returns squad ->
  exists ts ps rows feature,
    squad = clu_metrics.mk_Squad [(lit "targets", PList ts); (lit "predictions", PList ps)]
              clu_metrics.PREDICTION
    /\ dict_get features (lit "targets") = Some feature
    /\ clu_metrics.py_iter model_output = clu_metrics.Returns rows
    /\ Forall2 (fun row p => clu_metrics.decode (clu_metrics.vocabulary feature) row
                             = clu_metrics.Returns p) rows ps
    /\ Forall2 (fun ex t =>
                  exists answers elems texts,
                    dict_get ex (lit "answers") = Some answers
                    /\ clu_metrics.py_iter answers = clu_metrics.Returns elems
                    /\ Forall2 (fun a s => a = PStr s
                                  \/ exists b, a = PBytes b /\ utf8_encode s = Some b)
                         elems texts
                    /\ t = PList (PStr <$> texts)) inputs ts.
Proof.
  unfold clu_metrics.Squad_from_model_output. intros H.
  destruct (mapM _ inputs) as [ts|e] eqn:Ets; [|discriminate].
  cbn [mbind clu_metrics.outcome_bind] in H. unfold clu_metrics.item in H.
  destruct (dict_get features (lit "targets")) as [feature|] eqn:Ef; [|discriminate].
  cbn [mbind clu_metrics.outcome_bind] in H.
  destruct (clu_metrics.py_iter model_output) as [rows|e] eqn:Er; [|discriminate].
  cbn [mbind clu_metrics.outcome_bind] in H.
  destruct (mapM _ rows) as [ps|e] eqn:Eps; [|discriminate].
  cbn [mbind clu_metrics.outcome_bind] in H. injection H as <-.
  exists ts, ps, rows, feature.
  split; [reflexivity|].
  split; [done|]. split; [done|]. split; [by apply outcome_mapM_Forall2|].
  apply outcome_mapM_Forall2 in Ets.
  eapply Forall2_impl; [exact Ets|]. cbn beta. intros ex t Ht.
  unfold clu_metrics.item in Ht.
  destruct (dict_get ex (lit "answers")) as [answers|]; [|discriminate].
  cbn [mbind clu_metrics.outcome_bind] in Ht.
  destruct (clu_metrics.py_iter answers) as [elems|e] eqn:Ei; [|discriminate].
  cbn [mbind clu_metrics.outcome_bind] in Ht.
  destruct (mapM clu_metrics.as_text elems) as [ts0|e] eqn:E0; [|discriminate].
  unfold fmap, clu_metrics.outcome_fmap in Ht. injection Ht as <-.
  apply as_text_texts in E0 as (texts & -> & Htexts).
  by exists answers, elems, texts.
Qed.

End FromModelOutput.
End Loggers.

(** ** The dataclasses of the metrics *)

(** C7. The module declares [MetricValue], a dataclass without fields, and
    six dataclasses under it and no other class under it: [Scalar] with a
    value that is an int or a float, [Text] with a textdata that is a str
    or bytes, [Image] with an array and [max_outputs] (3 by default),
    [Audio] with an array, [sample_rate] (44100 by default) and
    [max_outputs] (3 by default), [Histogram] with an array and optional
    [bins] ([None] by default), [Generic] with an array and the metadata
    of a summary. An instance of any of them is a [MetricValue]. *)
Theorem metric_value_variants :
  filter (fun c => metrics.issubclass c metrics.CMetricValue = true
                   /\ c <> metrics.CMetricValue) metrics.all_classes
  = [metrics.CScalar; metrics.CText; metrics.CImage; metrics.CAudio;
     metrics.CHistogram; metrics.CGeneric]
  /\ Forall (fun c => metrics.bases c = [metrics.Declared metrics.CMetricValue]
                      /\ metrics.decorators c = [metrics.dataclasses_dataclass false])
       [metrics.CScalar; metrics.CText; metrics.CImage; metrics.CAudio;
        metrics.CHistogram; metrics.CGeneric]
  /\ metrics.decorators metrics.CMetricValue = [metrics.dataclasses_dataclass false]
  /\ metrics.fields metrics.CMetricValue = []
  /\ (metrics.field_name <$> metrics.fields metrics.CScalar = ["value"%string]
      /\ metrics.field_name <$> metrics.fields metrics.CText = ["textdata"%string]
      /\ metrics.field_name <$> metrics.fields metrics.CImage
         = ["image"; "max_outputs"]%string
      /\ metrics.field_name <$> metrics.fields metrics.CAudio
         = ["audiodata"; "sample_rate"; "max_outputs"]%string
      /\ metrics.field_name <$> metrics.fields metrics.CHistogram
         = ["values"; "bins"]%string
      /\ metrics.field_name <$> metrics.fields metrics.CGeneric
         = ["tensor"; "metadata"]%string)
  /\ (metrics.field_type <$> metrics.fields metrics.CScalar = ["Union[int, float]"%string]
      /\ metrics.field_type <$> metrics.fields metrics.CText
         = ["Union[str, bytes]"%string]
      /\ metrics.field_type <$> metrics.fields metrics.CImage
         = ["np.ndarray"; "int"]%string
      /\ metrics.field_type <$> metrics.fields metrics.CAudio
         = ["np.ndarray"; "int"; "int"]%string
      /\ metrics.field_type <$> metrics.fields metrics.CHistogram
         = ["np.ndarray"; "Optional[int]"]%string
      /\ metrics.field_type <$> metrics.fields metrics.CGeneric
         = ["np.ndarray"; "tf.compat.v1.SummaryMetadata"]%string)
  /\ (forall image, metrics.Image_init image None = metrics.Image image 3)
  /\ (forall audiodata,
        metrics.Audio_init audiodata None None = metrics.Audio audiodata 44100 3)
  /\ (forall values, metrics.Histogram_init values None = metrics.Histogram values None)
  /\ (forall c, metrics.field_default <$> metrics.fields c
                = (fun _ => None) <$> metrics.fields c
                <-> c <> metrics.CImage /\ c <> metrics.CAudio /\ c <> metrics.CHistogram
                    /\ c <> metrics.CFeature /\ c <> metrics.CSquad)
  /\ (forall v : metrics.MetricValue,
        metrics.isinstance v metrics.CMetricValue = true
        /\ (metrics.class_of v = metrics.CMetricValue
            \/ metrics.class_of v ∈ [metrics.CScalar; metrics.CText; metrics.CImage;
                                     metrics.CAudio; metrics.CHistogram;
                                     metrics.CGeneric])).
Proof.
  split; [reflexivity|]. split; [by repeat constructor|].
  split; [reflexivity|]. split; [reflexivity|].
  split; [by repeat split|]. split; [by repeat split|].
  split; [reflexivity|]. split; [reflexivity|]. split; [reflexivity|].
  split.
  - intros c. split.
    + intros E. destruct c; try discriminate; repeat split; discriminate.
    + intros (? & ? & ? & ? & ?). by destruct c.
  - intros v. split; [by destruct v|].
    destruct v; [by left|right..]; set_solver.
Qed.

(** ** The theorems at work *)

(** C1 at work: an array of six elements and an array of forty. *)
Lemma ndarray_default_witness :
  let self := TensorAndNumpyEncoder_init None in
  (Z.of_nat (nd_size example_small) <= max_ndarray_size self
   /\ TensorAndNumpyEncoder_default example_repr self (PNdarray example_small)
      = Ok (PList [PList [PInt 1; PInt 2; PInt 3]; PList [PInt 4; PInt 5; PInt 6]]))
  /\ (max_ndarray_size self < Z.of_nat (nd_size example_large)
      /\ 5 <= max_ndarray_size self
      /\ TensorAndNumpyEncoder_default example_repr self (PNdarray example_large)
         = Ok (PStr (lit "ndarray(shape=(40,), dtype=int64); first: 0, 1, 2, 3, 4 ...")))
  /\ (let two := TensorAndNumpyEncoder_init (Some 2) in
      let few := mk_ndarray (lit "ndarray") [3%nat] (NInt true W64 [7; 8; 9]) in
      max_ndarray_size two < Z.of_nat (nd_size few)
      /\ (length (flat_tolist (nd_data few)) <= 5)%nat
      /\ take 5 (flat_tolist (nd_data few)) = [PInt 7; PInt 8; PInt 9]).
Proof.
  intros self.
  assert (Hsmall : Z.of_nat (nd_size example_small) <= max_ndarray_size self)
    by (vm_compute; discriminate).
  assert (Hlarge : max_ndarray_size self < Z.of_nat (nd_size example_large))
    by (vm_compute; reflexivity).
  assert (Hfive : 5 <= max_ndarray_size self) by (vm_compute; discriminate).
  split; [split; [exact Hsmall|] | split; [split; [exact Hlarge | split; [exact Hfive|]]|]].
  - rewrite (proj1 (ndarray_default example_repr self example_small) Hsmall).
    reflexivity.
  - rewrite (proj1 (proj2 (ndarray_default example_repr self example_large) Hlarge)).
    reflexivity.
  - intros two few.
    assert (Hover : max_ndarray_size two < Z.of_nat (nd_size few)) by reflexivity.
    assert (Hfew : (length (flat_tolist (nd_data few)) <= 5)%nat) by (vm_compute; lia).
    split; [exact Hover|]. split; [exact Hfew|].
    destruct (proj2 (ndarray_default example_repr two few) Hover) as (_ & _ & _ & _ & Hall).
    etrans; [exact (Hall Hfew) | reflexivity].
Defined.

(** C1 as stated fails on an array of three elements under a limit of
    two: the string that stands for it shows all that it holds. *)
Lemma summary_shows_all :
  let self := TensorAndNumpyEncoder_init (Some 2) in
  let a := mk_ndarray (lit "ndarray") [3%nat] (NInt true W64 [7; 8; 9]) in
  max_ndarray_size self < Z.of_nat (nd_size a)
  /\ tolist a = PList [PInt 7; PInt 8; PInt 9]
  /\ TensorAndNumpyEncoder_default example_repr self (PNdarray a)
     = Ok (PStr (lit "ndarray(shape=(3,), dtype=int64); first: 7, 8, 9 ..."))
  /\ take 5 (flat_tolist (nd_data a)) = flat_tolist (nd_data a).
Proof. intros self a. repeat split; by vm_compute. Qed.

(** C2 as stated fails on a numpy complex number: [default] returns the
    [complex] of Python, on which the encoder then raises
    [AttributeError]. *)
Lemma complex_scalar_not_serializable :
  let default := TensorAndNumpyEncoder_default example_repr (TensorAndNumpyEncoder_init None) in
  let one := FFinite false 1 0 in
  let z := PNpScalar (SComplex C128 one one) in
  issubdtype_number z = true
  /\ default z = Ok (PComplex one one)
  /\ json_dumps example_repr 1000 default (PComplex one one) = Raise AttributeError
  /\ ~ (exists v, default z = Ok v
                  /\ is_ok (json_dumps example_repr 1000 default v) = true).
Proof.
  intros default one z. repeat split; try reflexivity.
  intros (v & Hv & Hok). vm_compute in Hv. injection Hv as <-.
  vm_compute in Hok. discriminate.
Qed.

(** C2, amended, at work: an array of ints; an array of two complex
    numbers, under the limit of 32 and over a limit of 1; a set; bytes. *)
Lemma default_on_real_numeric_witness :
  let self := TensorAndNumpyEncoder_init None in
  let one := TensorAndNumpyEncoder_init (Some 1) in
  let default := TensorAndNumpyEncoder_default example_repr self in
  let i := FFinite false 1 0 in
  let z := mk_ndarray (lit "ndarray") [2%nat] (NComplex C128 [(i, i); (i, FFinite false 0 0)]) in
  (real_numeric (PNdarray example_small) = true
   /\ exists v, default (PNdarray example_small) = Ok v
                /\ is_ok (json_dumps example_repr 1000 default v) = true)
  /\ (complex_numeric (PNdarray z) = true
      /\ (exists v, default (PNdarray z) = Ok v
                    /\ is_ok (json_dumps example_repr 1000 default v) = false)
      /\ (exists v, TensorAndNumpyEncoder_default example_repr one (PNdarray z) = Ok v
                    /\ is_ok (json_dumps example_repr 1000
                                (TensorAndNumpyEncoder_default example_repr one) v) = true))
  /\ (handled_type (PObject (lit "set")) = false
      /\ builtin_number (PObject (lit "set")) = false
      /\ default (PObject (lit "set")) = Raise TypeError)
  /\ (handled_type (PBytes ["h"; "i"]%byte) = true
      /\ well_formed (PBytes ["h"; "i"]%byte) = true
      /\ is_ok (default (PBytes ["h"; "i"]%byte)) = true).
Proof.
  intros self one default i z. split; [|split; [|split]].
  - split; [reflexivity|].
    apply (proj1 (default_on_real_numeric example_repr 1000 self (PNdarray example_small))).
    reflexivity.
  - split; [reflexivity|]. split.
    + apply (proj1 (proj2 (default_on_real_numeric example_repr 1000 self (PNdarray z)))).
      reflexivity.
    + apply (proj1 (proj2 (default_on_real_numeric example_repr 1000 one (PNdarray z)))).
      reflexivity.
  - split; [reflexivity|]. split; [reflexivity|].
    apply (proj1 (proj2 (proj2 (default_on_real_numeric example_repr 1000 self
                                  (PObject (lit "set")))))); reflexivity.
  - split; [reflexivity|]. split; [reflexivity|].
    apply (proj2 (proj2 (proj2 (default_on_real_numeric example_repr 1000 self
                                  (PBytes ["h"; "i"]%byte))))); reflexivity.
Defined.

(** C3 at work: a note of two bytes, a metrics file of one line. *)
Lemma metrics_text_of_bytes_witness :
  let logger := JSONLogger_init example_repr (lit "/out") None None in
  let metrics := [(lit "note", metrics.Text (metrics.Bytes ["h"; "i"]%byte))] in
  let fname := metrics_fname_of logger (lit "task") in
  let w := mk_world {[ fname := lit "old" ++ [10%N] ]} [] [] in
  let r := JSONLogger_call example_repr 1000 logger (lit "task") (Some 1) metrics
             [] [] [] w in
  NoDup metrics.*1
  /\ (lit "note", metrics.Text (metrics.Bytes ["h"; "i"]%byte)) ∈ metrics
  /\ r.1 = Raise TypeError
  /\ w_fs r.2 !! fname = Some (lit "old" ++ [10%N]).
Proof.
  intros logger metrics fname w r.
  assert (Hnd : NoDup metrics.*1) by (apply (bool_decide_unpack _); by vm_compute).
  assert (Hin : (lit "note", metrics.Text (metrics.Bytes ["h"; "i"]%byte)) ∈ metrics)
    by apply list_elem_of_here.
  destruct (metrics_text_of_bytes example_repr 1000 logger (lit "task") (Some 1) metrics
              [] [] [] w _ _ Hnd Hin) as [Hr Hfile].
  split; [exact Hnd|]. split; [exact Hin|]. split; [exact Hr|].
  etrans; [exact Hfile|]. apply lookup_singleton_eq.
Defined.

(** C4 as stated fails on a metric named [step]: its value is written
    where the step argument was to be, and the key comes once. *)
Lemma metric_named_step :
  let logger := JSONLogger_init example_repr (lit "/out") (Some (Some 0)) None in
  let metrics := [(lit "step", metrics.Scalar (metrics.Int 5))] in
  let r := JSONLogger_call example_repr 1000 logger (lit "task") (Some 10) metrics
             [] [] [] empty_world in
  let stated := json_dumps example_repr 1000 JSONEncoder_default
                  (PDict ((lit "step", PInt 10) :: written_metrics metrics)) in
  r.1 = Ok tt
  /\ w_fs r.2 !! metrics_fname_of logger (lit "task")
     = Some ([123; 34; 115; 116; 101; 112; 34; 58; 32; 53; 125; 10]%N)
  /\ forall line, stated = Ok line ->
       w_fs r.2 !! metrics_fname_of logger (lit "task") <> Some (line ++ [10%N]).
Proof.
  intros logger metrics r stated.
  split; [by vm_compute|]. split; [by vm_compute|].
  intros line Hline. vm_compute in Hline. injection Hline as <-.
  vm_compute. discriminate.
Qed.

(** C4, amended, at work: a picture that is named [step], an accuracy and
    a note. *)
Lemma metrics_line_content_witness :
  let logger := JSONLogger_init example_repr (lit "/out") None None in
  let metrics := [(lit "step", metrics.Image example_small 3);
                  (lit "accuracy", metrics.Scalar (metrics.Int 1));
                  (lit "note", metrics.Text (metrics.Str (lit "ok")))] in
  let r := JSONLogger_call example_repr 1000 logger (lit "task") (Some 7) metrics
             [] [] [] empty_world in
  metrics <> []
  /\ NoDup metrics.*1
  /\ Forall (fun item => text_is_str item.2 = true) metrics
  /\ exists line,
       w_fs r.2 !! metrics_fname_of logger (lit "task") = Some (line ++ [10%N])
       /\ json_dumps example_repr 1000 JSONEncoder_default
            (PDict [(lit "step", PInt 7); (lit "accuracy", PInt 1);
                    (lit "note", PStr (lit "ok"))]) = Ok line.
Proof.
  intros logger metrics r.
  assert (Hne : metrics <> []) by discriminate.
  assert (Hnd : NoDup metrics.*1) by (apply (bool_decide_unpack _); by vm_compute).
  assert (Hstr : Forall (fun item => text_is_str item.2 = true) metrics)
    by (repeat constructor).
  destruct (metrics_line_content example_repr 1000 logger (lit "task") (Some 7) metrics
              [] [] [] empty_world Hne Hnd Hstr)
    as (line & first & _ & Hfile & Hline & Hfresh & _).
  split; [exact Hne|]. split; [exact Hnd|]. split; [exact Hstr|].
  exists line. split; [exact Hfile|].
  assert (Hno : lit "step" ∉ (written_metrics metrics).*1)
    by (apply (bool_decide_unpack _); by vm_compute).
  destruct (Hfresh Hno) as [-> Hothers]. rewrite Hothers in Hline. exact Hline.
Defined.

(** C5 at work: two scalars; a scalar and a text. *)
Lemma tensorboard_call_witness :
  let self := TensorBoardLogger_init (lit "/out") in
  let scalars := [(lit "accuracy", metrics.Scalar (metrics.Int 1));
                  (lit "loss", metrics.Scalar (metrics.Float (FFinite false 1 (-1))))] in
  let mixed := [(lit "accuracy", metrics.Scalar (metrics.Int 1));
                (lit "note", metrics.Text (metrics.Str (lit "ok")))] in
  (Exists (fun item => is_Scalar item.2 = false) mixed
   /\ (TensorBoardLogger_call (lit "task") (Some 10) mixed (self, empty_world)).1
      = Raise ValueError)
  /\ (Forall (fun item => is_Scalar item.2 = true) scalars
      /\ let r := TensorBoardLogger_call (lit "task") (Some 10) scalars (self, empty_world) in
         r.1 = Ok tt
         /\ _summary_writers r.2.1 !! lit "task"
            = Some (mk_FileWriter (lit "/out/task") []
                      [mk_event (lit "eval/accuracy") (metrics.Int 1) 10;
                       mk_event (lit "eval/loss") (metrics.Float (FFinite false 1 (-1))) 10])).
Proof.
  intros self scalars mixed. split.
  - assert (Hex : Exists (fun item => is_Scalar item.2 = false) mixed)
      by (apply Exists_cons_tl, Exists_cons_hd; reflexivity).
    split; [exact Hex|].
    exact (proj1 (tensorboard_call self (lit "task") 10 mixed [] [] [] empty_world) Hex).
  - assert (Hall : Forall (fun item => is_Scalar item.2 = true) scalars)
      by (repeat constructor).
    split; [exact Hall|].
    destruct (proj2 (tensorboard_call self (lit "task") 10 scalars [] [] [] empty_world) Hall)
      as (Hr & _ & Hw & _).
    split; [exact Hr|].
    pose proof (f_equal (fun writers => writers !! lit "task") Hw) as Hlook.
    cbv beta in Hlook. rewrite lookup_insert_eq in Hlook. exact Hlook.
Defined.

(** C6 as stated fails when the dataset is the shorter sequence: the entry
    of [zip_longest] has no input, the loop over its keys raises
    [TypeError], and no line is written. *)
Lemma prediction_without_input :
  let logger := JSONLogger_init example_repr (lit "/out") None None in
  let inferences := [(lit "predictions", [PStr (lit "a")])] in
  let r := JSONLogger_call example_repr 1000 logger (lit "task") (Some 3) []
             [] inferences [] empty_world in
  length (entries_of logger [] inferences []) = 1%nat
  /\ r.1 = Raise TypeError
  /\ w_fs r.2 !! inferences_fname_of logger (lit "task") 3 = None.
Proof. intros logger inferences r. repeat split; by vm_compute. Qed.

(** C6, amended, at work: two examples, one of them ragged; a prediction
    that is a string and one that is a set; a single target. *)
Lemma inferences_file_witness :
  let logger := JSONLogger_init example_repr (lit "/out") None None in
  let dataset := [[(lit "inputs", PNdarray example_small)];
                  [(lit "inputs", PRaggedTensor example_large)]] in
  let inferences := [(lit "predictions", [PStr (lit "a"); PObject (lit "set")])] in
  let targets := [PInt 1] in
  let r := JSONLogger_call example_repr 1000 logger (lit "task") None []
             dataset inferences targets empty_world in
  (_write_n_results logger = None
   \/ exists n, _write_n_results logger = Some n /\ 0 < n)
  /\ (JSONLogger_log_metrics example_repr 1000 logger (lit "task") (-1) []
        (entry_world None empty_world)).1 = Ok tt
  /\ Forall (fun e => entry_ok example_repr 1000 logger e = true)
       (entries_of logger dataset inferences targets)
  /\ exists lines,
       length lines = 2%nat
       /\ r.1 = Ok tt
       /\ w_fs r.2 !! inferences_fname_of logger (lit "task") (-1)
          = Some (mjoin ((fun line => line ++ [10%N]) <$> lines)).
Proof.
  intros logger dataset inferences targets r.
  assert (Hn : _write_n_results logger = None
               \/ exists n, _write_n_results logger = Some n /\ 0 < n)
    by (left; reflexivity).
  assert (Hm : (JSONLogger_log_metrics example_repr 1000 logger (lit "task") (-1) []
                  (entry_world None empty_world)).1 = Ok tt) by reflexivity.
  assert (Hall : Forall (fun e => entry_ok example_repr 1000 logger e = true)
                   (entries_of logger dataset inferences targets)).
  { apply Forall_forall. intros e He.
    repeat (apply elem_of_cons in He as [->|He]; [by vm_compute|]).
    by apply elem_of_nil in He. }
  destruct (inferences_file example_repr 1000 logger (lit "task") None [] dataset inferences
              targets empty_world Hn Hm Hall) as (lines & Hr & Hfs & Hlines & _).
  split; [exact Hn|]. split; [exact Hm|]. split; [exact Hall|].
  assert (Hlen : length lines = 2%nat)
    by (symmetry; exact (Forall2_length _ _ _ Hlines)).
  destruct lines as [|line lines]; [discriminate|].
  exists (line :: lines). split; [exact Hlen|]. split; [exact Hr|].
  pose proof (f_equal (fun fs => fs !! inferences_fname_of logger (lit "task") (-1)) Hfs)
    as Hlook.
  cbv beta in Hlook. etrans; [exact Hlook|]. apply lookup_insert_eq.
Defined.

(** C8 at work: an accuracy is logged, two examples are not. *)
Lemma write_n_results_zero_witness :
  let logger := JSONLogger_init example_repr (lit "/out") (Some (Some 0)) None in
  let metrics := [(lit "accuracy", metrics.Scalar (metrics.Int 1))] in
  let dataset := [[(lit "inputs", PNdarray example_small)];
                  [(lit "inputs", PNdarray example_large)]] in
  let r := JSONLogger_call example_repr 1000 logger (lit "task") (Some 7) metrics
             dataset [] [] empty_world in
  _write_n_results logger = Some 0
  /\ r.1 = Ok tt
  /\ is_Some (w_fs r.2 !! metrics_fname_of logger (lit "task"))
  /\ w_fs r.2 !! inferences_fname_of logger (lit "task") 7 = None.
Proof.
  intros logger metrics dataset r.
  assert (Hzero : _write_n_results logger = Some 0) by reflexivity.
  destruct (write_n_results_zero example_repr 1000 logger (lit "task") (Some 7) metrics
              dataset [] [] empty_world Hzero) as (_ & _ & Hinf & _ & Hmetrics & _).
  assert (Hne : metrics <> []) by discriminate.
  assert (Hstr : Forall (fun item => text_is_str item.2 = true) metrics)
    by (repeat constructor).
  destruct (Hmetrics Hne Hstr) as (line & _ & Hr & Hfile).
  split; [exact Hzero|]. split; [exact Hr|]. split.
  - eexists. exact Hfile.
  - etrans; [exact Hinf|]. apply lookup_empty.
Defined.

(** C10 at work: two bytes that are not UTF-8, two that are. *)
Lemma bytes_default_witness :
  let self := TensorAndNumpyEncoder_init None in
  let default := TensorAndNumpyEncoder_default example_repr self in
  (utf8_decode ["h"; "i"]%byte = Some (lit "hi")
   /\ default (PBytes ["h"; "i"]%byte) = Ok (PStr (lit "hi")))
  /\ (utf8_decode ["255"; "254"]%byte = None
      /\ (2 <= 1000)%nat
      /\ default (PBytes ["255"; "254"]%byte) = Ok (PBytes ["/"; "/"; "4"; "="]%byte)
      /\ json_dumps example_repr 1000 default (PBytes ["255"; "254"]%byte)
         = Ok [34; 47; 47; 52; 61; 34]%N).
Proof.
  intros self default.
  pose proof (bytes_default example_repr 1000 self ["h"; "i"]%byte) as (_ & Hdecoded & _).
  pose proof (bytes_default example_repr 1000 self ["255"; "254"]%byte) as (_ & _ & Hb64).
  assert (Hsome : utf8_decode ["h"; "i"]%byte = Some (lit "hi")) by reflexivity.
  assert (Hnone : utf8_decode ["255"; "254"]%byte = None) by reflexivity.
  assert (Hlimit : (2 <= 1000)%nat) by lia.
  destruct (Hb64 Hnone) as (Hdefault & _ & _ & Hdumps).
  split; [split; [exact Hsome | exact (Hdecoded _ Hsome)]|].
  split; [exact Hnone|]. split; [exact Hlimit|].
  split; [exact Hdefault | exact (Hdumps Hlimit)].
Defined.

(** * The further properties at work *)

(** X1 at work: a text with an accent, a newline and an emoji, and an
    array, through the encoder of the logger. *)
Lemma json_dumps_printable_witness :
  let default := TensorAndNumpyEncoder_default example_repr (TensorAndNumpyEncoder_init None) in
  let o := PDict [(lit "text", PStr [233; 10; 128512]%N);
                  (lit "ids", PNdarray example_small)] in
  let s := json_object [(lit "text", [34%N] ++ lit "\u00e9\n\ud83d\ude00" ++ [34%N]);
                        (lit "ids", lit "[[1, 2, 3], [4, 5, 6]]")] in
  (forall f, Forall (fun c => printable c = true) (example_repr (PFloat f)))
  /\ json_dumps example_repr 1000 default o = Ok s
  /\ Forall (fun c => printable c = true) s /\ 10%N ∉ s.
Proof.
  intros default o s.
  assert (Hrepr : forall f, Forall (fun c => printable c = true) (example_repr (PFloat f))).
  { intros f. change (example_repr (PFloat f)) with (lit "<object>").
    apply lit_printable. reflexivity. }
  assert (Hs : json_dumps example_repr 1000 default o = Ok s)
    by (vm_compute; reflexivity).
  split; [exact Hrepr|]. split; [exact Hs|].
  exact (json_dumps_printable example_repr 1000 default o s Hrepr Hs).
Defined.

(** X2 at work: a file of another name is not made. *)
Lemma json_call_frame_witness :
  let logger := JSONLogger_init example_repr (lit "/out") None None in
  let metrics := [(lit "accuracy", metrics.Scalar (metrics.Int 1))] in
  let dataset := [[(lit "inputs", PNdarray example_small)]] in
  let p := lit "/out/task-000008.jsonl" in
  let r := JSONLogger_call example_repr 1000 logger (lit "task") (Some 7) metrics
             dataset [] [] empty_world in
  p <> metrics_fname_of logger (lit "task")
  /\ p <> metrics_fname_of logger (lit "task") ++ lit ".tmp"
  /\ p <> inferences_fname_of logger (lit "task") 7
  /\ w_fs r.2 !! p = None.
Proof.
  intros logger metrics dataset p r.
  assert (H1 : p <> metrics_fname_of logger (lit "task"))
    by (intros E; vm_compute in E; discriminate E).
  assert (H2 : p <> metrics_fname_of logger (lit "task") ++ lit ".tmp")
    by (intros E; vm_compute in E; discriminate E).
  assert (H3 : p <> inferences_fname_of logger (lit "task") 7)
    by (intros E; vm_compute in E; discriminate E).
  split; [exact H1|]. split; [exact H2|]. split; [exact H3|].
  etrans; [exact (json_call_frame example_repr 1000 logger (lit "task") (Some 7) metrics
                    dataset [] [] empty_world p H1 H2 H3)|].
  apply lookup_empty.
Defined.

(** X3 at work: no metric and no inference to write. *)
Lemma metrics_empty_untouched_witness :
  let logger := JSONLogger_init example_repr (lit "/out") (Some (Some 0)) None in
  let r := JSONLogger_call example_repr 1000 logger (lit "task") (Some 7) []
             [[(lit "inputs", PNdarray example_small)]] [] [] empty_world in
  _write_n_results logger = Some 0 /\ r = (Ok tt, empty_world).
Proof.
  intros logger r.
  assert (Hzero : _write_n_results logger = Some 0) by reflexivity.
  split; [exact Hzero|].
  exact (proj2 (proj2 (metrics_empty_untouched example_repr 1000 logger (lit "task")
                         (Some 7) [[(lit "inputs", PNdarray example_small)]] [] []
                         empty_world)) Hzero).
Defined.

(** X4 at work: an accuracy appended to a new metrics file. *)
Lemma metrics_append_by_rename_witness :
  let logger := JSONLogger_init example_repr (lit "/out") (Some (Some 0)) None in
  let metrics := [(lit "accuracy", metrics.Scalar (metrics.Int 1))] in
  let fname := metrics_fname_of logger (lit "task") in
  let r := JSONLogger_call example_repr 1000 logger (lit "task") (Some 7) metrics
             [] [] [] empty_world in
  metrics <> []
  /\ Forall (fun item => text_is_str item.2 = true) metrics
  /\ is_Some (w_fs r.2 !! fname)
  /\ w_fs r.2 !! (fname ++ lit ".tmp") = None.
Proof.
  intros logger metrics fname r.
  assert (Hne : metrics <> []) by discriminate.
  assert (Hstr : Forall (fun item => text_is_str item.2 = true) metrics)
    by (repeat constructor).
  destruct (metrics_append_by_rename example_repr 1000 logger (lit "task") (Some 7) metrics
              [] [] [] empty_world Hne Hstr)
    as (line & rest & _ & _ & _ & _ & Hfile & Htmp).
  split; [exact Hne|]. split; [exact Hstr|]. split; [|exact Htmp].
  eexists. exact Hfile.
Defined.

(** X5 at work: a picture alone. *)
Lemma metrics_all_skipped_witness :
  let logger := JSONLogger_init example_repr (lit "/out") None None in
  let metrics := [(lit "picture", metrics.Image example_small 3)] in
  let r := JSONLogger_call example_repr 1000 logger (lit "task") (Some 7) metrics
             [] [] [] empty_world in
  metrics <> []
  /\ Forall (fun item => metric_payload item.2 = None) metrics
  /\ w_fs r.2 !! metrics_fname_of logger (lit "task")
     = Some (json_object [(lit "step", lit "7")] ++ [10%N]).
Proof.
  intros logger metrics r.
  assert (Hne : metrics <> []) by discriminate.
  assert (Hnone : Forall (fun item => metric_payload item.2 = None) metrics)
    by (repeat constructor).
  split; [exact Hne|]. split; [exact Hnone|].
  exact (proj1 (metrics_all_skipped example_repr 1000 logger (lit "task") (Some 7) metrics
                  [] [] [] empty_world Hne Hnone)).
Defined.

(** X6 at work: two steps of a task. *)
Lemma metrics_two_calls_witness :
  let logger := JSONLogger_init example_repr (lit "/out") None None in
  let metrics1 := [(lit "accuracy", metrics.Scalar (metrics.Int 1))] in
  let metrics2 := [(lit "accuracy", metrics.Scalar (metrics.Int 2))] in
  let r1 := JSONLogger_call example_repr 1000 logger (lit "task") (Some 1) metrics1
              [] [] [] empty_world in
  let r2 := JSONLogger_call example_repr 1000 logger (lit "task") (Some 2) metrics2
              [] [] [] r1.2 in
  metrics1 <> [] /\ metrics2 <> []
  /\ Forall (fun item => text_is_str item.2 = true) metrics1
  /\ Forall (fun item => text_is_str item.2 = true) metrics2
  /\ w_fs r2.2 !! metrics_fname_of logger (lit "task")
     = Some (json_object [(lit "step", lit "1"); (lit "accuracy", lit "1")] ++ [10%N]
             ++ json_object [(lit "step", lit "2"); (lit "accuracy", lit "2")] ++ [10%N]).
Proof.
  intros logger metrics1 metrics2 r1 r2.
  assert (Hne1 : metrics1 <> []) by discriminate.
  assert (Hne2 : metrics2 <> []) by discriminate.
  assert (Hstr1 : Forall (fun item => text_is_str item.2 = true) metrics1)
    by (repeat constructor).
  assert (Hstr2 : Forall (fun item => text_is_str item.2 = true) metrics2)
    by (repeat constructor).
  destruct (metrics_two_calls example_repr 1000 logger (lit "task") (Some 1) (Some 2)
              metrics1 metrics2 [] [] [] [] [] [] empty_world Hne1 Hne2 Hstr1 Hstr2)
    as (line1 & line2 & Hline1 & Hline2 & _ & Hfile).
  split; [exact Hne1|]. split; [exact Hne2|]. split; [exact Hstr1|]. split; [exact Hstr2|].
  etrans; [exact Hfile|].
  assert (E1 : line1 = json_object [(lit "step", lit "1"); (lit "accuracy", lit "1")])
    by (apply Ok_inj; etrans; [symmetry; exact Hline1 | reflexivity]).
  assert (E2 : line2 = json_object [(lit "step", lit "2"); (lit "accuracy", lit "2")])
    by (apply Ok_inj; etrans; [symmetry; exact Hline2 | reflexivity]).
  rewrite E1, E2. reflexivity.
Defined.

(** X8 at work: steps 1 and 2. *)
Lemma inferences_fname_step_witness :
  let logger := JSONLogger_init example_repr (lit "/out") None None in
  (1 <> 2)
  /\ inferences_fname_of logger (lit "task") 1 <> inferences_fname_of logger (lit "task") 2
  /\ length (format_06 1) = 6%nat.
Proof.
  intros logger.
  assert (Hne : 1 <> 2) by discriminate.
  split; [exact Hne|].
  exact (inferences_fname_step logger (lit "task") 1 2 Hne).
Defined.

(** X9 at work: one example, two predictions. *)
Lemma inferences_beyond_dataset_witness :
  let logger := JSONLogger_init example_repr (lit "/out") None None in
  let dataset := [[(lit "inputs", PNdarray example_small)]] in
  let inferences := [(lit "predictions", [PStr (lit "a"); PStr (lit "b")])] in
  let r := JSONLogger_call example_repr 1000 logger (lit "task") (Some 3) []
             dataset inferences [] empty_world in
  (_write_n_results logger = None
   \/ exists n, _write_n_results logger = Some n /\ 0 < n)
  /\ (JSONLogger_log_metrics example_repr 1000 logger (lit "task") 3 []
        (entry_world (Some 3) empty_world)).1 = Ok tt
  /\ (length dataset < length (entries_of logger dataset inferences []))%nat
  /\ Forall (fun e => entry_ok example_repr 1000 logger e = true)
       (take (length dataset) (entries_of logger dataset inferences []))
  /\ exists line,
       r.1 = Raise TypeError
       /\ w_fs r.2 !! inferences_fname_of logger (lit "task") 3 = Some (line ++ [10%N]).
Proof.
  intros logger dataset inferences r.
  assert (Hn : _write_n_results logger = None
               \/ exists n, _write_n_results logger = Some n /\ 0 < n)
    by (left; reflexivity).
  assert (Hm : (JSONLogger_log_metrics example_repr 1000 logger (lit "task") 3 []
                  (entry_world (Some 3) empty_world)).1 = Ok tt) by reflexivity.
  assert (Hlen : (length dataset < length (entries_of logger dataset inferences []))%nat)
    by (vm_compute; lia).
  assert (Hall : Forall (fun e => entry_ok example_repr 1000 logger e = true)
                   (take (length dataset) (entries_of logger dataset inferences []))).
  { apply Forall_forall. intros e He.
    repeat (apply elem_of_cons in He as [->|He]; [by vm_compute|]).
    by apply elem_of_nil in He. }
  destruct (inferences_beyond_dataset example_repr 1000 logger (lit "task") (Some 3) []
              dataset inferences [] empty_world Hn Hm Hlen Hall)
    as (lines & Hr & _ & Hlines & Hfs).
  split; [exact Hn|]. split; [exact Hm|]. split; [exact Hlen|]. split; [exact Hall|].
  destruct lines as [|line [|line' lines]]; [discriminate Hlines| |discriminate Hlines].
  exists line. split; [exact Hr|].
  pose proof (f_equal (fun fs => fs !! inferences_fname_of logger (lit "task") 3) Hfs)
    as Hlook.
  cbv beta in Hlook. etrans; [exact Hlook|].
  etrans; [apply lookup_insert_eq|]. cbn. by rewrite app_nil_r.
Defined.

(** X10 at work: [write_n_results=-1]. *)
Lemma write_n_results_negative_witness :
  let logger := JSONLogger_init example_repr (lit "/out") (Some (Some (-1))) None in
  let dataset := [[(lit "inputs", PNdarray example_small)]] in
  let r := JSONLogger_call example_repr 1000 logger (lit "task") (Some 3) []
             dataset [] [] empty_world in
  _write_n_results logger = Some (-1) /\ -1 < 0
  /\ (JSONLogger_log_metrics example_repr 1000 logger (lit "task") 3 []
        (entry_world (Some 3) empty_world)).1 = Ok tt
  /\ r.1 = Raise ValueError
  /\ w_fs r.2 = ∅.
Proof.
  intros logger dataset r.
  assert (Hn : _write_n_results logger = Some (-1)) by reflexivity.
  assert (Hneg : -1 < 0) by lia.
  assert (Hm : (JSONLogger_log_metrics example_repr 1000 logger (lit "task") 3 []
                  (entry_world (Some 3) empty_world)).1 = Ok tt) by reflexivity.
  pose proof (write_n_results_negative example_repr 1000 logger (lit "task") (Some 3) []
                dataset [] [] empty_world (-1) Hn Hneg Hm) as Hr.
  cbv zeta in Hr. fold r in Hr.
  split; [exact Hn|]. split; [exact Hneg|]. split; [exact Hm|].
  rewrite Hr. split; reflexivity.
Defined.

(** X11 at work: [write_n_results=5] for two examples. *)
Lemma write_n_results_all_witness :
  let logger := JSONLogger_init example_repr (lit "/out") (Some (Some 5)) None in
  let unbounded := JSONLogger_init example_repr (lit "/out") None None in
  let dataset := [[(lit "inputs", PNdarray example_small)];
                  [(lit "inputs", PNdarray example_large)]] in
  _write_n_results logger = Some 5 /\ 0 < 5
  /\ Z.of_nat (length (zip_longest dataset (@nil pyobj) (@nil pyobj) (@nil pyobj))) <= 5
  /\ JSONLogger_call example_repr 1000 logger (lit "task") (Some 3) [] dataset [] []
       empty_world
     = JSONLogger_call example_repr 1000 unbounded (lit "task") (Some 3) [] dataset [] []
         empty_world.
Proof.
  intros logger unbounded dataset.
  assert (Hn : _write_n_results logger = Some 5) by reflexivity.
  assert (Hpos : 0 < 5) by lia.
  assert (Hlen : Z.of_nat (length (zip_longest dataset (@nil pyobj) (@nil pyobj)
                                     (@nil pyobj))) <= 5) by (vm_compute; discriminate).
  split; [exact Hn|]. split; [exact Hpos|]. split; [exact Hlen|].
  exact (write_n_results_all example_repr 1000 logger (lit "task") (Some 3) [] dataset
           [] [] empty_world 5 Hn Hpos Hlen).
Defined.

(** X12 at work: an example alone. *)
Lemma example_without_target_witness :
  let logger := JSONLogger_init example_repr (lit "/out") None None in
  let inp := [(lit "inputs", PInt 1)] in
  let f := GFile_w (lit "/out/task-000003.jsonl") in
  json_dumps example_repr 1000 (_json_encoder_cls logger) (PDict (ragged_to_numpy inp))
  = Ok (json_object [(lit "inputs", lit "1")])
  /\ (JSONLogger_write_example example_repr 1000 logger f (Some inp, None, None, None)
        empty_world).1
     = Ok (mk_GFile (lit "/out/task-000003.jsonl") true).
Proof.
  intros logger inp f.
  assert (Hs : json_dumps example_repr 1000 (_json_encoder_cls logger)
                 (PDict (ragged_to_numpy inp))
               = Ok (json_object [(lit "inputs", lit "1")])) by reflexivity.
  split; [exact Hs|].
  exact (f_equal fst (example_without_target example_repr 1000 logger f inp empty_world
                        _ Hs)).
Defined.

(** X25 at work: one example, whose prediction is [1+2j]. *)
Lemma complex_prediction_raises_witness :
  let logger := JSONLogger_init example_repr (lit "/out") None None in
  let inp := [(lit "inputs", PStr (lit "q"))] in
  let z := PComplex (FFinite false 1 0) (FFinite false 2 0) in
  let r := JSONLogger_call example_repr 1000 logger (lit "task") (Some 3) []
             [inp] [(lit "predictions", [z])] [] empty_world in
  _json_encoder_cls logger
  = TensorAndNumpyEncoder_default example_repr (TensorAndNumpyEncoder_init None)
  /\ (JSONLogger_log_metrics example_repr 1000 logger (lit "task") 3 []
        (entry_world (Some 3) empty_world)).1 = Ok tt
  /\ r.1 = Raise AttributeError
  /\ w_fs r.2 = ∅.
Proof.
  intros logger inp z r.
  assert (Henc : _json_encoder_cls logger
                 = TensorAndNumpyEncoder_default example_repr (TensorAndNumpyEncoder_init None))
    by reflexivity.
  assert (Hm : (JSONLogger_log_metrics example_repr 1000 logger (lit "task") 3 []
                  (entry_world (Some 3) empty_world)).1 = Ok tt) by reflexivity.
  assert (Hn : _write_n_results logger = None
               \/ exists n, _write_n_results logger = Some n /\ 0 < n) by (left; reflexivity).
  assert (He : entries_of logger [inp] [(lit "predictions", [z])] []
               = (Some inp, Some z, None, None) :: []) by reflexivity.
  pose proof (proj2 (proj2 (complex_prediction_raises example_repr 1000 logger
                (TensorAndNumpyEncoder_init None) (lit "task") (Some 3) []
                [inp] [(lit "predictions", [z])] [] empty_world (GFile_w (lit "f")) inp
                (FFinite false 1 0) (FFinite false 2 0) None None [] Henc)) Hn Hm He) as Hr.
  cbv zeta in Hr. fold r in Hr.
  split; [exact Henc|]. split; [exact Hm|].
  rewrite Hr. split; reflexivity.
Defined.

(** X13 at work: a ragged tensor and an int. *)
Lemma ragged_to_numpy_values_witness :
  let inp := [(lit "inputs", PRaggedTensor example_small); (lit "id", PInt 1)] in
  NoDup inp.*1
  /\ ragged_to_numpy inp = [(lit "inputs", PNdarray example_small); (lit "id", PInt 1)].
Proof.
  intros inp.
  assert (Hnd : NoDup inp.*1) by (apply (bool_decide_unpack _); by vm_compute).
  split; [exact Hnd|].
  exact (proj1 (ragged_to_numpy_values inp Hnd)).
Defined.

(** X14 at work: two steps of a task, from a logger that has no writer. *)
Lemma tensorboard_two_calls_witness :
  let self := TensorBoardLogger_init (lit "/out") in
  let metrics1 := [(lit "accuracy", metrics.Scalar (metrics.Int 1))] in
  let metrics2 := [(lit "accuracy", metrics.Scalar (metrics.Int 2))] in
  let r1 := TensorBoardLogger_call (lit "task") (Some 1) metrics1 (self, empty_world) in
  let r2 := TensorBoardLogger_call (lit "task") (Some 2) metrics2 r1.2 in
  Forall (fun item => is_Scalar item.2 = true) metrics1
  /\ Forall (fun item => is_Scalar item.2 = true) metrics2
  /\ _summary_writers r2.2.1 !! lit "task"
     = Some (mk_FileWriter (lit "/out/task") []
               [mk_event (lit "eval/accuracy") (metrics.Int 1) 1;
                mk_event (lit "eval/accuracy") (metrics.Int 2) 2]).
Proof.
  intros self metrics1 metrics2 r1 r2.
  assert (Hall1 : Forall (fun item => is_Scalar item.2 = true) metrics1)
    by (repeat constructor).
  assert (Hall2 : Forall (fun item => is_Scalar item.2 = true) metrics2)
    by (repeat constructor).
  destruct (tensorboard_two_calls self (lit "task") 1 2 metrics1 metrics2 empty_world
              Hall1 Hall2) as (_ & _ & Hw & _).
  split; [exact Hall1|]. split; [exact Hall2|].
  pose proof (f_equal (fun writers => writers !! lit "task") Hw) as Hlook.
  cbv beta in Hlook. rewrite lookup_insert_eq in Hlook. exact Hlook.
Defined.

(** X15 at work: a scalar, then a text, then a scalar. *)
Lemma tensorboard_call_stops_witness :
  let self := TensorBoardLogger_init (lit "/out") in
  let pre := [(lit "accuracy", metrics.Scalar (metrics.Int 1))] in
  let post := [(lit "loss", metrics.Scalar (metrics.Int 0))] in
  let v := metrics.Text (metrics.Str (lit "ok")) in
  let r := TensorBoardLogger_call (lit "task") (Some 10) (pre ++ (lit "note", v) :: post)
             (self, empty_world) in
  Forall (fun item => is_Scalar item.2 = true) pre
  /\ is_Scalar v = false
  /\ r.1 = Raise ValueError
  /\ _summary_writers r.2.1 !! lit "task"
     = Some (mk_FileWriter (lit "/out/task")
               [mk_event (lit "eval/accuracy") (metrics.Int 1) 10] []).
Proof.
  intros self pre post v r.
  assert (Hpre : Forall (fun item => is_Scalar item.2 = true) pre) by (repeat constructor).
  assert (Hv : is_Scalar v = false) by reflexivity.
  destruct (tensorboard_call_stops self (lit "task") 10 pre post (lit "note") v
              empty_world Hpre Hv) as (Hr & Hw & _).
  split; [exact Hpre|]. split; [exact Hv|]. split; [exact Hr|].
  pose proof (f_equal (fun writers => writers !! lit "task") Hw) as Hlook.
  cbv beta in Hlook. rewrite lookup_insert_eq in Hlook. exact Hlook.
Defined.

(** X16 at work: the writer of another task is not made. *)
Lemma tensorboard_call_frame_witness :
  let self := TensorBoardLogger_init (lit "/out") in
  let metrics := [(lit "accuracy", metrics.Scalar (metrics.Int 1))] in
  let r := TensorBoardLogger_call (lit "task") (Some 10) metrics (self, empty_world) in
  lit "other" <> lit "task"
  /\ _summary_writers r.2.1 !! lit "other" = None.
Proof.
  intros self metrics r.
  assert (Hne : lit "other" <> lit "task") by (intros E; vm_compute in E; discriminate E).
  split; [exact Hne|].
  etrans; [exact (proj1 (tensorboard_call_frame self (lit "task") (lit "other") (Some 10)
                           metrics empty_world Hne))|].
  apply lookup_empty.
Defined.

(** X17 at work: two bfloat16 values under a limit of 1. *)
Lemma bfloat16_array_and_tensor_witness :
  let self := TensorAndNumpyEncoder_init (Some 1) in
  let xs := [FFinite false 1 0; FFinite false 1 1] in
  max_ndarray_size self < Z.of_nat (shape_size [2%nat])
  /\ TensorAndNumpyEncoder_default example_repr self
       (PNdarray (mk_ndarray (lit "ndarray") [2%nat] (NFloat BF16 xs)))
     = Ok (PStr (lit "ndarray(shape=(2,), dtype=bfloat16); first: <object>, <object> ..."))
  /\ TensorAndNumpyEncoder_default example_repr self
       (PTensor (mk_tensor [2%nat] (TFloat BF16 xs)))
     = Ok (PStr (lit "ndarray(shape=(2,), dtype=float32); first: <object>, <object> ...")).
Proof.
  intros self xs.
  assert (Hgt : max_ndarray_size self < Z.of_nat (shape_size [2%nat])) by reflexivity.
  split; [exact Hgt|].
  destruct (proj2 (bfloat16_array_and_tensor example_repr self 2 [] xs) Hgt) as [Ha Ht].
  split; [etrans; [exact Ha|] | etrans; [exact Ht|]]; vm_compute; reflexivity.
Defined.

(** X19 at work: two elements over a limit of 1. *)
Lemma summary_of_few_witness :
  let self := TensorAndNumpyEncoder_init (Some 1) in
  let a := mk_ndarray (lit "ndarray") [2%nat] (NInt true W64 [7; 8]) in
  max_ndarray_size self < Z.of_nat (nd_size a)
  /\ (length (flat_tolist (nd_data a)) <= 5)%nat
  /\ TensorAndNumpyEncoder_default example_repr self (PNdarray a)
     = Ok (PStr (lit "ndarray(shape=(2,), dtype=int64); first: 7, 8 ...")).
Proof.
  intros self a.
  assert (Hgt : max_ndarray_size self < Z.of_nat (nd_size a)) by reflexivity.
  assert (Hlen : (length (flat_tolist (nd_data a)) <= 5)%nat) by (vm_compute; lia).
  split; [exact Hgt|]. split; [exact Hlen|].
  etrans; [exact (summary_of_few example_repr self a Hgt Hlen)|].
  vm_compute. reflexivity.
Defined.

(** X20 at work: the two bytes of an e with an acute accent. *)
Lemma bytes_of_text_witness :
  let self := TensorAndNumpyEncoder_init None in
  utf8_encode [233%N] = Some ["195"; "169"]%byte
  /\ utf8_decode ["195"; "169"]%byte = Some [233%N]
  /\ TensorAndNumpyEncoder_default example_repr self (PBytes ["195"; "169"]%byte)
     = Ok (PStr [233%N]).
Proof.
  intros self.
  assert (Henc : utf8_encode [233%N] = Some ["195"; "169"]%byte) by reflexivity.
  destruct (bytes_of_text example_repr self ["195"; "169"]%byte [233%N])
    as (Hiff & Hdefault & _).
  split; [exact Henc|]. split; [exact (proj2 Hiff Henc) | exact (Hdefault Henc)].
Defined.

(** X21 at work: two bytes that differ. *)
Lemma b64encode_lossless_witness :
  ["000"]%byte <> ["001"]%byte
  /\ b64encode ["000"]%byte <> b64encode ["001"]%byte.
Proof.
  assert (Hne : ["000"]%byte <> ["001"]%byte) by discriminate.
  split; [exact Hne|].
  exact (proj1 (b64encode_lossless ["000"]%byte ["001"]%byte Hne)).
Defined.

(** X22 at work: the string of [SCORE]. *)
Lemma to_str_of_members_witness :
  clu_metrics.to_str clu_metrics.SCORE = Some (lit "score").
Proof.
  exact (proj1 (to_str_of_members clu_metrics.SCORE clu_metrics.SCORE)).
Defined.

(** X23 at work: [def accuracy(targets, predictions, normalize=True)]. *)
Lemma legacy_metric_empty_witness :
  let accuracy := clu_metrics.mk_function (lit "accuracy")
                    [clu_metrics.mk_param (lit "targets")
                       clu_metrics.POSITIONAL_OR_KEYWORD None;
                     clu_metrics.mk_param (lit "predictions")
                       clu_metrics.POSITIONAL_OR_KEYWORD None;
                     clu_metrics.mk_param (lit "normalize")
                       clu_metrics.POSITIONAL_OR_KEYWORD (Some (PBool true))] in
  (clu_metrics.pos_args accuracy, clu_metrics.PREDICTION) ∈ known_pos_args
  /\ clu_metrics.empty accuracy None
     = Ok (clu_metrics.mk_LegacyMetricClu accuracy None clu_metrics.PREDICTION []).
Proof.
  intros accuracy.
  assert (Hin : (clu_metrics.pos_args accuracy, clu_metrics.PREDICTION) ∈ known_pos_args)
    by (apply list_elem_of_further, list_elem_of_here).
  split; [exact Hin|].
  exact (proj1 (legacy_metric_empty accuracy None) clu_metrics.PREDICTION Hin).
Defined.

(** X24 at work: [def accuracy(targets, predictions, **kwargs)]. *)
Lemma legacy_metric_rejects_witness :
  let kwargs := clu_metrics.mk_param (lit "kwargs") clu_metrics.VAR_KEYWORD None in
  let accuracy := clu_metrics.mk_function (lit "accuracy")
                    [clu_metrics.mk_param (lit "targets")
                       clu_metrics.POSITIONAL_OR_KEYWORD None;
                     clu_metrics.mk_param (lit "predictions")
                       clu_metrics.POSITIONAL_OR_KEYWORD None;
                     kwargs] in
  kwargs ∈ clu_metrics.parameters accuracy
  /\ clu_metrics.param_default kwargs = None
  /\ (clu_metrics.param_name kwargs
       ∉ [lit "targets"; lit "scores"; lit "predictions"; lit "aux_values"])
  /\ clu_metrics.empty accuracy None = Raise ValueError.
Proof.
  intros kwargs accuracy.
  assert (Hin : kwargs ∈ clu_metrics.parameters accuracy)
    by (do 2 apply list_elem_of_further; apply list_elem_of_here).
  assert (Hdef : clu_metrics.param_default kwargs = None) by reflexivity.
  assert (Hname : clu_metrics.param_name kwargs
                    ∉ [lit "targets"; lit "scores"; lit "predictions"; lit "aux_values"])
    by (apply (bool_decide_unpack _); by vm_compute).
  split; [exact Hin|]. split; [exact Hdef|]. split; [exact Hname|].
  exact (legacy_metric_rejects accuracy None kwargs Hin Hdef Hname).
Defined.

(** X26 at work: two pretokenized targets and no feature at all. *)
Lemma pretokenized_targets_witness :
  let log_likelihood :=
    clu_metrics.mk_function (lit "log_likelihood")
      [clu_metrics.mk_param (lit "targets") clu_metrics.POSITIONAL_OR_KEYWORD None;
       clu_metrics.mk_param (lit "scores") clu_metrics.POSITIONAL_OR_KEYWORD None] in
  let self := clu_metrics.mk_LegacyMetricClu log_likelihood None clu_metrics.SCORE [] in
  let inputs := [[(lit "targets_pretokenized", PBytes ["195"; "169"]%byte)];
                 [(lit "targets_pretokenized", PStr (lit "b"))]] in
  let scores := PList [PInt 1; PInt 2] in
  clu_metrics.from_model_output (Voc := CodePoints_vocabulary) (Py := example_interpreter)
    self inputs scores [] None
  = (clu_metrics.Returns tt,
     clu_metrics.mk_LegacyMetricClu log_likelihood None clu_metrics.SCORE
       [(lit "targets", PList [PStr [233%N]; PStr (lit "b")]); (lit "scores", scores)]).
Proof.
  intros log_likelihood self inputs scores.
  rewrite (pretokenized_targets (Voc := CodePoints_vocabulary) (Py := example_interpreter)
             self inputs scores [] None [[233%N]; lit "b"]).
  - reflexivity.
  - reflexivity.
  - reflexivity.
  - constructor; [right; exists ["195"; "169"]%byte; split; reflexivity|].
    constructor; [left; reflexivity|constructor].
Defined.

(** X27 at work: a metric that was given [SCORE_WITH_INTERMEDIATES]. *)
Lemma score_with_intermediates_raises_witness :
  let score_fn :=
    clu_metrics.mk_function (lit "score_fn")
      [clu_metrics.mk_param (lit "targets") clu_metrics.POSITIONAL_OR_KEYWORD None;
       clu_metrics.mk_param (lit "scores") clu_metrics.POSITIONAL_OR_KEYWORD None] in
  let self := clu_metrics.mk_LegacyMetricClu score_fn None
                clu_metrics.SCORE_WITH_INTERMEDIATES [] in
  let inputs := [[(lit "targets", PList [PInt 104; PInt 105])]] in
  let features := [(lit "targets", clu_metrics.Feature_init code_points None None None None)] in
  clu_metrics.from_model_output (Voc := CodePoints_vocabulary) (Py := example_interpreter)
    self inputs (PList []) features None
  = (clu_metrics.Raises (clu_metrics.UnboundLocalError (lit "predictions")),
     clu_metrics.mk_LegacyMetricClu score_fn None clu_metrics.SCORE_WITH_INTERMEDIATES
       [(lit "targets", PList [PStr (lit "hi")])]).
Proof.
  intros score_fn self inputs features.
  assert (Hts : mapM (clu_metrics.target_of_example (Voc := CodePoints_vocabulary)
                        (Py := example_interpreter) self features
                        (default (lit "targets") None)) inputs
                = clu_metrics.Returns [PStr (lit "hi")]) by reflexivity.
  assert (Hf : is_Some (dict_get features (lit "targets"))) by (eexists; reflexivity).
  exact (proj2 (score_with_intermediates_raises (Voc := CodePoints_vocabulary)
                  (Py := example_interpreter) self inputs (PList []) features None eq_refl)
           [PStr (lit "hi")] Hts Hf).
Defined.

(** X28 at work: the targets are under [labels], as is their feature. *)
Lemma predictions_need_targets_feature_witness :
  let accuracy :=
    clu_metrics.mk_function (lit "accuracy")
      [clu_metrics.mk_param (lit "targets") clu_metrics.POSITIONAL_OR_KEYWORD None;
       clu_metrics.mk_param (lit "predictions") clu_metrics.POSITIONAL_OR_KEYWORD None] in
  let self := clu_metrics.mk_LegacyMetricClu accuracy None clu_metrics.PREDICTION [] in
  let inputs := [[(lit "labels", PList [PInt 104; PInt 105])]] in
  let features := [(lit "labels", clu_metrics.Feature_init code_points None None None None)] in
  let model_output := PList [PList [PInt 104; PInt 105]] in
  dict_get features (lit "targets") = None
  /\ clu_metrics.from_model_output (Voc := CodePoints_vocabulary) (Py := example_interpreter)
       self inputs model_output features (Some (lit "labels"))
     = (clu_metrics.Raises (clu_metrics.KeyError (lit "targets")),
        clu_metrics.mk_LegacyMetricClu accuracy None clu_metrics.PREDICTION
          [(lit "targets", PList [PStr (lit "hi")])]).
Proof.
  intros accuracy self inputs features model_output.
  assert (Hts : mapM (clu_metrics.target_of_example (Voc := CodePoints_vocabulary)
                        (Py := example_interpreter) self features
                        (default (lit "targets") (Some (lit "labels")))) inputs
                = clu_metrics.Returns [PStr (lit "hi")]) by reflexivity.
  assert (Hf : dict_get features (lit "targets") = None) by reflexivity.
  split; [exact Hf|].
  exact (predictions_need_targets_feature (Voc := CodePoints_vocabulary)
           (Py := example_interpreter) self inputs model_output features
           (Some (lit "labels")) [PStr (lit "hi")] Hts Hf).
Defined.

(** X29 at work: two examples and three rows, with [lower] for the
    postprocessing. *)
Lemma predictions_zip_witness :
  let accuracy :=
    clu_metrics.mk_function (lit "accuracy")
      [clu_metrics.mk_param (lit "targets") clu_metrics.POSITIONAL_OR_KEYWORD None;
       clu_metrics.mk_param (lit "predictions") clu_metrics.POSITIONAL_OR_KEYWORD None] in
  let lower :=
    clu_metrics.mk_function (lit "lower")
      [clu_metrics.mk_param (lit "s") clu_metrics.POSITIONAL_OR_KEYWORD None;
       clu_metrics.mk_param (lit "kwargs") clu_metrics.VAR_KEYWORD None] in
  let self := clu_metrics.mk_LegacyMetricClu accuracy (Some lower) clu_metrics.PREDICTION [] in
  let inputs := [[(lit "targets", PList [PInt 72; PInt 105])];
                 [(lit "targets_pretokenized", PStr (lit "No"))]] in
  let features := [(lit "targets", clu_metrics.Feature_init code_points None None None None)] in
  let rows := [PList [PInt 72; PInt 73]; PList [PInt 78; PInt 79]; PList [PInt 79; PInt 75]] in
  let self' := clu_metrics.mk_LegacyMetricClu accuracy (Some lower) clu_metrics.PREDICTION
                 [(lit "targets", PList [PStr (lit "hi"); PStr (lit "no")]);
                  (lit "predictions", PList [PStr (lit "hi"); PStr (lit "no")])] in
  clu_metrics.from_model_output (Voc := CodePoints_vocabulary) (Py := example_interpreter)
    self inputs (PList rows) features None
  = (clu_metrics.Returns tt, self')
  /\ exists ts ps,
       dict_get (clu_metrics.metric_fn_kwargs self') (lit "targets") = Some (PList ts)
       /\ dict_get (clu_metrics.metric_fn_kwargs self') (lit "predictions") = Some (PList ps)
       /\ length ts = 2%nat
       /\ length ps = Nat.min 2 3.
Proof.
  intros accuracy lower self inputs features rows self'.
  assert (Hr : clu_metrics.from_model_output (Voc := CodePoints_vocabulary)
                 (Py := example_interpreter) self inputs (PList rows) features None
               = (clu_metrics.Returns tt, self')) by reflexivity.
  split; [exact Hr|].
  exact (predictions_zip (Voc := CodePoints_vocabulary) (Py := example_interpreter)
           self self' inputs (PList rows) features None rows Hr
           (or_introl (conj eq_refl eq_refl))).
Defined.

(** X30 at work: one example with two answers, and two rows. *)
Lemma squad_from_model_output_witness :
  let inputs := [[(lit "answers", PList [PBytes ["195"; "169"]%byte; PStr (lit "b")])]] in
  let features := [(lit "targets", clu_metrics.Feature_init code_points None None None None)] in
  let rows := [PList [PInt 104]; PList [PInt 105]] in
  let squad := clu_metrics.mk_Squad
                 [(lit "targets", PList [PList [PStr [233%N]; PStr (lit "b")]]);
                  (lit "predictions", PList [PStr (lit "h"); PStr (lit "i")])]
                 clu_metrics.PREDICTION in
  clu_metrics.Squad_from_model_output (Voc := CodePoints_vocabulary)
    (Py := example_interpreter) inputs (PList rows) features (Some (lit "labels"))
  = clu_metrics.Returns squad
  /\ exists ts ps, clu_metrics.Squad_metric_fn_kwargs squad
                   = [(lit "targets", PList ts); (lit "predictions", PList ps)]
                   /\ length ts = 1%nat /\ length ps = 2%nat.
Proof.
  intros inputs features rows squad.
  assert (Hr : clu_metrics.Squad_from_model_output (Voc := CodePoints_vocabulary)
                 (Py := example_interpreter) inputs (PList rows) features (Some (lit "labels"))
               = clu_metrics.Returns squad) by reflexivity.
  split; [exact Hr|].
  destruct (squad_from_model_output (Voc := CodePoints_vocabulary)
              (Py := example_interpreter) inputs (PList rows) features (Some (lit "labels"))
              squad Hr) as (ts & ps & rows' & feature & Hs & _ & Hrows & Hps & Hts).
  exists ts, ps. split; [by rewrite Hs|].
  apply Forall2_length in Hts, Hps. injection Hrows as <-.
  split; [by rewrite <- Hts | by rewrite <- Hps].
Defined.
